(** * ClassTrack attendance service: a shallow embedding of [backend/server.py]

    The service is a set of request handlers over a document store with three
    collections ([classes], [students], [attendance]).  A handler is embedded
    as a state-passing function on a [World]: the three collections plus the
    number of identifiers and clock readings consumed so far.  A raised
    exception leaves the world as it is at that point: nothing is rolled
    back.  Documents are typed records; the store's own [_id] field, which
    [objectid_to_str] turns into a string and the pydantic models drop, is
    left out. *)

From Stdlib Require Import ZArith String Ascii List Bool Lia.
From Stdlib Require Import SpecFloat.
From stdpp Require Import base tactics option list gmap strings pretty.

Local Open Scope string_scope.

(** ** Records *)

(** [datetime] values are clock readings, in microseconds; [isoformat] and
    pydantic's parsing are inverse to each other on them, so a stored
    [marked_at] string and a returned [datetime] are compared as readings. *)
Definition datetime := Z.

(** A [datetime] handed to the store as such is kept as a BSON date, to the
    millisecond: what the store gives back is the reading cut down to whole
    milliseconds.  Only [created_at] of a class is stored this way;
    [marked_at] is handed over as its [isoformat()] string and kept in full. *)
Definition bson_datetime (t : datetime) : datetime := (t / 1000 * 1000)%Z.

(** A [date] is carried by its [isoformat()] string, the form the store
    keeps and the form the JSON bodies use. *)
Definition date := string.

Record ClassInfo := {
  cls_id : string;
  cls_name : string;
  cls_subject : string;
  cls_created_at : datetime }.

Record ClassCreate := {
  cc_name : string;
  cc_subject : string }.

Record Student := {
  stu_id : string;
  stu_name : string;
  stu_roll_number : string;
  stu_class_id : string }.

Record StudentCreate := {
  sc_name : string;
  sc_roll_number : string;
  sc_class_id : string }.

Record AttendanceRecord := {
  att_id : string;
  att_student_id : string;
  att_class_id : string;
  att_date : date;
  att_status : string;
  att_marked_at : datetime }.

Record AttendanceCreate := {
  ac_student_id : string;
  ac_class_id : string;
  ac_date : date;
  ac_status : string }.

(** [attendance_records: List[dict]]: each element is a dictionary; the keys
    the handler reads may be missing. *)
Record AttendanceBulkCreate := {
  bulk_class_id : string;
  bulk_date : date;
  bulk_attendance_records : list (gmap string string) }.

Global Instance ClassInfo_eq_dec : EqDecision ClassInfo.
Proof. solve_decision. Defined.
Global Instance Student_eq_dec : EqDecision Student.
Proof. solve_decision. Defined.
Global Instance AttendanceRecord_eq_dec : EqDecision AttendanceRecord.
Proof. solve_decision. Defined.

(** ** Exceptions and results *)

Inductive exn :=
| HTTPException (status_code : Z) (detail : string)
| KeyError (key : string)
| ZeroDivisionError.

Inductive result (A : Type) :=
| Ok (a : A)
| Raise (e : exn).
Arguments Ok {A} a.
Arguments Raise {A} e.

Definition result_bind {A B} (r : result A) (k : A → result B) : result B :=
  match r with
  | Ok a => k a
  | Raise e => Raise e
  end.

(** ** Raw documents

    What the store hands back before a pydantic model reads it: a dictionary
    whose values are [ObjectId]s, dictionaries, lists or plain values.  A
    dictionary is the list of its items, in order. *)

Local Unset Elimination Schemes.
Inductive bson :=
| BObjectId (hex : string)
| BDict (fields : list (string * bson))
| BList (items : list bson)
| BStr (s : string)
| BInt (n : Z)
| BNone.
Local Set Elimination Schemes.

(** [str(value)] of an [ObjectId] is its hexadecimal string. *)
Fixpoint objectid_to_str (obj : bson) : bson :=
  match obj with
  | BDict fields =>
      BDict (map (fun kv : string * bson =>
                    let (key, value) := kv in
                    (key,
                     match value with
                     | BObjectId hex => BStr hex
                     | BDict _ => objectid_to_str value
                     | BList items =>
                         BList (map (fun item => match item with
                                                 | BDict _ => objectid_to_str item
                                                 | _ => item
                                                 end) items)
                     | _ => value
                     end)) fields)
  | _ => obj
  end.

(** ** The document store *)

Section Collection.
Context {A : Type}.

(** [insert_one]: the collection keeps its documents in insertion order. *)
Definition insert_one (doc : A) (coll : list A) : list A := coll ++ [doc].

(** [find_one]: the first document that matches, if any. *)
Fixpoint find_one (P : A → Prop) `{!∀ x, Decision (P x)} (coll : list A) : option A :=
  match coll with
  | [] => None
  | d :: rest => if decide (P d) then Some d else find_one P rest
  end.

(** [find]: a cursor over the matching documents, in store order. *)
Definition find (P : A → Prop) `{!∀ x, Decision (P x)} (coll : list A) : list A :=
  filter P coll.

(** [cursor.to_list(n)]: at most [n] documents of the cursor. *)
Definition to_list (n : nat) (cursor : list A) : list A := take n cursor.

(** [update_one]: applies the update to the first match only. *)
Fixpoint update_one (P : A → Prop) `{!∀ x, Decision (P x)} (upd : A → A)
    (coll : list A) : list A :=
  match coll with
  | [] => []
  | d :: rest => if decide (P d) then upd d :: rest else d :: update_one P upd rest
  end.
End Collection.

Record World := {
  classes : list ClassInfo;
  students : list Student;
  attendance : list AttendanceRecord;
  uuid_calls : nat;
  clock_calls : nat }.

Definition set_classes (f : list ClassInfo → list ClassInfo) (w : World) : World :=
  {| classes := f (classes w); students := students w; attendance := attendance w;
     uuid_calls := uuid_calls w; clock_calls := clock_calls w |}.
Definition set_students (f : list Student → list Student) (w : World) : World :=
  {| classes := classes w; students := f (students w); attendance := attendance w;
     uuid_calls := uuid_calls w; clock_calls := clock_calls w |}.
Definition set_attendance (f : list AttendanceRecord → list AttendanceRecord) (w : World) : World :=
  {| classes := classes w; students := students w; attendance := f (attendance w);
     uuid_calls := uuid_calls w; clock_calls := clock_calls w |}.

(** ** Handlers *)

Definition Handler (A : Type) : Type := World → result A * World.

Definition ret {A} (a : A) : Handler A := fun w => (Ok a, w).
Definition raise {A} (e : exn) : Handler A := fun w => (Raise e, w).
Definition bind {A B} (m : Handler A) (k : A → Handler B) : Handler B :=
  fun w => match m w with
           | (Ok a, w') => k a w'
           | (Raise e, w') => (Raise e, w')
           end.
Definition gets {A} (f : World → A) : Handler A := fun w => (Ok (f w), w).
Definition modify (f : World → World) : Handler unit := fun w => (Ok tt, f w).
Definition lift {A} (r : result A) : Handler A := fun w => (r, w).

Declare Scope handler_scope.
Delimit Scope handler_scope with handler.
Notation "x <- m ;; k" := (bind m (fun x => k))
  (at level 100, m at next level, right associativity) : handler_scope.
Notation "m ;; k" := (bind m (fun _ => k))
  (at level 100, right associativity) : handler_scope.
Local Open Scope handler_scope.

(** Python truthiness of the values the handlers test. *)
Definition truthy (s : string) : bool := negb (String.eqb s "").
Definition truthy_opt (o : option string) : bool :=
  match o with
  | Some s => truthy s
  | None => false
  end.

Global Instance result_ret : MRet result := fun _ a => Ok a.
Global Instance result_mbind : MBind result := fun _ _ k r => result_bind r k.

(** ** Python numbers

    A Python [float] is an IEEE 754 binary64 number; [SpecFloat] gives its
    operations on mantissa and exponent.  The embedding is exact for the
    integers the report meets (counts of fetched records, and 100). *)

Definition float_of_int (n : Z) : spec_float := binary_normalize 53 1024 n 0 false.
Definition float_mul : spec_float → spec_float → spec_float := SFmul 53 1024.
Definition float_div : spec_float → spec_float → spec_float := SFdiv 53 1024.

Inductive pynum :=
| PyInt (n : Z)
| PyFloat (x : spec_float).

Global Instance spec_float_eq_dec : EqDecision spec_float.
Proof. solve_decision. Defined.
Global Instance pynum_eq_dec : EqDecision pynum.
Proof. solve_decision. Defined.

(** [a / b] on integers: true division, [ZeroDivisionError] on [b = 0]. *)
Definition int_truediv (a b : Z) : result spec_float :=
  if decide (b = 0%Z) then Raise ZeroDivisionError
  else Ok (float_div (float_of_int a) (float_of_int b)).

(** The integer nearest to [m * 2^e], ties to the even one. *)
Definition round_half_even (m e : Z) : Z :=
  match e with
  | Zneg p =>
      let d := (2 ^ Zpos p)%Z in
      let q := (m / d)%Z in
      match (2 * (m mod d) ?= d)%Z with
      | Lt => q
      | Gt => (q + 1)%Z
      | Eq => if Z.even q then q else (q + 1)%Z
      end
  | _ => (m * 2 ^ e)%Z
  end.

(** [round(x, ndigits)] on a float: the exact value of [x] is rounded to
    [ndigits] decimals, ties to even, and the decimal obtained is read back
    as the nearest float. *)
Definition float_round (x : spec_float) (ndigits : N) : spec_float :=
  match x with
  | S754_finite s m e =>
      let p := (10 ^ Z.of_N ndigits)%Z in
      let r := float_div (float_of_int (round_half_even (Zpos m * p) e)) (float_of_int p) in
      if s then SFopp r else r
  | _ => x
  end.

(** [round(v, ndigits)] with [ndigits >= 0]: an [int] is returned as it is. *)
Definition py_round (v : pynum) (ndigits : N) : pynum :=
  match v with
  | PyInt n => PyInt n
  | PyFloat x => PyFloat (float_round x ndigits)
  end.

(** ** Report values *)

Record StudentStats := {
  student_name : string;
  roll_number : string;
  total_days : nat;
  present : nat;
  absent : nat;
  late : nat;
  attendance_percentage : pynum }.

Record Report := {
  class_info : ClassInfo;
  report_period : option string * option string;
  student_statistics : gmap string StudentStats }.

Record BulkResponse := {
  message : string;
  records : list AttendanceRecord }.

(** The [date] part of a query: [{"$gte": s, "$lte": e}], either key optional. *)
Record DateCond := {
  gte : option string;
  lte : option string }.

(** [{"class_id": c}] with an optional ["date"] condition. *)
Record DateFilter := {
  f_class_id : string;
  f_date : option DateCond }.

(** Strings compare as the store compares them: by code unit, left to right. *)
Definition date_cond_holds (c : DateCond) (d : string) : Prop :=
  match gte c with Some s => String.le s d | None => True end ∧
  match lte c with Some e => String.le d e | None => True end.

Global Instance date_cond_holds_dec c d : Decision (date_cond_holds c d).
Proof. unfold date_cond_holds; destruct (gte c), (lte c); apply _. Defined.

Definition date_filter_matches (q : DateFilter) (r : AttendanceRecord) : Prop :=
  att_class_id r = f_class_id q ∧
  match f_date q with Some c => date_cond_holds c (att_date r) | None => True end.

Global Instance date_filter_matches_dec q r : Decision (date_filter_matches q r).
Proof. unfold date_filter_matches; destruct (f_date q); apply _. Defined.

(** [record[key]] on a dictionary. *)
Definition getitem (record : gmap string string) (key : string) : result string :=
  match record !! key with
  | Some v => Ok v
  | None => Raise (KeyError key)
  end.

Section Service.
(** The identifiers [uuid.uuid4()] hands out and the readings
    [datetime.utcnow()] returns, by call number. *)
Variable uuid4_at : nat → string.
Variable utcnow_at : nat → datetime.

Definition uuid4 : Handler string := fun w =>
  (Ok (uuid4_at (uuid_calls w)),
   {| classes := classes w; students := students w; attendance := attendance w;
      uuid_calls := S (uuid_calls w); clock_calls := clock_calls w |}).

Definition utcnow : Handler datetime := fun w =>
  (Ok (utcnow_at (clock_calls w)),
   {| classes := classes w; students := students w; attendance := attendance w;
      uuid_calls := uuid_calls w; clock_calls := S (clock_calls w) |}).

(** *** Classes *)

(** [class_obj.dict()] as [db.classes] gives it back: the strings as they
    are, [created_at] as the store keeps a [datetime]. *)
Definition stored_class (class_obj : ClassInfo) : ClassInfo :=
  {| cls_id := cls_id class_obj; cls_name := cls_name class_obj;
     cls_subject := cls_subject class_obj;
     cls_created_at := bson_datetime (cls_created_at class_obj) |}.

Definition create_class (class_data : ClassCreate) : Handler ClassInfo :=
  i <- uuid4 ;;
  t <- utcnow ;;
  let class_obj := {| cls_id := i; cls_name := cc_name class_data;
                      cls_subject := cc_subject class_data; cls_created_at := t |} in
  modify (set_classes (insert_one (stored_class class_obj))) ;;
  ret class_obj.

Definition get_classes : Handler (list ClassInfo) :=
  gets (fun w => to_list 1000 (find (fun _ => True) (classes w))).

Definition get_class (class_id : string) : Handler ClassInfo :=
  cls <- gets (fun w => find_one (fun c => cls_id c = class_id) (classes w)) ;;
  match cls with
  | None => raise (HTTPException 404 "Class not found")
  | Some c => ret c
  end.

(** *** Students *)

Definition create_student (student_data : StudentCreate) : Handler Student :=
  i <- uuid4 ;;
  let student_obj := {| stu_id := i; stu_name := sc_name student_data;
                        stu_roll_number := sc_roll_number student_data;
                        stu_class_id := sc_class_id student_data |} in
  modify (set_students (insert_one student_obj)) ;;
  ret student_obj.

(** The query dictionary of [get_students]: [{}] or [{"class_id": c}]. *)
Definition students_query (class_id : option string) : option string :=
  if truthy_opt class_id then class_id else None.

Definition student_matches (query : option string) (s : Student) : Prop :=
  match query with
  | Some c => stu_class_id s = c
  | None => True
  end.

Global Instance student_matches_dec query s : Decision (student_matches query s).
Proof. destruct query; simpl; apply _. Defined.

Definition get_students (class_id : option string) : Handler (list Student) :=
  let query := students_query class_id in
  gets (fun w => to_list 1000 (find (student_matches query) (students w))).

Definition get_student (student_id : string) : Handler Student :=
  student <- gets (fun w => find_one (fun s => stu_id s = student_id) (students w)) ;;
  match student with
  | None => raise (HTTPException 404 "Student not found")
  | Some s => ret s
  end.

(** *** Attendance *)

(** The filter of the lookup in [mark_attendance]: the exact
    [(student_id, class_id, date)] triple. *)
Definition same_triple (data : AttendanceCreate) (r : AttendanceRecord) : Prop :=
  att_student_id r = ac_student_id data ∧
  att_class_id r = ac_class_id data ∧
  att_date r = ac_date data.

Global Instance same_triple_dec data r : Decision (same_triple data r).
Proof. unfold same_triple; apply _. Defined.

(** [{"$set": {"status": ..., "marked_at": ...}}], also used for
    [existing.update(...)]. *)
Definition set_status (status : string) (marked_at : datetime)
    (r : AttendanceRecord) : AttendanceRecord :=
  {| att_id := att_id r; att_student_id := att_student_id r;
     att_class_id := att_class_id r; att_date := att_date r;
     att_status := status; att_marked_at := marked_at |}.

Definition mark_attendance (attendance_data : AttendanceCreate) : Handler AttendanceRecord :=
  existing <- gets (fun w => find_one (same_triple attendance_data) (attendance w)) ;;
  match existing with
  | Some existing =>
      t1 <- utcnow ;;
      modify (set_attendance
                (update_one (fun r => att_id r = att_id existing)
                            (set_status (ac_status attendance_data) t1))) ;;
      t2 <- utcnow ;;
      ret (set_status (ac_status attendance_data) t2 existing)
  | None =>
      i <- uuid4 ;;
      t1 <- utcnow ;;
      let attendance_obj :=
        {| att_id := i; att_student_id := ac_student_id attendance_data;
           att_class_id := ac_class_id attendance_data;
           att_date := ac_date attendance_data;
           att_status := ac_status attendance_data; att_marked_at := t1 |} in
      t2 <- utcnow ;;
      let attendance_doc :=
        {| att_id := att_id attendance_obj;
           att_student_id := att_student_id attendance_obj;
           att_class_id := att_class_id attendance_obj;
           att_date := ac_date attendance_data;
           att_status := att_status attendance_obj; att_marked_at := t2 |} in
      modify (set_attendance (insert_one attendance_doc)) ;;
      ret attendance_obj
  end.

Fixpoint mark_bulk_loop (bulk_data : AttendanceBulkCreate)
    (todo : list (gmap string string)) (results : list AttendanceRecord)
    : Handler (list AttendanceRecord) :=
  match todo with
  | [] => ret results
  | record :: rest =>
      student_id <- lift (getitem record "student_id") ;;
      status <- lift (getitem record "status") ;;
      let attendance_data :=
        {| ac_student_id := student_id; ac_class_id := bulk_class_id bulk_data;
           ac_date := bulk_date bulk_data; ac_status := status |} in
      result <- mark_attendance attendance_data ;;
      mark_bulk_loop bulk_data rest (results ++ [result])
  end.

Definition mark_bulk_attendance (bulk_data : AttendanceBulkCreate) : Handler BulkResponse :=
  results <- mark_bulk_loop bulk_data (bulk_attendance_records bulk_data) [] ;;
  ret {| message := "Marked attendance for " +:+ pretty (length results) +:+ " students";
         records := results |}.

(** The query of [get_attendance]: [{"class_id": c}], plus ["date"] when
    one is given. *)
Definition attendance_query_matches (class_id : string) (date : option string)
    (r : AttendanceRecord) : Prop :=
  att_class_id r = class_id ∧
  if truthy_opt date then Some (att_date r) = date else True.

Global Instance attendance_query_matches_dec c d r :
  Decision (attendance_query_matches c d r).
Proof. unfold attendance_query_matches; destruct (truthy_opt d); apply _. Defined.

Definition get_attendance (class_id : string) (date : option string)
    : Handler (list AttendanceRecord) :=
  gets (fun w => to_list 1000 (find (attendance_query_matches class_id date) (attendance w))).

(** *** Reports *)

Definition build_date_filter (class_id : string) (start_date end_date : option string)
    : DateFilter :=
  let date_filter := {| f_class_id := class_id; f_date := None |} in
  let date_filter :=
    if truthy_opt start_date
    then {| f_class_id := f_class_id date_filter;
            f_date := Some {| gte := start_date; lte := None |} |}
    else date_filter in
  if truthy_opt end_date
  then match f_date date_filter with
       | Some c => {| f_class_id := f_class_id date_filter;
                      f_date := Some {| gte := gte c; lte := end_date |} |}
       | None => {| f_class_id := f_class_id date_filter;
                    f_date := Some {| gte := None; lte := end_date |} |}
       end
  else date_filter.

(** The body of the loop over [students], for one student. *)
Definition student_entry (attendance_records : list AttendanceRecord)
    (student : Student) : result StudentStats :=
  let student_id := stu_id student in
  let student_attendance :=
    filter (fun r => att_student_id r = student_id) attendance_records in
  let total_days := length student_attendance in
  let present_count := length (filter (fun r => att_status r = "present") student_attendance) in
  let absent_count := length (filter (fun r => att_status r = "absent") student_attendance) in
  let late_count := length (filter (fun r => att_status r = "late") student_attendance) in
  attendance_percentage ←
    (if decide (0 < total_days)
     then q ← int_truediv (Z.of_nat present_count) (Z.of_nat total_days);
          mret (PyFloat (float_mul q (float_of_int 100)))
     else mret (PyInt 0));
  mret {| student_name := stu_name student;
          roll_number := stu_roll_number student;
          total_days := total_days;
          present := present_count;
          absent := absent_count;
          late := late_count;
          attendance_percentage := py_round attendance_percentage 2 |}.

Fixpoint student_stats_loop (attendance_records : list AttendanceRecord)
    (todo : list Student) (student_stats : gmap string StudentStats)
    : result (gmap string StudentStats) :=
  match todo with
  | [] => mret student_stats
  | student :: rest =>
      entry ← student_entry attendance_records student;
      student_stats_loop attendance_records rest (<[stu_id student := entry]> student_stats)
  end.

(** [students = await db.students.find({"class_id": class_id}).to_list(1000)] *)
Definition report_students (class_id : string) : Handler (list Student) :=
  gets (fun w => to_list 1000 (find (fun s => stu_class_id s = class_id) (students w))).

(** [attendance_records = await db.attendance.find(date_filter).to_list(1000)] *)
Definition report_attendance_records (class_id : string)
    (start_date end_date : option string) : Handler (list AttendanceRecord) :=
  let date_filter := build_date_filter class_id start_date end_date in
  gets (fun w => to_list 1000 (find (date_filter_matches date_filter) (attendance w))).

Definition get_class_report (class_id : string) (start_date end_date : option string)
    : Handler Report :=
  cls <- gets (fun w => find_one (fun c => cls_id c = class_id) (classes w)) ;;
  match cls with
  | None => raise (HTTPException 404 "Class not found")
  | Some cls =>
      students <- report_students class_id ;;
      attendance_records <- report_attendance_records class_id start_date end_date ;;
      student_stats <- lift (student_stats_loop attendance_records students ∅) ;;
      ret {| class_info := cls;
             report_period := (start_date, end_date);
             student_statistics := student_stats |}
  end.

End Service.

(** * Vocabulary of the properties *)

Local Open Scope list_scope.
Local Open Scope nat_scope.

(** What the report fetches from [students]: the value of [report_students]. *)
Definition fetched_students (class_id : string) (w : World) : list Student :=
  to_list 1000 (find (fun s => stu_class_id s = class_id) (students w)).

(** What the report fetches from [attendance]: the value of
    [report_attendance_records]. *)
Definition fetched_attendance (class_id : string) (start_date end_date : option string)
    (w : World) : list AttendanceRecord :=
  to_list 1000 (find (date_filter_matches (build_date_filter class_id start_date end_date))
                     (attendance w)).

(** [student_attendance]: the fetched records that carry the student's id. *)
Definition records_of (student_id : string) (records : list AttendanceRecord)
    : list AttendanceRecord :=
  filter (fun r => att_student_id r = student_id) records.

(** The number of records with exactly this status string. *)
Definition count_status (status : string) (records : list AttendanceRecord) : nat :=
  length (filter (fun r => att_status r = status) records).

(** [present / total_days * 100], rounded to two decimals, in binary64. *)
Definition percentage (present_count total : nat) : spec_float :=
  float_round
    (float_mul (float_div (float_of_int (Z.of_nat present_count)) (float_of_int (Z.of_nat total)))
               (float_of_int 100)) 2.

(** The entry the loop body computes for a student: the value of
    [student_entry]. *)
Definition entry_of (records : list AttendanceRecord) (student : Student) : StudentStats :=
  let mine := records_of (stu_id student) records in
  {| student_name := stu_name student;
     roll_number := stu_roll_number student;
     total_days := length mine;
     present := count_status "present" mine;
     absent := count_status "absent" mine;
     late := count_status "late" mine;
     attendance_percentage :=
       if decide (0 < length mine)
       then PyFloat (percentage (count_status "present" mine) (length mine))
       else PyInt 0 |}.

(** The dictionary the loop builds: the value of [student_stats_loop]. *)
Definition stats_of (records : list AttendanceRecord) (studs : list Student)
    (acc : gmap string StudentStats) : gmap string StudentStats :=
  foldl (fun m st => <[stu_id st := entry_of records st]> m) acc studs.

(** [HTTPException(status_code=404, detail=...)]. *)
Definition not_found (detail : string) : exn := HTTPException 404 detail.

(** The students a listing selects before the cap: an empty [class_id] is
    falsy and selects like no [class_id] at all. *)
Definition selected_students (class_id : option string) (w : World) : list Student :=
  match class_id with
  | Some c => if decide (c = "") then students w
              else filter (fun s => stu_class_id s = c) (students w)
  | None => students w
  end.

(** The window as the handler applies it: a bound that is absent or empty
    does not constrain; a bound that is present is inclusive. *)
Definition in_window (start_date end_date : option string) (d : string) : Prop :=
  match start_date with Some s => s = "" ∨ String.le s d | None => True end ∧
  match end_date with Some e => e = "" ∨ String.le d e | None => True end.

Global Instance in_window_dec start_date end_date d :
  Decision (in_window start_date end_date d).
Proof. unfold in_window; destruct start_date, end_date; apply _. Defined.

(** The store cut down to what a report of [class_id] over the window fetches. *)
Definition truncated (class_id : string) (start_date end_date : option string)
    (w : World) : World :=
  {| classes := classes w;
     students := fetched_students class_id w;
     attendance := fetched_attendance class_id start_date end_date w;
     uuid_calls := uuid_calls w; clock_calls := clock_calls w |}.

(** The report of a class that exists: the value of [get_class_report]. *)
Definition report_of (class_id : string) (start_date end_date : option string)
    (w : World) (cls : ClassInfo) : Report :=
  {| class_info := cls; report_period := (start_date, end_date);
     student_statistics :=
       stats_of (fetched_attendance class_id start_date end_date w)
                (fetched_students class_id w) ∅ |}.

(** A status outside the three strings the report recognises. *)
Definition other_status (r : AttendanceRecord) : Prop :=
  att_status r ≠ "present" ∧ att_status r ≠ "absent" ∧ att_status r ≠ "late".

Global Instance other_status_dec r : Decision (other_status r).
Proof. unfold other_status; apply _. Defined.

(** At most one attendance record per [(student_id, class_id, date)]. *)
Definition at_most_one_per_triple (l : list AttendanceRecord) : Prop :=
  ∀ data : AttendanceCreate, length (filter (same_triple data) l) ≤ 1.

(** The world after a mark: the new attendance collection, and the calls to
    [uuid4] and [utcnow] the mark made. *)
Definition with_attendance (l : list AttendanceRecord) (uuids clocks : nat) (w : World) : World :=
  {| classes := classes w; students := students w; attendance := l;
     uuid_calls := uuids + uuid_calls w; clock_calls := clocks + clock_calls w |}.

(** The record built from a request, an identifier and a clock reading. *)
Definition new_record (data : AttendanceCreate) (i : string) (t : datetime) : AttendanceRecord :=
  {| att_id := i; att_student_id := ac_student_id data; att_class_id := ac_class_id data;
     att_date := ac_date data; att_status := ac_status data; att_marked_at := t |}.

(** The request the loop builds for a [{student_id, status}] pair. *)
Definition pair_request (bulk_data : AttendanceBulkCreate) (p : string * string)
    : AttendanceCreate :=
  {| ac_student_id := p.1; ac_class_id := bulk_class_id bulk_data;
     ac_date := bulk_date bulk_data; ac_status := p.2 |}.

(** The dictionary carries the pair under the two keys the loop reads. *)
Definition reads_as (record : gmap string string) (p : string * string) : Prop :=
  record !! "student_id" = Some p.1 ∧ record !! "status" = Some p.2.

(** The first key the loop misses in a dictionary, if any. *)
Definition missing_key (record : gmap string string) : option string :=
  match record !! "student_id", record !! "status" with
  | None, _ => Some "student_id"
  | Some _, None => Some "status"
  | Some _, Some _ => None
  end.

(** [f"Marked attendance for {len(results)} students"]. *)
Definition bulk_message (n : nat) : string :=
  "Marked attendance for " +:+ pretty n +:+ " students".

(** The individual mark applied once per request, in list order, each on the
    store the previous one left. *)
Fixpoint mark_each (uuid4_at : nat → string) (utcnow_at : nat → datetime)
    (requests : list AttendanceCreate) : Handler (list AttendanceRecord) :=
  match requests with
  | [] => ret []
  | data :: rest =>
      r <- mark_attendance uuid4_at utcnow_at data ;;
      rs <- mark_each uuid4_at utcnow_at rest ;;
      ret (r :: rs)
  end.

(** Two requests for the same [(student_id, class_id, date)]. *)
Definition same_key (data data' : AttendanceCreate) : Prop :=
  ac_student_id data = ac_student_id data' ∧ ac_class_id data = ac_class_id data' ∧
  ac_date data = ac_date data'.

(** At most one record per triple, pairwise distinct record ids, and every
    record id is one [uuid4] has already handed out. *)
Definition store_wf (uuid4_at : nat → string) (w : World) : Prop :=
  at_most_one_per_triple (attendance w) ∧
  NoDup (att_id <$> attendance w) ∧
  ∀ i, i ∈ att_id <$> attendance w → ∃ k, k < uuid_calls w ∧ i = uuid4_at k.

(** One request that writes to the store. *)
Inductive step (uuid4_at : nat → string) (utcnow_at : nat → datetime) : World → World → Prop :=
| step_create_class class_data w :
    step uuid4_at utcnow_at w (create_class uuid4_at utcnow_at class_data w).2
| step_create_student student_data w :
    step uuid4_at utcnow_at w (create_student uuid4_at student_data w).2
| step_mark_attendance data w :
    step uuid4_at utcnow_at w (mark_attendance uuid4_at utcnow_at data w).2
| step_mark_bulk_attendance bulk_data w :
    step uuid4_at utcnow_at w (mark_bulk_attendance uuid4_at utcnow_at bulk_data w).2.

(** The float nearest to [n / 100]. *)
Definition decimal2 (n : Z) : spec_float := float_div (float_of_int n) (float_of_int 100).

(** The number of hundredths [round] settles on for [present / total * 100]. *)
Definition percentage_hundredths (present_count total : nat) : Z :=
  match float_mul (float_div (float_of_int (Z.of_nat present_count))
                             (float_of_int (Z.of_nat total)))
                  (float_of_int 100) with
  | S754_finite _ m e => round_half_even (Zpos m * 100) e
  | _ => 0
  end.

(** [n] is an integer nearest to [10000 * present / total]. *)
Definition nearest_hundredth (present_count total : nat) (n : Z) : bool :=
  (Z.abs (2 * (n * Z.of_nat total - 10000 * Z.of_nat present_count)) <=? Z.of_nat total)%Z.

(** [f] holds of every number up to [n]. *)
Fixpoint all_upto (f : nat → bool) (n : nat) : bool :=
  match n with
  | O => f O
  | S k => f (S k) && all_upto f k
  end.

(** The percentage is the float of its hundredths, and these are nearest to
    the exact percentage. *)
Definition percentage_checked (present_count total : nat) : bool :=
  let n := percentage_hundredths present_count total in
  nearest_hundredth present_count total n &&
  bool_decide (percentage present_count total = decimal2 n).

(** [n] is the integer nearest to [m * 2^e], and the even one of the two
    nearest when [m * 2^e] lies midway between them.  For [e < 0] the
    distance is taken after multiplying by [2 * 2^(-e)], so that no
    division is needed. *)
Definition nearest_integer (m e n : Z) : Prop :=
  if decide (0 ≤ e)%Z then n = (m * 2 ^ e)%Z
  else (Z.abs (2 * (m - n * 2 ^ (- e))) ≤ 2 ^ (- e))%Z ∧
       ((Z.abs (2 * (m - n * 2 ^ (- e))) = 2 ^ (- e))%Z → Z.even n = true).

(** [y] is [x] rounded to two decimals: for a finite [x] of mantissa [m] and
    exponent [e], the float nearest to [n / 100] for the integer [n] nearest
    to [100 * m * 2^e], with the sign of [x]; a zero, an infinity and NaN
    are rounded to themselves. *)
Definition rounded_to_two_decimals (x y : spec_float) : Prop :=
  match x with
  | S754_finite s m e =>
      ∃ n, nearest_integer (Zpos m * 100) e n ∧
           y = if s then SFopp (decimal2 n) else decimal2 n
  | _ => y = x
  end.

(** ** Creating classes and students *)

(** The class [create_class] builds from a request, an identifier and a
    clock reading. *)
Definition new_class (class_data : ClassCreate) (i : string) (t : datetime) : ClassInfo :=
  {| cls_id := i; cls_name := cc_name class_data; cls_subject := cc_subject class_data;
     cls_created_at := t |}.

(** The student [create_student] builds from a request and an identifier. *)
Definition new_student (student_data : StudentCreate) (i : string) : Student :=
  {| stu_id := i; stu_name := sc_name student_data;
     stu_roll_number := sc_roll_number student_data;
     stu_class_id := sc_class_id student_data |}.

(** The ids of all stored records, of the three kinds. *)
Definition all_ids (w : World) : list string :=
  (cls_id <$> classes w) ++ (stu_id <$> students w) ++ (att_id <$> attendance w).

(** The stored ids are pairwise distinct, across the three collections, and
    each is an identifier [uuid4] has already handed out. *)
Definition ids_wf (uuid4_at : nat → string) (w : World) : Prop :=
  NoDup (all_ids w) ∧
  ∀ i, i ∈ all_ids w → ∃ k, k < uuid_calls w ∧ i = uuid4_at k.

(** A store with nothing in it. *)
Definition empty_store (w : World) : Prop :=
  classes w = [] ∧ students w = [] ∧ attendance w = [].

(** ** Raw documents *)

(** What [objectid_to_str] puts in the place of a field value. *)
Definition convert_field (value : bson) : bson :=
  match value with
  | BObjectId hex => BStr hex
  | BDict _ => objectid_to_str value
  | BList items =>
      BList (map (fun item => match item with
                              | BDict _ => objectid_to_str item
                              | _ => item
                              end) items)
  | _ => value
  end.

(** No [ObjectId] is the value of a field of the document, of a field of a
    sub-document, or of a field of a dictionary that is an item of a list
    field (and so on inside these dictionaries). *)
Fixpoint no_objectid_field (obj : bson) : bool :=
  match obj with
  | BDict fields =>
      forallb (fun kv : string * bson =>
                 match snd kv with
                 | BObjectId _ => false
                 | BDict _ => no_objectid_field (snd kv)
                 | BList items =>
                     forallb (fun item => match item with
                                          | BDict _ => no_objectid_field item
                                          | _ => true
                                          end) items
                 | _ => true
                 end) fields
  | _ => true
  end.

(** The same for one field value. *)
Definition field_clean (value : bson) : bool :=
  match value with
  | BObjectId _ => false
  | BDict _ => no_objectid_field value
  | BList items =>
      forallb (fun item => match item with
                           | BDict _ => no_objectid_field item
                           | _ => true
                           end) items
  | _ => true
  end.

(** [value] is a dictionary. *)
Definition is_dict (value : bson) : bool :=
  match value with
  | BDict _ => true
  | _ => false
  end.

(** A document with an [ObjectId] at the top, one in a list, and one in a
    dictionary inside a list inside a list. *)
Definition nested_document : bson :=
  BDict [("_id", BObjectId "64b7f0c2a1"); ("name", BStr "2nd Year Physics");
         ("history", BList [BObjectId "64b7f0c2a2";
                            BDict [("by", BObjectId "64b7f0c2a3")];
                            BList [BDict [("by", BObjectId "64b7f0c2a4")]]])].

(** ** A mark and the report *)

(** The records the store holds for the triple of a request. *)
Definition marked_before (data : AttendanceCreate) (w : World) : list AttendanceRecord :=
  filter (same_triple data) (attendance w).

(** What a report of the class over the window selects, before the cap. *)
Definition in_report (class_id : string) (start_date end_date : option string)
    (r : AttendanceRecord) : Prop :=
  att_class_id r = class_id ∧ in_window start_date end_date (att_date r).

Global Instance in_report_dec class_id start_date end_date r :
  Decision (in_report class_id start_date end_date r).
Proof. unfold in_report; apply _. Defined.

(** One for the status a request carries, zero for any other. *)
Definition one_for (status : string) (data : AttendanceCreate) : nat :=
  if decide (ac_status data = status) then 1 else 0.

(** ** A batch that names a student more than once *)

(** The record returned for a pair: the pair's student and status, and the
    id of the one record the store holds for the student in the end. *)
Definition answers (bulk_data : AttendanceBulkCreate) (w' : World)
    (p : string * string) (r : AttendanceRecord) : Prop :=
  att_student_id r = p.1 ∧ att_status r = p.2 ∧
  ∃ stored, filter (same_triple (pair_request bulk_data p)) (attendance w') = [stored] ∧
            att_id stored = att_id r.

(** ** What the handlers never undo *)

(** What identifies an attendance record and never changes once stored. *)
Definition record_key (r : AttendanceRecord) : string * string * string * string :=
  (att_id r, att_student_id r, att_class_id r, att_date r).

(** The later store extends the earlier one: the same classes and students
    first, in the same order, and the same attendance records first, up to
    their status and time of marking. *)
Definition extends (w w' : World) : Prop :=
  classes w `prefix_of` classes w' ∧ students w `prefix_of` students w' ∧
  (record_key <$> attendance w) `prefix_of` (record_key <$> attendance w').

(** * Sample stores and requests *)

(** The class of the samples. *)
Definition class_c1 : ClassInfo :=
  {| cls_id := "c1"; cls_name := "2nd Year Physics"; cls_subject := "Physics";
     cls_created_at := 0%Z |}.

(** The [i]-th student of class [c1], with id [s<i>]. *)
Definition nth_student (i : nat) : Student :=
  {| stu_id := "s" +:+ pretty i; stu_name := "Student " +:+ pretty i;
     stu_roll_number := "PH" +:+ pretty i; stu_class_id := "c1" |}.

(** Two decimal digits. *)
Definition pad2 (n : nat) : string :=
  if decide (n < 10) then "0" +:+ pretty n else pretty n.

(** The [i]-th day of a calendar of twelve 28-day months from 2020-01-01. *)
Definition nth_day (i : nat) : date :=
  pretty (2020 + i / 336) +:+ "-" +:+ pad2 (1 + (i / 28) mod 12) +:+ "-" +:+ pad2 (1 + i mod 28).

(** Student [s0] marked present on the [i]-th day. *)
Definition nth_record (i : nat) : AttendanceRecord :=
  {| att_id := "a" +:+ pretty i; att_student_id := "s0"; att_class_id := "c1";
     att_date := nth_day i; att_status := "present"; att_marked_at := Z.of_nat i |}.

(** One class with 1001 students and no attendance. *)
Definition crowded_class : World :=
  {| classes := [class_c1]; students := nth_student <$> seq 0 1001; attendance := [];
     uuid_calls := 0; clock_calls := 0 |}.

(** One class, one student, marked present on 1001 different days. *)
Definition long_register : World :=
  {| classes := [class_c1]; students := [nth_student 0];
     attendance := nth_record <$> seq 0 1001;
     uuid_calls := 0; clock_calls := 0 |}.

(** Student [s0] marked present on the date [d]. *)
Definition dated (i d : string) : AttendanceRecord :=
  {| att_id := i; att_student_id := "s0"; att_class_id := "c1"; att_date := d;
     att_status := "present"; att_marked_at := 0%Z |}.

(** The three records of the date-window example. *)
Definition three_dates : World :=
  {| classes := [class_c1]; students := [nth_student 0];
     attendance := [dated "a1" "2024-01-01"; dated "a2" "2024-01-15"; dated "a3" "2024-02-01"];
     uuid_calls := 0; clock_calls := 0 |}.

(** One class, two students; only [s0] has attendance records. *)
Definition quiet_student : World :=
  {| classes := [class_c1]; students := [nth_student 0; nth_student 1];
     attendance := attendance three_dates;
     uuid_calls := 0; clock_calls := 0 |}.

(** One class, one student with five records: three present, one absent,
    one late. *)
Definition five_days : World :=
  {| classes := [class_c1]; students := [nth_student 0];
     attendance :=
       [ {| att_id := "a1"; att_student_id := "s0"; att_class_id := "c1";
            att_date := "2024-01-08"; att_status := "present"; att_marked_at := 1%Z |};
         {| att_id := "a2"; att_student_id := "s0"; att_class_id := "c1";
            att_date := "2024-01-09"; att_status := "absent"; att_marked_at := 2%Z |};
         {| att_id := "a3"; att_student_id := "s0"; att_class_id := "c1";
            att_date := "2024-01-10"; att_status := "present"; att_marked_at := 3%Z |};
         {| att_id := "a4"; att_student_id := "s0"; att_class_id := "c1";
            att_date := "2024-01-11"; att_status := "late"; att_marked_at := 4%Z |};
         {| att_id := "a5"; att_student_id := "s0"; att_class_id := "c1";
            att_date := "2024-01-12"; att_status := "present"; att_marked_at := 5%Z |} ];
     uuid_calls := 0; clock_calls := 0 |}.

(** Identifiers [u0], [u1], ... *)
Definition sample_uuid (n : nat) : string := "u" +:+ pretty n.

(** A clock that advances by one tick between two readings. *)
Definition sample_clock (n : nat) : datetime := Z.of_nat n.

(** One class, one student, no attendance yet. *)
Definition empty_register : World :=
  {| classes := [class_c1]; students := [nth_student 0]; attendance := [];
     uuid_calls := 0; clock_calls := 0 |}.

(** A mark of student [s0] in class [c1] on 2024-01-08. *)
Definition mark_s0 (status : string) : AttendanceCreate :=
  {| ac_student_id := "s0"; ac_class_id := "c1"; ac_date := "2024-01-08";
     ac_status := status |}.

(** A batch of two pairs, and the same batch with a status missing in the
    second dictionary. *)
Definition two_pairs : AttendanceBulkCreate :=
  {| bulk_class_id := "c1"; bulk_date := "2024-01-08";
     bulk_attendance_records :=
       [ {[ "student_id" := "s0"; "status" := "present" ]};
         {[ "student_id" := "s1"; "status" := "late" ]} ] |}.

Definition second_pair_broken : AttendanceBulkCreate :=
  {| bulk_class_id := "c1"; bulk_date := "2024-01-08";
     bulk_attendance_records :=
       [ {[ "student_id" := "s0"; "status" := "present" ]};
         {[ "student_id" := "s1" ]} ] |}.

(** A store with no record and no call made yet. *)
Definition nothing_stored : World :=
  {| classes := []; students := []; attendance := []; uuid_calls := 0; clock_calls := 0 |}.

(** The request for the class of the samples. *)
Definition physics : ClassCreate :=
  {| cc_name := "2nd Year Physics"; cc_subject := "Physics" |}.

(** Two students of class [c1] stored under the same id, a student of
    another class, and a mark for an id no student has. *)
Definition namesakes : World :=
  {| classes := [class_c1];
     students :=
       [ nth_student 0;
         {| stu_id := "s0"; stu_name := "Renamed"; stu_roll_number := "PH9";
            stu_class_id := "c1" |};
         {| stu_id := "s7"; stu_name := "Elsewhere"; stu_roll_number := "CH1";
            stu_class_id := "c2" |} ];
     attendance := [ dated "a1" "2024-01-08";
                     {| att_id := "a2"; att_student_id := "nobody"; att_class_id := "c1";
                        att_date := "2024-01-08"; att_status := "present";
                        att_marked_at := 0%Z |} ];
     uuid_calls := 0; clock_calls := 0 |}.

(** A batch that names student [s0] twice. *)
Definition s0_twice : AttendanceBulkCreate :=
  {| bulk_class_id := "c1"; bulk_date := "2024-01-08";
     bulk_attendance_records :=
       [ {[ "student_id" := "s0"; "status" := "absent" ]};
         {[ "student_id" := "s0"; "status" := "late" ]} ] |}.

(** * Properties *)

(** A decidable closed proposition, settled by evaluating its decision. *)
Ltac decide_by_evaluation := apply (bool_decide_unpack _); by vm_compute.

(** ** The store operations *)

Section CollectionFacts.
Context {A : Type} (P : A → Prop) `{!∀ x, Decision (P x)}.

Lemma find_one_Some coll d :
  find_one P coll = Some d → d ∈ coll ∧ P d.
Proof.
  induction coll as [|x rest IH]; simpl; [done|].
  case_decide.
  - intros [= ->]. split; [left | done].
  - intros [Hin HP]%IH. split; [by right | done].
Qed.

Lemma find_one_None coll :
  find_one P coll = None ↔ ∀ d, d ∈ coll → ¬ P d.
Proof.
  induction coll as [|x rest IH]; simpl.
  - split; [intros _ d Hd; by apply elem_of_nil in Hd | done].
  - case_decide as HP.
    + split; [done|]. intros Hall. exfalso. apply (Hall x); [left | done].
    + rewrite IH. split.
      * intros Hall d [->|Hd]%elem_of_cons; auto.
      * intros Hall d Hd. apply Hall. by right.
Qed.

Lemma find_one_is_Some coll :
  is_Some (find_one P coll) ↔ ∃ d, d ∈ coll ∧ P d.
Proof.
  split.
  - intros [d Hd]. exists d. by apply find_one_Some.
  - intros (d & Hd & HP). destruct (find_one P coll) eqn:E; [eauto|].
    exfalso. by apply (proj1 (find_one_None coll) E d).
Qed.

(** The first match has no match before it. *)
Lemma find_one_split coll d :
  find_one P coll = Some d →
  ∃ l1 l2, coll = l1 ++ d :: l2 ∧ (∀ x, x ∈ l1 → ¬ P x).
Proof.
  induction coll as [|x rest IH]; simpl; [done|].
  case_decide as HP.
  - intros [= ->]. exists [], rest. split; [done|]. intros y Hy. by apply elem_of_nil in Hy.
  - intros (l1 & l2 & -> & Hl1)%IH. exists (x :: l1), l2. split; [done|].
    intros y [->|Hy]%elem_of_cons; auto.
Qed.

Lemma find_one_app_None l1 l2 :
  (∀ x, x ∈ l1 → ¬ P x) → find_one P (l1 ++ l2) = find_one P l2.
Proof.
  induction l1 as [|x l1 IH]; simpl; [done|]. intros Hall.
  rewrite decide_False; [|apply Hall; left].
  apply IH. intros y Hy. apply Hall. by right.
Qed.

Lemma update_one_app_None upd l1 l2 :
  (∀ x, x ∈ l1 → ¬ P x) → update_one P upd (l1 ++ l2) = l1 ++ update_one P upd l2.
Proof.
  induction l1 as [|x l1 IH]; simpl; [done|]. intros Hall.
  rewrite decide_False; [|apply Hall; left].
  f_equal. apply IH. intros y Hy. apply Hall. by right.
Qed.

Lemma update_one_fmap {B} (g : A → B) upd coll :
  (∀ d, g (upd d) = g d) → g <$> update_one P upd coll = g <$> coll.
Proof.
  intros Hg. induction coll as [|x rest IH]; simpl; [done|].
  case_decide; rewrite !fmap_cons; [by rewrite Hg | by rewrite IH].
Qed.

Lemma length_to_list n (cursor : list A) : length (to_list n cursor) ≤ n.
Proof. unfold to_list. rewrite length_take. lia. Qed.

Lemma to_list_all n (cursor : list A) :
  length cursor ≤ n → to_list n cursor = cursor.
Proof. apply take_ge. Qed.

Lemma elem_of_to_list_find n coll d :
  d ∈ to_list n (find P coll) → d ∈ coll ∧ P d.
Proof.
  unfold to_list, find. intros Hd%subseteq_take.
  apply list_elem_of_filter in Hd. tauto.
Qed.

(** What a capped fetch returns is fetched again in full from itself. *)
Lemma find_to_list_idem n coll :
  to_list n (find P (to_list n (find P coll))) = to_list n (find P coll).
Proof.
  unfold to_list, find.
  assert (filter P (take n (filter P coll)) = take n (filter P coll)) as ->.
  { generalize (filter P coll) (list_elem_of_filter P coll).
    intros l Hl.
    assert (Forall P l) as HP.
    { apply Forall_forall. intros x Hx. by apply Hl in Hx as [? _]. }
    clear Hl. revert n. induction HP as [|x l Hx HP IH]; intros [|n]; simpl; try done.
    rewrite filter_cons_True by done. by rewrite IH. }
  apply take_idemp.
Qed.
End CollectionFacts.

(** ** The report loop *)

Lemma int_truediv_by_zero a : int_truediv a 0 = Raise ZeroDivisionError.
Proof. reflexivity. Qed.

Lemma int_truediv_Ok a b :
  b ≠ 0%Z → int_truediv a b = Ok (float_div (float_of_int a) (float_of_int b)).
Proof. intros Hb. unfold int_truediv. by rewrite decide_False. Qed.

Lemma student_entry_eq records st :
  student_entry records st = Ok (entry_of records st).
Proof.
  unfold student_entry, entry_of, records_of, count_status, percentage.
  case_decide as Hpos; simpl.
  - rewrite int_truediv_Ok by lia. reflexivity.
  - reflexivity.
Qed.

Lemma student_stats_loop_eq records studs acc :
  student_stats_loop records studs acc = Ok (stats_of records studs acc).
Proof.
  revert acc. induction studs as [|st rest IH]; intros acc; simpl; [done|].
  rewrite student_entry_eq. simpl. apply IH.
Qed.

Lemma stats_of_lookup records studs acc sid :
  stats_of records studs acc !! sid =
    match find_one (fun st => stu_id st = sid) (reverse studs) with
    | Some st => Some (entry_of records st)
    | None => acc !! sid
    end.
Proof.
  unfold stats_of. induction studs as [|st rest IH] using rev_ind; simpl; [done|].
  rewrite foldl_app, reverse_app. simpl.
  rewrite lookup_insert. case_decide; [done|]. apply IH.
Qed.

(** ** Handler equations *)

Lemma get_class_eq class_id w :
  get_class class_id w =
    match find_one (fun c => cls_id c = class_id) (classes w) with
    | Some c => (Ok c, w)
    | None => (Raise (not_found "Class not found"), w)
    end.
Proof. unfold get_class, bind, gets. by destruct find_one. Qed.

Lemma get_student_eq student_id w :
  get_student student_id w =
    match find_one (fun s => stu_id s = student_id) (students w) with
    | Some s => (Ok s, w)
    | None => (Raise (not_found "Student not found"), w)
    end.
Proof. unfold get_student, bind, gets. by destruct find_one. Qed.

Lemma report_students_eq class_id w :
  report_students class_id w = (Ok (fetched_students class_id w), w).
Proof. reflexivity. Qed.

Lemma report_attendance_records_eq class_id start_date end_date w :
  report_attendance_records class_id start_date end_date w =
    (Ok (fetched_attendance class_id start_date end_date w), w).
Proof. reflexivity. Qed.

Lemma get_class_report_eq class_id start_date end_date w :
  get_class_report class_id start_date end_date w =
    match find_one (fun c => cls_id c = class_id) (classes w) with
    | Some cls =>
        (Ok {| class_info := cls;
               report_period := (start_date, end_date);
               student_statistics :=
                 stats_of (fetched_attendance class_id start_date end_date w)
                          (fetched_students class_id w) ∅ |}, w)
    | None => (Raise (not_found "Class not found"), w)
    end.
Proof.
  unfold get_class_report, bind, gets. destruct find_one as [cls|]; [|done].
  rewrite report_students_eq, report_attendance_records_eq.
  unfold lift. by rewrite student_stats_loop_eq.
Qed.

(** ** Not found *)

(** C6: fetching a class, fetching a student and building a report raise
    the 404 exception exactly when no stored record of the kind has the
    requested id, and raise nothing else; when such a record exists the
    handler returns a stored record with that id (the report carries it as
    [class_info]), and the store is left as it was. *)
Theorem C6_not_found_iff_absent (w : World) (class_id student_id : string)
    (start_date end_date : option string) :
  ((∀ c, c ∈ classes w → cls_id c ≠ class_id) ↔
     get_class class_id w = (Raise (HTTPException 404 "Class not found"), w)) ∧
  ((∃ c, c ∈ classes w ∧ cls_id c = class_id) ↔
     ∃ c, get_class class_id w = (Ok c, w) ∧ c ∈ classes w ∧ cls_id c = class_id) ∧
  ((∀ s, s ∈ students w → stu_id s ≠ student_id) ↔
     get_student student_id w = (Raise (HTTPException 404 "Student not found"), w)) ∧
  ((∃ s, s ∈ students w ∧ stu_id s = student_id) ↔
     ∃ s, get_student student_id w = (Ok s, w) ∧ s ∈ students w ∧ stu_id s = student_id) ∧
  ((∀ c, c ∈ classes w → cls_id c ≠ class_id) ↔
     get_class_report class_id start_date end_date w =
       (Raise (HTTPException 404 "Class not found"), w)) ∧
  ((∃ c, c ∈ classes w ∧ cls_id c = class_id) ↔
     ∃ rep, get_class_report class_id start_date end_date w = (Ok rep, w) ∧
            class_info rep ∈ classes w ∧ cls_id (class_info rep) = class_id).
Proof.
  rewrite get_class_eq, get_student_eq, get_class_report_eq.
  rewrite <- !(find_one_None (λ c, cls_id c = class_id)).
  rewrite <- !(find_one_None (λ s, stu_id s = student_id)).
  rewrite <- !(find_one_is_Some (λ c, cls_id c = class_id)).
  rewrite <- !(find_one_is_Some (λ s, stu_id s = student_id)).
  pose proof (find_one_Some (λ c, cls_id c = class_id) (classes w)) as Hc.
  pose proof (find_one_Some (λ s, stu_id s = student_id) (students w)) as Hs.
  destruct (find_one (λ c, cls_id c = class_id) (classes w)) as [c|];
    destruct (find_one (λ s, stu_id s = student_id) (students w)) as [s|].
  all: try (destruct (Hc c eq_refl) as [Hc1 Hc2]).
  all: try (destruct (Hs s eq_refl) as [Hs1 Hs2]).
  all: repeat split; try done.
  all: try (intros _; eexists; by repeat split).
  all: try (intros (x & [=] & _)).
  all: try (intros [x [=]]).
Qed.

(** ** Truthiness and filters *)

Lemma truthy_true s : truthy s = true ↔ s ≠ "".
Proof.
  unfold truthy. destruct (String.eqb_spec s ""); simpl; split; congruence.
Qed.

Lemma truthy_false s : truthy s = false ↔ s = "".
Proof.
  unfold truthy. destruct (String.eqb_spec s ""); simpl; split; congruence.
Qed.

Lemma filter_all {A} (P : A → Prop) `{!∀ x, Decision (P x)} (l : list A) :
  (∀ x, x ∈ l → P x) → filter P l = l.
Proof.
  induction l as [|x l IH]; intros Hall; [done|].
  rewrite filter_cons_True by (apply Hall; left).
  f_equal. apply IH. intros y Hy. apply Hall. by right.
Qed.

Lemma empty_string_le (d : string) : String.le "" d.
Proof. by destruct d. Qed.

(** ** Listing students *)

Lemma get_students_eq class_id w :
  get_students class_id w = (Ok (take 1000 (selected_students class_id w)), w).
Proof.
  unfold get_students, gets, to_list, find, students_query, selected_students.
  do 2 f_equal. f_equal.
  destruct class_id as [c|]; simpl; [|by apply filter_all].
  destruct (truthy c) eqn:E.
  - apply truthy_true in E. by rewrite decide_False.
  - apply truthy_false in E. rewrite decide_True by done. by apply filter_all.
Qed.

(** C9, as the claim states it, fails for the empty [class_id]: the listing
    returns a student of class [c1], while no student has the class id [""]. *)
Lemma C9_counterexample_empty_class_id :
  get_students (Some "") three_dates = (Ok [nth_student 0], three_dates) ∧
  stu_class_id (nth_student 0) = "c1" ∧
  filter (fun s => stu_class_id s = "") (students three_dates) = [].
Proof. by vm_compute. Qed.

(** C9 (amended): listing students with a non-empty [class_id] returns, in
    store order, the first 1000 of the students whose [class_id] equals it,
    hence only such students, and all of them when there are at most 1000;
    with no [class_id], or an empty one, it returns the first 1000 of all
    students. *)
Theorem C9_get_students_exact_match (w : World) (c : string) :
  (c ≠ "" →
     get_students (Some c) w =
       (Ok (take 1000 (filter (fun s => stu_class_id s = c) (students w))), w)) ∧
  (c ≠ "" → ∀ l s, get_students (Some c) w = (Ok l, w) → s ∈ l →
     s ∈ students w ∧ stu_class_id s = c) ∧
  (c ≠ "" → length (filter (fun s => stu_class_id s = c) (students w)) ≤ 1000 →
     get_students (Some c) w = (Ok (filter (fun s => stu_class_id s = c) (students w)), w)) ∧
  get_students None w = (Ok (take 1000 (students w)), w) ∧
  get_students (Some "") w = (Ok (take 1000 (students w)), w) ∧
  (length (students w) ≤ 1000 → get_students None w = (Ok (students w), w)).
Proof.
  rewrite !get_students_eq. unfold selected_students. simpl.
  split_and!.
  - intros Hc. by rewrite decide_False.
  - intros Hc l s. rewrite decide_False by done. intros [= <-] Hs%subseteq_take.
    apply list_elem_of_filter in Hs. tauto.
  - intros Hc Hlen. rewrite decide_False by done. by rewrite take_ge.
  - done.
  - done.
  - intros Hlen. by rewrite take_ge.
Qed.

(** ** The date window of a report *)

Lemma date_filter_matches_window class_id start_date end_date r :
  date_filter_matches (build_date_filter class_id start_date end_date) r ↔
  att_class_id r = class_id ∧ in_window start_date end_date (att_date r).
Proof.
  unfold build_date_filter, date_filter_matches, date_cond_holds, in_window.
  destruct start_date as [s|], end_date as [e|]; simpl;
    repeat match goal with
      | |- context [truthy ?x] =>
          let E := fresh "E" in
          destruct (truthy x) eqn:E;
          [apply truthy_true in E | apply truthy_false in E]; simpl
      end;
    intuition congruence.
Qed.

Lemma fetched_attendance_window class_id start_date end_date w :
  fetched_attendance class_id start_date end_date w =
    take 1000 (filter (fun r => att_class_id r = class_id ∧
                                in_window start_date end_date (att_date r))
                      (attendance w)).
Proof.
  unfold fetched_attendance, to_list, find. f_equal.
  apply list_filter_iff. intros r. apply date_filter_matches_window.
Qed.

(** C5, as the claim states it, fails on a class with more records in the
    window than one fetch returns: of 1001 records of class [c1], all inside
    the (unbounded) window, the report keeps 1000 and drops the last. *)
Lemma C5_counterexample_more_than_one_fetch :
  ∃ kept,
    report_attendance_records "c1" None None long_register = (Ok kept, long_register) ∧
    length (filter (fun r => att_class_id r = "c1") (attendance long_register)) = 1001 ∧
    length kept = 1000 ∧
    nth_record 1000 ∈ attendance long_register ∧
    att_class_id (nth_record 1000) = "c1" ∧
    nth_record 1000 ∉ kept.
Proof.
  eexists. split; [reflexivity|].
  split; [by vm_compute|]. split; [by vm_compute|].
  split; [|split; [done|]].
  - decide_by_evaluation.
  - decide_by_evaluation.
Qed.

Lemma in_window_bounds (s e d : string) :
  (in_window (Some s) None d ↔ String.le s d) ∧
  (e ≠ "" → in_window None (Some e) d ↔ String.le d e) ∧
  (e ≠ "" → in_window (Some s) (Some e) d ↔ String.le s d ∧ String.le d e) ∧
  (in_window None None d ↔ True) ∧
  (in_window (Some s) (Some "") d ↔ String.le s d).
Proof.
  unfold in_window. pose proof (empty_string_le d) as H0.
  split_and!; try intros He; split; intros; destruct_and?; subst; intuition (subst; auto).
Qed.

(** C5 (amended): the report fetches, in store order, the first 1000 of the
    class's attendance records whose stored date string is in the window:
    [start_date <= date] when a start date is given, [date <= end_date] when
    a non-empty end date is given, both inclusive and compared as strings;
    an empty bound constrains nothing.  All such records are fetched when
    there are at most 1000.  Of records dated 2024-01-01, 2024-01-15 and
    2024-02-01, the window 2024-01-01 to 2024-01-31 keeps the first two. *)
Theorem C5_report_date_window (w : World) (class_id : string)
    (start_date end_date : option string) :
  let matching := filter (fun r => att_class_id r = class_id ∧
                                   in_window start_date end_date (att_date r))
                         (attendance w) in
  report_attendance_records class_id start_date end_date w = (Ok (take 1000 matching), w) ∧
  (∀ r, r ∈ take 1000 matching →
        r ∈ attendance w ∧ att_class_id r = class_id ∧
        in_window start_date end_date (att_date r)) ∧
  (length matching ≤ 1000 →
     report_attendance_records class_id start_date end_date w = (Ok matching, w) ∧
     ∀ r, r ∈ matching ↔
          r ∈ attendance w ∧ att_class_id r = class_id ∧
          in_window start_date end_date (att_date r)) ∧
  (∀ s e d : string,
     (in_window (Some s) None d ↔ String.le s d) ∧
     (e ≠ "" → in_window None (Some e) d ↔ String.le d e) ∧
     (e ≠ "" → in_window (Some s) (Some e) d ↔ String.le s d ∧ String.le d e) ∧
     (in_window None None d ↔ True)) ∧
  report_attendance_records "c1" (Some "2024-01-01") (Some "2024-01-31") three_dates =
    (Ok [dated "a1" "2024-01-01"; dated "a2" "2024-01-15"], three_dates).
Proof.
  intros matching.
  rewrite report_attendance_records_eq, fetched_attendance_window. fold matching.
  split_and!.
  - done.
  - intros r Hr%subseteq_take. apply list_elem_of_filter in Hr. tauto.
  - intros Hlen. rewrite take_ge by done. split; [done|].
    intros r. unfold matching. rewrite list_elem_of_filter. tauto.
  - intros s e d. pose proof (in_window_bounds s e d). tauto.
  - by vm_compute.
Qed.

(** ** The fetch cap *)

Lemma get_classes_eq w : get_classes w = (Ok (take 1000 (classes w)), w).
Proof.
  unfold get_classes, gets, to_list, find. by rewrite filter_all.
Qed.

Lemma get_attendance_eq class_id date w :
  get_attendance class_id date w =
    (Ok (take 1000 (filter (attendance_query_matches class_id date) (attendance w))), w).
Proof. reflexivity. Qed.

Lemma get_class_report_truncated class_id start_date end_date w :
  fst (get_class_report class_id start_date end_date w) =
  fst (get_class_report class_id start_date end_date
         (truncated class_id start_date end_date w)).
Proof.
  assert (fetched_students class_id (truncated class_id start_date end_date w)
          = fetched_students class_id w) as Hs.
  { apply (find_to_list_idem (λ s, stu_class_id s = class_id)). }
  assert (fetched_attendance class_id start_date end_date
            (truncated class_id start_date end_date w)
          = fetched_attendance class_id start_date end_date w) as Ha.
  { apply (find_to_list_idem
             (date_filter_matches (build_date_filter class_id start_date end_date))). }
  rewrite !get_class_report_eq, Hs, Ha.
  change (classes (truncated class_id start_date end_date w)) with (classes w).
  by destruct find_one.
Qed.

(** C10: every list endpoint returns at most 1000 records, a prefix of the
    matching ones in store order; the report is computed from the first 1000
    students of the class and the first 1000 matching attendance records, so
    that it is the report of the store cut down to those; for one student
    marked present on 1001 days the report says [total_days = 1000]. *)
Theorem C10_fetch_cap (w : World) (class_id : string) (start_date end_date : option string)
    (students_class_id : option string) (attendance_date : option string) :
  get_classes w = (Ok (take 1000 (classes w)), w) ∧
  (∃ l, get_students students_class_id w = (Ok l, w) ∧ length l ≤ 1000 ∧
        l = take 1000 (selected_students students_class_id w)) ∧
  (∃ l, get_attendance class_id attendance_date w = (Ok l, w) ∧ length l ≤ 1000 ∧
        l = take 1000 (filter (attendance_query_matches class_id attendance_date)
                              (attendance w))) ∧
  (∃ studs recs,
     report_students class_id w = (Ok studs, w) ∧
     report_attendance_records class_id start_date end_date w = (Ok recs, w) ∧
     studs = take 1000 (filter (fun s => stu_class_id s = class_id) (students w)) ∧
     recs = take 1000 (filter (fun r => att_class_id r = class_id ∧
                                        in_window start_date end_date (att_date r))
                              (attendance w)) ∧
     length studs ≤ 1000 ∧ length recs ≤ 1000 ∧
     ∀ rep, fst (get_class_report class_id start_date end_date w) = Ok rep →
            student_statistics rep = stats_of recs studs ∅) ∧
  fst (get_class_report class_id start_date end_date w) =
    fst (get_class_report class_id start_date end_date
           (truncated class_id start_date end_date w)) ∧
  (∃ rep e,
     get_class_report "c1" None None long_register = (Ok rep, long_register) ∧
     student_statistics rep !! "s0" = Some e ∧
     total_days e = 1000 ∧ present e = 1000 ∧
     length (records_of "s0" (attendance long_register)) = 1001).
Proof.
  split_and!.
  - apply get_classes_eq.
  - rewrite get_students_eq. eexists. split; [done|]. split; [|done].
    rewrite length_take. lia.
  - rewrite get_attendance_eq. eexists. split; [done|]. split; [|done].
    rewrite length_take. lia.
  - exists (fetched_students class_id w),
           (fetched_attendance class_id start_date end_date w).
    split_and!; try done.
    + apply fetched_attendance_window.
    + apply length_to_list.
    + apply length_to_list.
    + intros rep. rewrite get_class_report_eq. destruct find_one; [|done].
      by intros [= <-].
  - apply get_class_report_truncated.
  - eexists _, _. split; [by rewrite get_class_report_eq|].
    split; [by vm_compute|]. by vm_compute.
Qed.

(** ** Entries of a report *)

Lemma stats_entry_from_student recs studs sid e :
  stats_of recs studs ∅ !! sid = Some e →
  ∃ st, st ∈ studs ∧ stu_id st = sid ∧ e = entry_of recs st.
Proof.
  rewrite stats_of_lookup.
  destruct (find_one (λ st, stu_id st = sid) (reverse studs)) as [st|] eqn:E.
  - intros [= <-]. apply find_one_Some in E as [Hin Hid].
    exists st. by rewrite elem_of_reverse in Hin.
  - by rewrite lookup_empty.
Qed.

Lemma stats_entry_of_student recs studs st :
  st ∈ studs →
  ∃ st', st' ∈ studs ∧ stu_id st' = stu_id st ∧
         stats_of recs studs ∅ !! stu_id st = Some (entry_of recs st').
Proof.
  intros Hin. rewrite stats_of_lookup.
  destruct (find_one (λ st0, stu_id st0 = stu_id st) (reverse studs)) as [st'|] eqn:E.
  - apply find_one_Some in E as [Hin' Hid]. exists st'.
    by rewrite elem_of_reverse in Hin'.
  - exfalso. apply (proj1 (find_one_None _ _) E st); [by rewrite elem_of_reverse | done].
Qed.

Lemma report_statistics class_id start_date end_date w rep :
  get_class_report class_id start_date end_date w = (Ok rep, w) →
  student_statistics rep =
    stats_of (fetched_attendance class_id start_date end_date w)
             (fetched_students class_id w) ∅.
Proof.
  rewrite get_class_report_eq. destruct find_one; [|done]. by intros [= <-].
Qed.

Lemma length_records_of_none sid (recs : list AttendanceRecord) :
  (∀ r, r ∈ recs → att_student_id r ≠ sid) → records_of sid recs = [].
Proof.
  intros Hnone. unfold records_of.
  induction recs as [|r recs IH]; [done|].
  rewrite filter_cons_False by (apply Hnone; left).
  apply IH. intros r' Hr'. apply Hnone. by right.
Qed.

(** ** Students without records *)

(** C3, as the claim states it, fails on a class with more students than one
    fetch returns: student 1000 of the 1001 students of class [c1] has no
    attendance record at all, and the report has no entry for that student. *)
Lemma C3_counterexample_student_beyond_fetch :
  ∃ rep,
    get_class_report "c1" None None crowded_class = (Ok rep, crowded_class) ∧
    nth_student 1000 ∈ students crowded_class ∧
    stu_class_id (nth_student 1000) = "c1" ∧
    attendance crowded_class = [] ∧
    student_statistics rep !! stu_id (nth_student 1000) = None.
Proof.
  eexists. split; [by rewrite get_class_report_eq|].
  split; [decide_by_evaluation|].
  split; [done|]. split; [done|]. by vm_compute.
Qed.

(** C3 (amended): for every student among those the report fetches (the first
    1000 students of the class in store order, hence every student of a class
    of at most 1000), if no attendance record of the class in the window
    carries the student's id, the report has an entry under that id with
    [total_days = 0], [present = absent = late = 0] and
    [attendance_percentage = 0].  On no store does the report raise
    [ZeroDivisionError]: the loop body returns for every student, although a
    division by a zero count would raise. *)
Theorem C3_zero_records_entry (w : World) (class_id : string)
    (start_date end_date : option string) :
  (∀ rep studs st,
     get_class_report class_id start_date end_date w = (Ok rep, w) →
     report_students class_id w = (Ok studs, w) →
     st ∈ studs →
     (∀ r, r ∈ attendance w → att_class_id r = class_id →
           in_window start_date end_date (att_date r) → att_student_id r ≠ stu_id st) →
     ∃ e, student_statistics rep !! stu_id st = Some e ∧
          total_days e = 0 ∧ present e = 0 ∧ absent e = 0 ∧ late e = 0 ∧
          attendance_percentage e = PyInt 0) ∧
  (length (filter (fun s => stu_class_id s = class_id) (students w)) ≤ 1000 →
     ∀ st, st ∈ students w → stu_class_id st = class_id →
           ∃ studs, report_students class_id w = (Ok studs, w) ∧ st ∈ studs) ∧
  fst (get_class_report class_id start_date end_date w) ≠ Raise ZeroDivisionError ∧
  (∀ records student, ∃ e, student_entry records student = Ok e) ∧
  (∀ present_count, int_truediv present_count 0 = Raise ZeroDivisionError).
Proof.
  split_and!.
  - intros rep studs st Hrep Hstuds Hin Hnone.
    rewrite report_students_eq in Hstuds.
    assert (studs = fetched_students class_id w) as -> by congruence.
    rewrite (report_statistics _ _ _ _ _ Hrep).
    destruct (stats_entry_of_student
                (fetched_attendance class_id start_date end_date w) _ _ Hin)
      as (st' & _ & Hid & ->).
    eexists. split; [done|].
    unfold entry_of. rewrite Hid.
    rewrite length_records_of_none; [done|].
    intros r Hr. rewrite fetched_attendance_window in Hr.
    apply subseteq_take, list_elem_of_filter in Hr as [[Hc Hw] Hr].
    by apply Hnone.
  - intros Hlen st Hst Hclass. eexists. split; [apply report_students_eq|].
    unfold fetched_students, to_list, find. rewrite take_ge by done.
    by apply list_elem_of_filter.
  - rewrite get_class_report_eq. by destruct find_one.
  - intros records student. rewrite student_entry_eq. eauto.
  - apply int_truediv_by_zero.
Qed.

Lemma quiet_student_report :
  get_class_report "c1" None None quiet_student =
    (Ok (report_of "c1" None None quiet_student class_c1), quiet_student).
Proof. by rewrite get_class_report_eq. Qed.

Lemma quiet_student_fetched : nth_student 1 ∈ fetched_students "c1" quiet_student.
Proof. decide_by_evaluation. Qed.

Lemma quiet_student_no_record r :
  r ∈ attendance quiet_student → att_student_id r ≠ stu_id (nth_student 1).
Proof.
  revert r. apply Forall_forall. decide_by_evaluation.
Qed.

(** In [quiet_student] the second student has no record and gets the zero entry. *)
Lemma C3_zero_records_entry_witness :
  ∃ rep e,
    get_class_report "c1" None None quiet_student = (Ok rep, quiet_student) ∧
    student_statistics rep !! stu_id (nth_student 1) = Some e ∧
    total_days e = 0 ∧ present e = 0 ∧ absent e = 0 ∧ late e = 0 ∧
    attendance_percentage e = PyInt 0.
Proof.
  destruct (proj1 (C3_zero_records_entry quiet_student "c1" None None)
              _ _ (nth_student 1) quiet_student_report (report_students_eq _ _)
              quiet_student_fetched
              (fun r Hr _ _ => quiet_student_no_record r Hr)) as (e & He).
  eexists _, e. split; [exact quiet_student_report | exact He].
Defined.

(** ** Counting by status *)

Lemma count_status_app status l1 l2 :
  count_status status (l1 ++ l2) = count_status status l1 + count_status status l2.
Proof. unfold count_status. by rewrite filter_app, length_app. Qed.

Lemma count_status_cons status r l :
  count_status status (r :: l) =
    (if decide (att_status r = status) then 1 else 0) + count_status status l.
Proof. unfold count_status. rewrite filter_cons. by case_decide. Qed.

Lemma length_by_status (l : list AttendanceRecord) :
  length l = count_status "present" l + count_status "absent" l + count_status "late" l
             + length (filter other_status l).
Proof.
  induction l as [|r l IH]; [done|].
  rewrite !count_status_cons, filter_cons. unfold other_status at 1.
  repeat case_decide; simpl; destruct_and?; try congruence; try lia.
  exfalso. tauto.
Qed.

Lemma records_of_insert sid r l1 l2 :
  att_student_id r = sid →
  records_of sid (l1 ++ r :: l2) = records_of sid l1 ++ r :: records_of sid l2.
Proof.
  intros Hr. unfold records_of. by rewrite filter_app, filter_cons_True.
Qed.

Lemma records_of_app sid l1 l2 :
  records_of sid (l1 ++ l2) = records_of sid l1 ++ records_of sid l2.
Proof. unfold records_of. by rewrite filter_app. Qed.

Lemma entry_of_other_status recs1 recs2 r st :
  att_student_id r = stu_id st → other_status r →
  total_days (entry_of (recs1 ++ r :: recs2) st) = S (total_days (entry_of (recs1 ++ recs2) st)) ∧
  present (entry_of (recs1 ++ r :: recs2) st) = present (entry_of (recs1 ++ recs2) st) ∧
  absent (entry_of (recs1 ++ r :: recs2) st) = absent (entry_of (recs1 ++ recs2) st) ∧
  late (entry_of (recs1 ++ r :: recs2) st) = late (entry_of (recs1 ++ recs2) st).
Proof.
  intros Hr (Hp & Ha & Hl). unfold entry_of. cbn [total_days present absent late].
  rewrite records_of_insert, records_of_app by done.
  rewrite !count_status_app, !count_status_cons, !length_app. simpl.
  rewrite !decide_False by done. lia.
Qed.

(** ** Totals and buckets *)

(** C4: for every student the report fetches, the entry's [total_days] is the
    number of fetched attendance records carrying the student's id, whatever
    their status, and [present], [absent], [late] count those whose status is
    exactly that string; [total_days] is the sum of the three and of the
    records with any other status, and one more record with another status
    adds one to [total_days] and nothing to the three. *)
Theorem C4_total_days_counts_every_status (w : World) (class_id : string)
    (start_date end_date : option string) (rep : Report)
    (studs : list Student) (recs : list AttendanceRecord) (st : Student) :
  get_class_report class_id start_date end_date w = (Ok rep, w) →
  report_students class_id w = (Ok studs, w) →
  report_attendance_records class_id start_date end_date w = (Ok recs, w) →
  st ∈ studs →
  ∃ e, student_statistics rep !! stu_id st = Some e ∧
       let mine := filter (fun r => att_student_id r = stu_id st) recs in
       total_days e = length mine ∧
       present e = length (filter (fun r => att_status r = "present") mine) ∧
       absent e = length (filter (fun r => att_status r = "absent") mine) ∧
       late e = length (filter (fun r => att_status r = "late") mine) ∧
       total_days e = present e + absent e + late e + length (filter other_status mine) ∧
       ∀ recs1 recs2 r,
         att_student_id r = stu_id st → other_status r →
         ∃ e0 e1,
           student_entry (recs1 ++ recs2) st = Ok e0 ∧
           student_entry (recs1 ++ r :: recs2) st = Ok e1 ∧
           total_days e1 = S (total_days e0) ∧
           present e1 = present e0 ∧ absent e1 = absent e0 ∧ late e1 = late e0.
Proof.
  intros Hrep Hstuds Hrecs Hin.
  rewrite report_students_eq in Hstuds.
  rewrite report_attendance_records_eq in Hrecs.
  assert (studs = fetched_students class_id w) as -> by congruence.
  assert (recs = fetched_attendance class_id start_date end_date w) as -> by congruence.
  rewrite (report_statistics _ _ _ _ _ Hrep).
  destruct (stats_entry_of_student
              (fetched_attendance class_id start_date end_date w) _ _ Hin)
    as (st' & _ & Hid & ->).
  eexists. split; [done|].
  unfold entry_of. rewrite Hid. cbn [total_days present absent late].
  split_and!; try done.
  - apply length_by_status.
  - intros recs1 recs2 r Hr Hother. rewrite !student_entry_eq.
    eexists _, _. split; [done|]. split; [done|].
    by apply entry_of_other_status.
Qed.

Lemma five_days_report :
  get_class_report "c1" None None five_days =
    (Ok (report_of "c1" None None five_days class_c1), five_days).
Proof. by rewrite get_class_report_eq. Qed.

Lemma five_days_fetched : nth_student 0 ∈ fetched_students "c1" five_days.
Proof. decide_by_evaluation. Qed.

(** In [five_days] the student has five records and the entry counts them. *)
Lemma C4_total_days_counts_every_status_witness :
  ∃ rep e,
    get_class_report "c1" None None five_days = (Ok rep, five_days) ∧
    student_statistics rep !! stu_id (nth_student 0) = Some e ∧
    total_days e = 5 ∧ present e = 3 ∧ absent e = 1 ∧ late e = 1.
Proof.
  destruct (C4_total_days_counts_every_status five_days "c1" None None _
              _ _ (nth_student 0) five_days_report (report_students_eq _ _)
              (report_attendance_records_eq _ _ _ _) five_days_fetched)
    as (e & He & Ht & Hp & Ha & Hl & _).
  eexists _, e. split; [exact five_days_report|]. split; [exact He|].
  rewrite Ht, Hp, Ha, Hl. by vm_compute.
Defined.

(** ** The percentage *)

Lemma percentage_3_of_5 :
  percentage 3 5 = float_of_int 60 ∧
  percentage 3 5 = float_div (float_of_int 6000) (float_of_int 100) ∧
  float_of_int 60 = S754_finite false (60 * 2 ^ 47) (-47).
Proof. by vm_compute. Qed.

Lemma all_upto_spec f n k : all_upto f n = true → k ≤ n → f k = true.
Proof.
  induction n as [|n IH]; simpl.
  - intros Hf Hk. by replace k with 0 by lia.
  - intros [Hf Hrest]%andb_prop Hk.
    destruct (decide (k = S n)) as [->|]; [done|]. apply IH; [done | lia].
Qed.

(** Up to 60 records of a student, by evaluation of every case: the
    percentage is the float of a number of hundredths nearest to the exact
    percentage. *)
Lemma percentage_checked_upto_60 present_count total :
  0 < total ≤ 60 → present_count ≤ total →
  percentage_checked present_count total = true.
Proof.
  intros [Hpos Hle] Hp.
  assert (all_upto (fun t => match t with
                             | O => true
                             | S _ => all_upto (fun p => percentage_checked p t) t
                             end) 60 = true) as Hall by (by vm_compute).
  pose proof (all_upto_spec _ _ total Hall Hle) as Ht.
  destruct total as [|t']; [lia|].
  exact (all_upto_spec _ _ present_count Ht Hp).
Qed.

(** [round_half_even] gives the nearest integer, the even one at a tie. *)
Lemma round_half_even_nearest m e : nearest_integer m e (round_half_even m e).
Proof.
  unfold nearest_integer, round_half_even. destruct e as [|p|p].
  - by rewrite decide_True.
  - by rewrite decide_True by lia.
  - rewrite decide_False by lia. change (- Z.neg p)%Z with (Z.pos p).
    set (d := (2 ^ Z.pos p)%Z).
    assert (0 < d)%Z as Hd by (apply Z.pow_pos_nonneg; lia).
    pose proof (Z.div_mod m d) as Hdm. pose proof (Z.mod_pos_bound m d Hd) as Hb.
    set (q := (m / d)%Z) in *. set (r := (m mod d)%Z) in *.
    assert (m - q * d = r)%Z as Hq by lia.
    assert (m - (q + 1) * d = r - d)%Z as Hq1 by lia.
    cbv zeta. destruct (Z.compare_spec (2 * r) d) as [Heq|Hlt|Hgt].
    + destruct (Z.even q) eqn:Hev.
      * rewrite Hq. split; [lia | done].
      * rewrite Hq1. split; [lia|]. intros _. by rewrite Z.even_add, Hev.
    + rewrite Hq. split; lia.
    + rewrite Hq1. split; lia.
Qed.

(** [round(x, 2)] is [x] rounded to two decimals. *)
Lemma float_round_two_decimals x : rounded_to_two_decimals x (float_round x 2).
Proof.
  destruct x as [s|s| |s m e]; try done.
  unfold rounded_to_two_decimals, float_round, decimal2.
  change (10 ^ Z.of_N 2)%Z with 100%Z. cbv zeta.
  exists (round_half_even (Z.pos m * 100) e). split; [apply round_half_even_nearest | done].
Qed.

(** C2: in every entry of a report, [total_days] and [present] count the
    student's fetched records, and with [total_days > 0] the
    [attendance_percentage] is the float [present / total_days * 100]
    rounded to two decimals: the float nearest to [n / 100] for the integer
    [n] nearest to a hundred times that float, the even one at a tie.  Up to
    60 records of the student, [n / 100] is also nearest to the exact
    percentage.  A student with exactly 3 present, 1 absent and 1 late
    records among the fetched ones gets 60.0. *)
Theorem C2_attendance_percentage (w : World) (class_id : string)
    (start_date end_date : option string) (rep : Report)
    (recs : list AttendanceRecord) (student_id : string) (e : StudentStats) :
  get_class_report class_id start_date end_date w = (Ok rep, w) →
  report_attendance_records class_id start_date end_date w = (Ok recs, w) →
  student_statistics rep !! student_id = Some e →
  total_days e = length (records_of student_id recs) ∧
  present e = count_status "present" (records_of student_id recs) ∧
  (0 < total_days e →
     ∃ y, attendance_percentage e = PyFloat y ∧
          rounded_to_two_decimals
            (float_mul (float_div (float_of_int (Z.of_nat (present e)))
                                  (float_of_int (Z.of_nat (total_days e))))
                       (float_of_int 100)) y) ∧
  (0 < total_days e ≤ 60 →
     ∃ n, attendance_percentage e = PyFloat (decimal2 n) ∧
          nearest_hundredth (present e) (total_days e) n = true) ∧
  (count_status "present" (records_of student_id recs) = 3 →
   count_status "absent" (records_of student_id recs) = 1 →
   count_status "late" (records_of student_id recs) = 1 →
   length (records_of student_id recs) = 5 →
   attendance_percentage e = PyFloat (float_of_int 60) ∧
   float_of_int 60 = decimal2 6000).
Proof.
  intros Hrep Hrecs He. rewrite (report_statistics _ _ _ _ _ Hrep) in He.
  apply stats_entry_from_student in He as (st & _ & <- & ->).
  rewrite report_attendance_records_eq in Hrecs.
  assert (recs = fetched_attendance class_id start_date end_date w) as -> by congruence.
  unfold entry_of. cbn [total_days present absent late attendance_percentage].
  split_and!; try done.
  - intros Hpos. rewrite decide_True by done.
    eexists. split; [reflexivity|]. apply float_round_two_decimals.
  - intros [Hpos Hle]. rewrite decide_True by done.
    pose proof (percentage_checked_upto_60
                  (count_status "present" (records_of (stu_id st)
                     (fetched_attendance class_id start_date end_date w)))
                  _ (conj Hpos Hle) (length_filter _ _)) as Hc.
    unfold percentage_checked in Hc. apply andb_prop in Hc as [Hn Heq].
    apply bool_decide_eq_true in Heq. eexists. split; [by rewrite Heq | done].
  - intros H3 _ _ H5. rewrite H3, H5, decide_True by lia.
    destruct percentage_3_of_5 as (-> & ? & _). split; [done|].
    unfold decimal2. congruence.
Qed.

Lemma five_days_fetch :
  report_attendance_records "c1" None None five_days =
    (Ok (attendance five_days), five_days).
Proof. by vm_compute. Qed.

Lemma five_days_entry :
  student_statistics (report_of "c1" None None five_days class_c1) !! "s0" =
    Some (entry_of (fetched_attendance "c1" None None five_days) (nth_student 0)).
Proof. by vm_compute. Qed.

Lemma five_days_counts :
  count_status "present" (records_of "s0" (attendance five_days)) = 3 ∧
  count_status "absent" (records_of "s0" (attendance five_days)) = 1 ∧
  count_status "late" (records_of "s0" (attendance five_days)) = 1 ∧
  length (records_of "s0" (attendance five_days)) = 5.
Proof. by vm_compute. Qed.

(** In [five_days] the student has 3 present, 1 absent and 1 late record, and
    the report says 60.0. *)
Lemma C2_attendance_percentage_witness :
  ∃ rep e,
    get_class_report "c1" None None five_days = (Ok rep, five_days) ∧
    student_statistics rep !! "s0" = Some e ∧
    present e = 3 ∧ total_days e = 5 ∧
    attendance_percentage e = PyFloat (S754_finite false (60 * 2 ^ 47) (-47)).
Proof.
  destruct five_days_counts as (Hp & Ha & Hl & Ht).
  destruct (C2_attendance_percentage five_days "c1" None None _ _ "s0" _
              five_days_report five_days_fetch five_days_entry)
    as (Hdays & Hpresent & _ & _ & H60).
  destruct (H60 Hp Ha Hl Ht) as [Hpct _].
  destruct percentage_3_of_5 as (_ & _ & H60f).
  eexists _, _. split; [exact five_days_report|]. split; [exact five_days_entry|].
  split; [by rewrite Hpresent|]. split; [by rewrite Hdays|].
  by rewrite Hpct, H60f.
Defined.

(** ** Marking attendance *)

Lemma same_triple_set_status data status t r :
  same_triple data (set_status status t r) ↔ same_triple data r.
Proof. done. Qed.

Lemma same_triple_new_record data data' i t :
  same_triple data' (new_record data i t) ↔
  ac_student_id data = ac_student_id data' ∧ ac_class_id data = ac_class_id data' ∧
  ac_date data = ac_date data'.
Proof. done. Qed.

Lemma same_triple_trans data data' r :
  ac_student_id data = ac_student_id data' → ac_class_id data = ac_class_id data' →
  ac_date data = ac_date data' →
  same_triple data r ↔ same_triple data' r.
Proof. unfold same_triple. intros -> -> ->. done. Qed.

Lemma filter_none {A} (P : A → Prop) `{!∀ x, Decision (P x)} (l : list A) :
  (∀ x, x ∈ l → ¬ P x) → filter P l = [].
Proof.
  induction l as [|x l IH]; intros Hall; [done|].
  rewrite filter_cons_False by (apply Hall; left).
  apply IH. intros y Hy. apply Hall. by right.
Qed.

Lemma filter_update_one_length {A} (P Q : A → Prop)
    `{!∀ x, Decision (P x)} `{!∀ x, Decision (Q x)} (upd : A → A) (l : list A) :
  (∀ x, Q (upd x) ↔ Q x) →
  length (filter Q (update_one P upd l)) = length (filter Q l).
Proof.
  intros Hupd. induction l as [|x l IH]; [done|]. simpl.
  case_decide.
  - rewrite !filter_cons. specialize (Hupd x). repeat case_decide; simpl; tauto || done.
  - rewrite !filter_cons. case_decide; simpl; by rewrite IH.
Qed.

Section MarkFacts.
Variable uuid4_at : nat → string.
Variable utcnow_at : nat → datetime.

Local Abbreviation mark := (mark_attendance uuid4_at utcnow_at).

Lemma mark_attendance_eq data w :
  mark data w =
    match find_one (same_triple data) (attendance w) with
    | Some existing =>
        (Ok (set_status (ac_status data) (utcnow_at (S (clock_calls w))) existing),
         with_attendance
           (update_one (fun r => att_id r = att_id existing)
                       (set_status (ac_status data) (utcnow_at (clock_calls w)))
                       (attendance w)) 0 2 w)
    | None =>
        (Ok (new_record data (uuid4_at (uuid_calls w)) (utcnow_at (clock_calls w))),
         with_attendance
           (attendance w ++
              [new_record data (uuid4_at (uuid_calls w)) (utcnow_at (S (clock_calls w)))])
           1 2 w)
    end.
Proof.
  unfold mark_attendance, bind, gets. cbn beta iota.
  by destruct (find_one (same_triple data) (attendance w)).
Qed.

(** The handler always returns a record. *)
Lemma mark_attendance_returns data w :
  ∃ rec w', mark data w = (Ok rec, w').
Proof. rewrite mark_attendance_eq. destruct find_one; eauto. Qed.

Lemma mark_attendance_keeps_invariant data w rec w' :
  mark data w = (Ok rec, w') →
  at_most_one_per_triple (attendance w) → at_most_one_per_triple (attendance w').
Proof.
  rewrite mark_attendance_eq. intros Hmark Hinv data'.
  destruct (find_one (same_triple data) (attendance w)) as [existing|] eqn:E.
  - injection Hmark as _ <-. cbn [attendance with_attendance].
    rewrite filter_update_one_length; [apply Hinv | done].
  - injection Hmark as _ <-. cbn [attendance with_attendance].
    rewrite filter_app, length_app, filter_cons, filter_nil.
    case_decide as Hsame; simpl; [|specialize (Hinv data'); lia].
    apply same_triple_new_record in Hsame as (Hs & Hc & Hd).
    rewrite filter_none; [simpl; lia|].
    intros r Hr. rewrite <- (same_triple_trans data data') by done.
    by apply (proj1 (find_one_None _ _) E).
Qed.

(** A new triple: the record is appended. *)
Lemma mark_attendance_new data w :
  (∀ r, r ∈ attendance w → ¬ same_triple data r) →
  mark data w =
    (Ok (new_record data (uuid4_at (uuid_calls w)) (utcnow_at (clock_calls w))),
     with_attendance
       (attendance w ++
          [new_record data (uuid4_at (uuid_calls w)) (utcnow_at (S (clock_calls w)))])
       1 2 w).
Proof.
  intros Hnone. rewrite mark_attendance_eq.
  by rewrite (proj2 (find_one_None _ _) Hnone).
Qed.

(** A known triple whose first record is the first with its id: that
    record is updated where it is. *)
Lemma mark_attendance_found data w l1 ex l2 :
  attendance w = l1 ++ ex :: l2 →
  (∀ r, r ∈ l1 → ¬ same_triple data r) → same_triple data ex →
  (∀ r, r ∈ l1 → att_id r ≠ att_id ex) →
  mark data w =
    (Ok (set_status (ac_status data) (utcnow_at (S (clock_calls w))) ex),
     with_attendance
       (l1 ++ set_status (ac_status data) (utcnow_at (clock_calls w)) ex :: l2) 0 2 w).
Proof.
  intros Hw Hl1 Hex Hids. rewrite mark_attendance_eq, Hw.
  rewrite find_one_app_None by done. simpl. rewrite decide_True by done.
  rewrite (update_one_app_None (λ r, att_id r = att_id ex)) by done.
  simpl. by rewrite decide_True.
Qed.
End MarkFacts.

Lemma filter_single_in_the_middle {A} (P : A → Prop) `{!∀ x, Decision (P x)}
    (l1 l2 : list A) (x : A) :
  (∀ y, y ∈ l1 → ¬ P y) → P x → (∀ y, y ∈ l2 → ¬ P y) →
  filter P (l1 ++ x :: l2) = [x].
Proof.
  intros H1 Hx H2.
  by rewrite filter_app, filter_cons_True, !filter_none.
Qed.

Lemma at_most_one_after_first data l1 ex l2 :
  at_most_one_per_triple (l1 ++ ex :: l2) → same_triple data ex →
  ∀ r, r ∈ l2 → ¬ same_triple data r.
Proof.
  intros Hinv Hex r Hr Hsame. specialize (Hinv data).
  apply list_elem_of_split in Hr as (k1 & k2 & ->).
  rewrite filter_app, filter_cons_True, length_app in Hinv by done.
  rewrite length_cons, filter_app, filter_cons_True, length_app in Hinv by done.
  rewrite length_cons in Hinv. lia.
Qed.

Lemma unique_ids_before l1 ex l2 :
  NoDup (att_id <$> (l1 ++ ex :: l2)) → ∀ r, r ∈ l1 → att_id r ≠ att_id ex.
Proof.
  rewrite fmap_app, fmap_cons. intros (_ & Hdisj & _)%NoDup_app r Hr Heq.
  apply (Hdisj (att_id r)); [by apply list_elem_of_fmap_2|].
  rewrite Heq. left.
Qed.

(** The two ways a mark changes a store with at most one record per triple
    and distinct record ids: it appends the record of a new triple, or sets
    the status of the one record of a known triple where it stands.  Classes
    and students are not touched. *)
Lemma mark_attendance_cases uuid4_at utcnow_at data w rec w' :
  at_most_one_per_triple (attendance w) →
  NoDup (att_id <$> attendance w) →
  mark_attendance uuid4_at utcnow_at data w = (Ok rec, w') →
  classes w' = classes w ∧ students w' = students w ∧
  (((∀ r, r ∈ attendance w → ¬ same_triple data r) ∧
    rec = new_record data (uuid4_at (uuid_calls w)) (utcnow_at (clock_calls w)) ∧
    attendance w' =
      attendance w ++
        [new_record data (uuid4_at (uuid_calls w)) (utcnow_at (S (clock_calls w)))]) ∨
   (∃ l1 ex l2,
      attendance w = l1 ++ ex :: l2 ∧ same_triple data ex ∧
      (∀ r, r ∈ l1 → ¬ same_triple data r) ∧ (∀ r, r ∈ l2 → ¬ same_triple data r) ∧
      rec = set_status (ac_status data) (utcnow_at (S (clock_calls w))) ex ∧
      attendance w' =
        l1 ++ set_status (ac_status data) (utcnow_at (clock_calls w)) ex :: l2)).
Proof.
  intros Hinv Hids Hm.
  destruct (find_one (same_triple data) (attendance w)) as [ex|] eqn:E.
  - pose proof (find_one_Some _ _ _ E) as [Hin Hex].
    apply find_one_split in E as (l1 & l2 & Hw & Hl1).
    assert (∀ r, r ∈ l1 → att_id r ≠ att_id ex) as Hbefore.
    { apply (unique_ids_before l1 ex l2). by rewrite <- Hw. }
    assert (∀ r, r ∈ l2 → ¬ same_triple data r) as Hl2.
    { apply (at_most_one_after_first data l1 ex l2); [by rewrite <- Hw | done]. }
    rewrite (mark_attendance_found _ _ data _ l1 ex l2) in Hm by done.
    injection Hm as <- <-. split; [done|]. split; [done|].
    right. by exists l1, ex, l2.
  - pose proof (proj1 (find_one_None _ _) E) as Hnone.
    rewrite mark_attendance_new in Hm by done.
    injection Hm as <- <-. split; [done|]. split; [done|]. by left.
Qed.

(** Either way the store then holds exactly one record for the triple: it
    has the requested status and the id of the returned record. *)
Lemma mark_attendance_stores_one uuid4_at utcnow_at data w rec w' :
  at_most_one_per_triple (attendance w) →
  NoDup (att_id <$> attendance w) →
  mark_attendance uuid4_at utcnow_at data w = (Ok rec, w') →
  ∃ stored, filter (same_triple data) (attendance w') = [stored] ∧
            att_status stored = ac_status data ∧ att_id stored = att_id rec.
Proof.
  intros Hinv Hids Hm.
  destruct (mark_attendance_cases uuid4_at utcnow_at data w rec w' Hinv Hids Hm)
    as (_ & _ & [(Hnone & Hrec & Hw') | (l1 & ex & l2 & Hw & Hex & Hl1 & Hl2 & Hrec & Hw')]);
    rewrite Hw', Hrec; eexists.
  - split; [apply filter_single_in_the_middle; [done | done |] | done].
    intros y Hy. by apply elem_of_nil in Hy.
  - split; [by apply filter_single_in_the_middle | done].
Qed.

Section Upsert.
Variable uuid4_at : nat → string.
Variable utcnow_at : nat → datetime.

Local Abbreviation mark := (mark_attendance uuid4_at utcnow_at).

(** C1: marking keeps the invariant "at most one attendance record per
    (student_id, class_id, date)"; two marks in a row for the same triple
    both return, and leave exactly one stored record for the triple, with
    the status of the second call and the id the first call returned: the
    id the first call created when the triple was new (for an identifier
    not yet in use), the id of the record already stored otherwise (stored
    ids being unique). *)
Theorem C1_mark_upsert_invariant (w : World) (first second : AttendanceCreate) :
  at_most_one_per_triple (attendance w) →
  ac_student_id second = ac_student_id first →
  ac_class_id second = ac_class_id first →
  ac_date second = ac_date first →
  ∃ rec1 w1 rec2 w2,
    mark first w = (Ok rec1, w1) ∧ mark second w1 = (Ok rec2, w2) ∧
    at_most_one_per_triple (attendance w1) ∧
    at_most_one_per_triple (attendance w2) ∧
    ((∀ r, r ∈ attendance w → ¬ same_triple first r) →
     (∀ r, r ∈ attendance w → att_id r ≠ uuid4_at (uuid_calls w)) →
     att_id rec1 = uuid4_at (uuid_calls w) ∧
     ∃ stored, filter (same_triple first) (attendance w2) = [stored] ∧
               att_status stored = ac_status second ∧ att_id stored = att_id rec1) ∧
    ((∃ r, r ∈ attendance w ∧ same_triple first r) →
     NoDup (att_id <$> attendance w) →
     ∃ stored, filter (same_triple first) (attendance w2) = [stored] ∧
               att_status stored = ac_status second ∧ att_id stored = att_id rec1).
Proof.
  intros Hinv Hs Hc Hd.
  destruct (mark_attendance_returns uuid4_at utcnow_at first w) as (rec1 & w1 & Hm1).
  destruct (mark_attendance_returns uuid4_at utcnow_at second w1) as (rec2 & w2 & Hm2).
  pose proof (mark_attendance_keeps_invariant _ _ _ _ _ _ Hm1 Hinv) as Hinv1.
  pose proof (mark_attendance_keeps_invariant _ _ _ _ _ _ Hm2 Hinv1) as Hinv2.
  assert (∀ r, same_triple second r ↔ same_triple first r) as Hsame.
  { intros r. by apply same_triple_trans. }
  exists rec1, w1, rec2, w2. split_and!; try done.
  - intros Hnew Hfresh.
    rewrite mark_attendance_new in Hm1 by done.
    injection Hm1 as <- <-. split; [done|].
    rewrite (mark_attendance_found _ _ second _ (attendance w)
               (new_record first (uuid4_at (uuid_calls w)) (utcnow_at (S (clock_calls w))))
               []) in Hm2; cycle 1.
    + done.
    + intros r Hr. rewrite Hsame. by apply Hnew.
    + by apply Hsame.
    + done.
    + injection Hm2 as _ <-. cbn [attendance with_attendance].
      eexists. split.
      { apply filter_single_in_the_middle; [done | done |].
        intros y Hy. by apply elem_of_nil in Hy. }
      done.
  - intros (r0 & Hr0 & Hr0same) Hids.
    destruct (find_one (same_triple first) (attendance w)) as [ex|] eqn:E.
    2: { exfalso. by apply (proj1 (find_one_None _ _) E r0). }
    pose proof (find_one_Some _ _ _ E) as [_ Hex].
    apply find_one_split in E as (l1 & l2 & Hw & Hl1).
    rewrite Hw in Hids, Hinv.
    pose proof (unique_ids_before _ _ _ Hids) as Hbefore.
    pose proof (at_most_one_after_first _ _ _ _ Hinv Hex) as Hl2.
    rewrite (mark_attendance_found _ _ first _ l1 ex l2) in Hm1 by done.
    injection Hm1 as <- <-.
    rewrite (mark_attendance_found _ _ second _ l1
               (set_status (ac_status first) (utcnow_at (clock_calls w)) ex) l2) in Hm2;
      cycle 1.
    + done.
    + intros r Hr. rewrite Hsame. by apply Hl1.
    + by apply Hsame.
    + done.
    + injection Hm2 as _ <-. cbn [attendance with_attendance].
      eexists. split.
      { by apply filter_single_in_the_middle. }
      done.
Qed.
End Upsert.

Lemma empty_register_invariant : at_most_one_per_triple (attendance empty_register).
Proof. intros data. simpl. lia. Qed.

(** Marking [s0] present and then late on the same day of an empty register. *)
Lemma C1_mark_upsert_invariant_witness :
  ∃ rec1 w1 rec2 w2,
    mark_attendance sample_uuid sample_clock (mark_s0 "present") empty_register = (Ok rec1, w1) ∧
    mark_attendance sample_uuid sample_clock (mark_s0 "late") w1 = (Ok rec2, w2) ∧
    at_most_one_per_triple (attendance w1) ∧
    at_most_one_per_triple (attendance w2) ∧
    att_id rec1 = sample_uuid 0 ∧
    ∃ stored, filter (same_triple (mark_s0 "present")) (attendance w2) = [stored] ∧
              att_status stored = "late" ∧ att_id stored = att_id rec1.
Proof.
  destruct (C1_mark_upsert_invariant sample_uuid sample_clock empty_register
              (mark_s0 "present") (mark_s0 "late")
              empty_register_invariant eq_refl eq_refl eq_refl)
    as (rec1 & w1 & rec2 & w2 & Hm1 & Hm2 & Hi1 & Hi2 & Hnew & _).
  exists rec1, w1, rec2, w2. split_and!; try done.
  - apply Hnew; intros r Hr; by apply elem_of_nil in Hr.
  - apply Hnew; intros r Hr; by apply elem_of_nil in Hr.
Defined.

(** ** What a mark returns and what it stores *)

Section Returned.
Variable uuid4_at : nat → string.
Variable utcnow_at : nat → datetime.

Local Abbreviation mark := (mark_attendance uuid4_at utcnow_at).

(** X3: the record a mark returns and the one it stores agree on every field
    but [marked_at]: the two carry successive readings of the clock, returned
    then stored for a new triple, stored then returned for a known one. *)
Lemma mark_attendance_returned_vs_stored (w : World) (data : AttendanceCreate)
    (rec : AttendanceRecord) (w' : World) :
  at_most_one_per_triple (attendance w) →
  NoDup (att_id <$> attendance w) →
  (∀ r, r ∈ attendance w → att_id r ≠ uuid4_at (uuid_calls w)) →
  mark data w = (Ok rec, w') →
  ∃ stored,
    filter (same_triple data) (attendance w') = [stored] ∧
    att_id rec = att_id stored ∧ att_student_id rec = att_student_id stored ∧
    att_class_id rec = att_class_id stored ∧ att_date rec = att_date stored ∧
    att_status rec = att_status stored ∧ att_status stored = ac_status data ∧
    ((∀ r, r ∈ attendance w → ¬ same_triple data r) →
       att_marked_at rec = utcnow_at (clock_calls w) ∧
       att_marked_at stored = utcnow_at (S (clock_calls w))) ∧
    ((∃ r, r ∈ attendance w ∧ same_triple data r) →
       att_marked_at rec = utcnow_at (S (clock_calls w)) ∧
       att_marked_at stored = utcnow_at (clock_calls w)).
Proof.
  intros Hinv Hids Hfresh Hm.
  destruct (find_one (same_triple data) (attendance w)) as [ex|] eqn:E.
  - pose proof (find_one_Some _ _ _ E) as [Hin Hex].
    apply find_one_split in E as (l1 & l2 & Hw & Hl1).
    assert (∀ r, r ∈ l1 → att_id r ≠ att_id ex) as Hbefore.
    { apply (unique_ids_before l1 ex l2). by rewrite <- Hw. }
    assert (∀ r, r ∈ l2 → ¬ same_triple data r) as Hl2.
    { apply (at_most_one_after_first data l1 ex l2); [by rewrite <- Hw | done]. }
    rewrite (mark_attendance_found _ _ data _ l1 ex l2) in Hm by done.
    injection Hm as <- <-. cbn [attendance with_attendance].
    eexists. split.
    { by apply filter_single_in_the_middle. }
    split_and!; try done.
    intros Hnone. exfalso. by apply (Hnone ex).
  - pose proof (proj1 (find_one_None _ _) E) as Hnone.
    rewrite mark_attendance_new in Hm by done.
    injection Hm as <- <-. cbn [attendance with_attendance].
    eexists. split.
    { apply filter_single_in_the_middle; [done | done |].
      intros y Hy. by apply elem_of_nil in Hy. }
    split_and!; try done.
    intros (r & Hr & Hsame). exfalso. by apply (Hnone r).
Qed.
End Returned.

(** C8 does not hold of the handler: on an empty register, with a clock that
    advances between two readings, the first mark returns [marked_at = 0] and
    stores [marked_at = 1]; the second mark of the same triple stores
    [marked_at = 2] and returns [marked_at = 3].  Identifier, date and
    status of the returned record are the stored ones. *)
Theorem C8_returned_marked_at_is_another_reading :
  ∃ rec1 w1 stored1 rec2 w2 stored2,
    mark_attendance sample_uuid sample_clock (mark_s0 "present") empty_register = (Ok rec1, w1) ∧
    attendance w1 = [stored1] ∧
    mark_attendance sample_uuid sample_clock (mark_s0 "late") w1 = (Ok rec2, w2) ∧
    attendance w2 = [stored2] ∧
    (att_id rec1, att_date rec1, att_status rec1) =
      (att_id stored1, att_date stored1, att_status stored1) ∧
    att_marked_at rec1 = 0%Z ∧ att_marked_at stored1 = 1%Z ∧ rec1 ≠ stored1 ∧
    (att_id rec2, att_date rec2, att_status rec2) =
      (att_id stored2, att_date stored2, att_status stored2) ∧
    att_id stored2 = att_id stored1 ∧
    att_marked_at rec2 = 3%Z ∧ att_marked_at stored2 = 2%Z ∧ rec2 ≠ stored2.
Proof.
  eexists _, _, _, _, _, _.
  split; [by vm_compute|]. split; [by vm_compute|].
  split; [by vm_compute|]. split; [by vm_compute|].
  split_and!; try done.
Qed.

(** ** Bulk marking *)

Section Bulk.
Variable uuid4_at : nat → string.
Variable utcnow_at : nat → datetime.

Local Abbreviation mark := (mark_attendance uuid4_at utcnow_at).
Local Abbreviation each := (mark_each uuid4_at utcnow_at).

Lemma mark_each_returns requests w :
  ∃ recs w', each requests w = (Ok recs, w') ∧ length recs = length requests.
Proof.
  revert w. induction requests as [|data rest IH]; intros w; simpl.
  - by exists [], w.
  - unfold bind.
    destruct (mark_attendance_returns uuid4_at utcnow_at data w) as (r & w1 & ->).
    destruct (IH w1) as (rs & w2 & -> & Hlen).
    exists (r :: rs), w2. split; [done|]. simpl. by rewrite Hlen.
Qed.

Lemma mark_each_app l1 l2 w recs1 w1 :
  each l1 w = (Ok recs1, w1) →
  each (l1 ++ l2) w =
    (match fst (each l2 w1) with
     | Ok recs2 => Ok (recs1 ++ recs2)
     | Raise e => Raise e
     end, snd (each l2 w1)).
Proof.
  revert w recs1. induction l1 as [|data rest IH]; intros w recs1; simpl.
  - intros [= <- <-]. by destruct (each l2 w) as [[?|?] ?].
  - unfold bind.
    destruct (mark_attendance_returns uuid4_at utcnow_at data w) as (r & w' & ->).
    destruct (mark_each_returns rest w') as (rs & w'' & Hrest & _).
    rewrite Hrest. intros [= <- <-].
    rewrite (IH _ _ Hrest).
    by destruct (each l2 w'') as [[?|?] ?].
Qed.

Lemma mark_bulk_loop_bad bulk_data bad rest results key w :
  missing_key bad = Some key →
  mark_bulk_loop uuid4_at utcnow_at bulk_data (bad :: rest) results w = (Raise (KeyError key), w).
Proof.
  unfold missing_key. cbn [mark_bulk_loop]. unfold bind, lift, getitem.
  destruct (bad !! "student_id"), (bad !! "status"); by intros [= <-].
Qed.

Lemma mark_bulk_loop_app bulk_data todo1 todo2 pairs results w recs w1 :
  Forall2 reads_as todo1 pairs →
  each (pair_request bulk_data <$> pairs) w = (Ok recs, w1) →
  mark_bulk_loop uuid4_at utcnow_at bulk_data (todo1 ++ todo2) results w =
    mark_bulk_loop uuid4_at utcnow_at bulk_data todo2 (results ++ recs) w1.
Proof.
  intros Hreads. revert results w recs w1.
  induction Hreads as [|record p todo pairs [Hsid Hst] _ IH]; intros results w recs w1.
  - simpl. intros [= <- <-]. by rewrite app_nil_r.
  - rewrite fmap_cons. cbn [mark_each]. unfold bind at 1.
    destruct (mark_attendance_returns uuid4_at utcnow_at (pair_request bulk_data p) w)
      as (r & w' & Hr). rewrite Hr.
    destruct (mark_each_returns (pair_request bulk_data <$> pairs) w')
      as (rs & w'' & Hrs & _).
    unfold bind. rewrite Hrs. intros [= <- <-].
    rewrite <- app_comm_cons. cbn [mark_bulk_loop].
    unfold bind at 1 2 3, lift, getitem.
    rewrite Hsid, Hst. fold (pair_request bulk_data p). rewrite Hr.
    rewrite (IH _ _ _ _ Hrs). f_equal. by rewrite <- app_assoc.
Qed.
End Bulk.

(** C7: when every dictionary of the batch carries a student id and a status,
    the bulk handler is the individual mark applied once per pair, in list
    order, each on the store the previous mark left: it returns the records
    of these marks in order, and a message with their number [N].  When a
    dictionary lacks a key, the handler raises [KeyError] and leaves the
    store as the marks of the pairs before it made it: nothing is undone. *)
Theorem C7_bulk_marks_each_pair_in_order (uuid4_at : nat → string)
    (utcnow_at : nat → datetime) (bulk_data : AttendanceBulkCreate) (w : World) :
  (∀ pairs,
     Forall2 reads_as (bulk_attendance_records bulk_data) pairs →
     ∃ recs w',
       mark_each uuid4_at utcnow_at (pair_request bulk_data <$> pairs) w = (Ok recs, w') ∧
       mark_bulk_attendance uuid4_at utcnow_at bulk_data w =
         (Ok {| message := "Marked attendance for " +:+ pretty (length pairs) +:+ " students";
                records := recs |}, w') ∧
       length recs = length pairs ∧
       length pairs = length (bulk_attendance_records bulk_data)) ∧
  (∀ good bad rest pairs key,
     bulk_attendance_records bulk_data = good ++ bad :: rest →
     Forall2 reads_as good pairs →
     missing_key bad = Some key →
     ∃ recs w1,
       mark_each uuid4_at utcnow_at (pair_request bulk_data <$> pairs) w = (Ok recs, w1) ∧
       length recs = length good ∧
       mark_bulk_attendance uuid4_at utcnow_at bulk_data w = (Raise (KeyError key), w1)) ∧
  (∀ requests request recs w1,
     mark_each uuid4_at utcnow_at requests w = (Ok recs, w1) →
     ∃ r w2,
       mark_attendance uuid4_at utcnow_at request w1 = (Ok r, w2) ∧
       mark_each uuid4_at utcnow_at (requests ++ [request]) w = (Ok (recs ++ [r]), w2)).
Proof.
  split_and!.
  - intros pairs Hreads.
    destruct (mark_each_returns uuid4_at utcnow_at (pair_request bulk_data <$> pairs) w)
      as (recs & w' & Heach & Hlen).
    rewrite length_fmap in Hlen.
    exists recs, w'. split_and!; try done.
    + unfold mark_bulk_attendance, bind.
      rewrite <- (app_nil_r (bulk_attendance_records bulk_data)).
      rewrite (mark_bulk_loop_app _ _ _ _ _ _ _ _ _ _ Hreads Heach).
      simpl. unfold ret. by rewrite Hlen.
    + symmetry. by apply Forall2_length in Hreads.
  - intros good bad rest pairs key Hsplit Hreads Hkey.
    destruct (mark_each_returns uuid4_at utcnow_at (pair_request bulk_data <$> pairs) w)
      as (recs & w1 & Heach & Hlen).
    rewrite length_fmap in Hlen.
    exists recs, w1. split_and!; try done.
    + rewrite Hlen. symmetry. by apply Forall2_length in Hreads.
    + unfold mark_bulk_attendance, bind. rewrite Hsplit.
      rewrite (mark_bulk_loop_app _ _ _ _ _ _ _ _ _ _ Hreads Heach).
      by rewrite (mark_bulk_loop_bad _ _ _ _ _ _ key).
  - intros requests request recs w1 Heach.
    destruct (mark_attendance_returns uuid4_at utcnow_at request w1) as (r & w2 & Hr).
    exists r, w2. split; [done|].
    rewrite (mark_each_app _ _ _ _ _ _ _ Heach). simpl. unfold bind. by rewrite Hr.
Qed.

Lemma two_pairs_read :
  Forall2 reads_as (bulk_attendance_records two_pairs) [("s0", "present"); ("s1", "late")].
Proof. repeat constructor. Qed.

Lemma second_pair_broken_read :
  Forall2 reads_as [{[ "student_id" := "s0"; "status" := "present" ]}] [("s0", "present")].
Proof. repeat constructor. Qed.

(** Two pairs on an empty register: two records returned and stored; with
    the second dictionary broken: [KeyError], and the first mark stays. *)
Lemma C7_bulk_marks_each_pair_in_order_witness :
  (∃ recs w',
     mark_bulk_attendance sample_uuid sample_clock two_pairs empty_register =
       (Ok {| message := "Marked attendance for 2 students"; records := recs |}, w') ∧
     length recs = 2 ∧ length (attendance w') = 2) ∧
  (∃ w1,
     mark_bulk_attendance sample_uuid sample_clock second_pair_broken empty_register =
       (Raise (KeyError "status"), w1) ∧
     length (attendance w1) = 1).
Proof.
  pose proof (C7_bulk_marks_each_pair_in_order sample_uuid sample_clock two_pairs
                empty_register) as (Hgood & _ & _).
  pose proof (C7_bulk_marks_each_pair_in_order sample_uuid sample_clock second_pair_broken
                empty_register) as (_ & Hbad & _).
  destruct (Hgood _ two_pairs_read) as (recs & w' & Heach & Hbulk & Hlen & _).
  destruct (Hbad [{[ "student_id" := "s0"; "status" := "present" ]}]
              {[ "student_id" := "s1" ]} [] _ "status" eq_refl second_pair_broken_read eq_refl)
    as (recs1 & w1 & Heach1 & Hlen1 & Hbulk1).
  split.
  - exists recs, w'. split; [exact Hbulk|]. split; [exact Hlen|].
    revert Heach. vm_compute. by intros [= <- <-].
  - exists w1. split; [exact Hbulk1|].
    revert Heach1. vm_compute. by intros [= <- <-].
Defined.

(** ** Stores the service can reach *)

Lemma filter_same_triple_other data data' r l1 l2 :
  same_triple data r → ¬ same_key data data' →
  filter (same_triple data') (l1 ++ r :: l2) =
  filter (same_triple data') l1 ++ filter (same_triple data') l2.
Proof.
  intros (Hs & Hc & Hd) Hkey. rewrite filter_app, filter_cons_False; [done|].
  intros (Hs' & Hc' & Hd'). apply Hkey. unfold same_key. split_and!; congruence.
Qed.

Section WellFormed.
Variable uuid4_at : nat → string.
Variable utcnow_at : nat → datetime.

(** [uuid4] never returns the same identifier twice. *)
Hypothesis uuid4_never_repeats : Inj (=) (=) uuid4_at.

Local Abbreviation mark := (mark_attendance uuid4_at utcnow_at).
Local Abbreviation wf := (store_wf uuid4_at).

Lemma store_wf_no_attendance w : attendance w = [] → wf w.
Proof.
  intros Hw. unfold store_wf, at_most_one_per_triple. rewrite Hw.
  split_and!.
  - intros data. simpl. lia.
  - constructor.
  - intros i Hi. by apply elem_of_nil in Hi.
Qed.

Lemma store_wf_fresh w r :
  wf w → r ∈ attendance w → att_id r ≠ uuid4_at (uuid_calls w).
Proof.
  intros (_ & _ & Hissued) Hr Heq.
  destruct (Hissued (att_id r)) as (k & Hk & Hid); [by apply list_elem_of_fmap_2|].
  rewrite Hid in Heq. apply uuid4_never_repeats in Heq. lia.
Qed.

Lemma mark_attendance_wf data w :
  wf w → wf (mark data w).2.
Proof.
  intros Hwf. pose proof Hwf as (Hinv & Hids & Hissued).
  destruct (mark_attendance_returns uuid4_at utcnow_at data w) as (rec & w' & Hm).
  pose proof (mark_attendance_keeps_invariant _ _ _ _ _ _ Hm Hinv) as Hinv'.
  rewrite Hm. cbn [snd]. rewrite mark_attendance_eq in Hm.
  destruct (find_one (same_triple data) (attendance w)) as [ex|] eqn:E;
    injection Hm as _ <-; (split; [done|]); cbn [attendance uuid_calls with_attendance].
  - rewrite update_one_fmap by done. done.
  - rewrite fmap_app. cbn [fmap list_fmap att_id new_record]. split.
    + apply NoDup_app. split_and!; [done| |apply NoDup_singleton].
      intros i Hi ->%list_elem_of_singleton.
      apply list_elem_of_fmap in Hi as (r & Hid & Hr).
      by apply (store_wf_fresh w r).
    + intros i [Hi| ->%list_elem_of_singleton]%elem_of_app.
      * destruct (Hissued i Hi) as (k & Hk & ->). exists k. split; [lia | done].
      * exists (uuid_calls w). split; [lia | done].
Qed.

(** On a well-formed store a mark leaves exactly one record for its triple,
    with the requested status and the returned id, and leaves the records of
    every other triple as they were. *)
Lemma mark_attendance_upsert data w rec w' :
  wf w → mark data w = (Ok rec, w') →
  (∃ stored, filter (same_triple data) (attendance w') = [stored] ∧
             att_status stored = ac_status data ∧ att_id stored = att_id rec) ∧
  (∀ data', ¬ same_key data data' →
     filter (same_triple data') (attendance w') = filter (same_triple data') (attendance w)).
Proof.
  intros Hwf Hm. pose proof Hwf as (Hinv & Hids & _).
  split.
  - by apply (mark_attendance_stores_one uuid4_at utcnow_at data w rec w').
  - intros data' Hkey.
    destruct (find_one (same_triple data) (attendance w)) as [ex|] eqn:E.
    + pose proof (find_one_Some _ _ _ E) as [_ Hex].
      apply find_one_split in E as (l1 & l2 & Hw & Hl1).
      rewrite (mark_attendance_found _ _ data _ l1 ex l2) in Hm; try done.
      * injection Hm as _ <-. cbn [attendance with_attendance]. rewrite Hw.
        by rewrite !(filter_same_triple_other data data').
      * apply (unique_ids_before l1 ex l2). by rewrite <- Hw.
    + rewrite mark_attendance_new in Hm by (by apply (find_one_None (same_triple data))).
      injection Hm as _ <-. cbn [attendance with_attendance].
      rewrite (filter_same_triple_other data data'); [by rewrite !app_nil_r | done | done].
Qed.

Lemma mark_bulk_loop_wf bulk_data todo results w :
  wf w → wf (mark_bulk_loop uuid4_at utcnow_at bulk_data todo results w).2.
Proof.
  revert results w. induction todo as [|record rest IH]; intros results w Hwf; [done|].
  cbn [mark_bulk_loop]. unfold bind at 1, lift, getitem.
  destruct (record !! "student_id") as [sid|]; [|done].
  unfold bind at 1. destruct (record !! "status") as [st|]; [|done].
  unfold bind.
  set (data := {| ac_student_id := sid; ac_class_id := bulk_class_id bulk_data;
                  ac_date := bulk_date bulk_data; ac_status := st |}).
  destruct (mark_attendance_returns uuid4_at utcnow_at data w) as (r & w1 & Hm).
  pose proof (mark_attendance_wf data w Hwf) as Hwf1.
  rewrite Hm in Hwf1 |- *. by apply IH.
Qed.

Lemma mark_bulk_attendance_wf bulk_data w :
  wf w → wf (mark_bulk_attendance uuid4_at utcnow_at bulk_data w).2.
Proof.
  intros Hwf. unfold mark_bulk_attendance, bind.
  pose proof (mark_bulk_loop_wf bulk_data (bulk_attendance_records bulk_data) [] w Hwf) as H.
  by destruct (mark_bulk_loop _ _ _ _ _ _) as [[?|?] ?].
Qed.

Lemma create_class_wf class_data w :
  wf w → wf (create_class uuid4_at utcnow_at class_data w).2.
Proof.
  intros (Hinv & Hids & Hissued). split_and!; try done.
  intros i Hi. destruct (Hissued i Hi) as (k & Hk & ->). exists k. simpl. split; [lia|done].
Qed.

Lemma create_student_wf student_data w :
  wf w → wf (create_student uuid4_at student_data w).2.
Proof.
  intros (Hinv & Hids & Hissued). split_and!; try done.
  intros i Hi. destruct (Hissued i Hi) as (k & Hk & ->). exists k. simpl. split; [lia|done].
Qed.

Lemma step_wf w w' : step uuid4_at utcnow_at w w' → wf w → wf w'.
Proof.
  destruct 1; auto using create_class_wf, create_student_wf, mark_attendance_wf,
    mark_bulk_attendance_wf.
Qed.

Lemma reachable_wf w0 w : attendance w0 = [] → rtc (step uuid4_at utcnow_at) w0 w → wf w.
Proof.
  intros H0 Hsteps. apply store_wf_no_attendance in H0.
  induction Hsteps as [|w1 w2 w3 Hstep _ IH]; [done|].
  apply IH. by apply (step_wf w1).
Qed.
End WellFormed.

(** The handlers that only read leave the store as it is. *)
Lemma reads_keep_the_store w class_id student_id students_class_id date
    start_date end_date :
  (get_classes w).2 = w ∧ (get_class class_id w).2 = w ∧
  (get_students students_class_id w).2 = w ∧ (get_student student_id w).2 = w ∧
  (get_attendance class_id date w).2 = w ∧
  (get_class_report class_id start_date end_date w).2 = w.
Proof.
  rewrite get_class_eq, get_student_eq, get_class_report_eq.
  split_and!; try done; by destruct find_one.
Qed.

(** ** Bulk marking of distinct students *)

Section BulkDistinct.
Variable uuid4_at : nat → string.
Variable utcnow_at : nat → datetime.
Hypothesis uuid4_never_repeats : Inj (=) (=) uuid4_at.

Local Abbreviation wf := (store_wf uuid4_at).
Local Abbreviation each := (mark_each uuid4_at utcnow_at).

Lemma mark_each_others_unchanged requests w recs w' data' :
  wf w → each requests w = (Ok recs, w') →
  (∀ d, d ∈ requests → ¬ same_key d data') →
  wf w' ∧
  filter (same_triple data') (attendance w') = filter (same_triple data') (attendance w).
Proof.
  revert w recs. induction requests as [|data rest IH]; intros w recs Hwf; simpl.
  - by intros [= <- <-].
  - unfold bind.
    destruct (mark_attendance_returns uuid4_at utcnow_at data w) as (r & w1 & Hm).
    rewrite Hm.
    destruct (mark_each_returns uuid4_at utcnow_at rest w1) as (rs & w2 & Hrest & _).
    rewrite Hrest. intros [= <- <-] Hothers.
    pose proof (mark_attendance_wf uuid4_at utcnow_at uuid4_never_repeats data w Hwf) as Hwf1.
    rewrite Hm in Hwf1.
    destruct (IH w1 rs Hwf1 Hrest) as [Hwf2 Heq].
    { intros d Hd. apply Hothers. by right. }
    split; [done|]. rewrite Heq.
    apply (mark_attendance_upsert uuid4_at utcnow_at data w r w1 Hwf Hm).
    apply Hothers. left.
Qed.

Lemma mark_each_distinct_students bulk_data pairs w recs w' :
  wf w → NoDup pairs.*1 →
  each (pair_request bulk_data <$> pairs) w = (Ok recs, w') →
  wf w' ∧
  ∀ p, p ∈ pairs →
    ∃ stored, filter (same_triple (pair_request bulk_data p)) (attendance w') = [stored] ∧
              att_status stored = p.2.
Proof.
  revert w recs. induction pairs as [|p rest IH]; intros w recs Hwf Hnodup.
  - simpl. intros [= <- <-]. split; [done|]. intros p Hp. by apply elem_of_nil in Hp.
  - rewrite fmap_cons. cbn [mark_each]. unfold bind.
    destruct (mark_attendance_returns uuid4_at utcnow_at (pair_request bulk_data p) w)
      as (r & w1 & Hm).
    rewrite Hm.
    destruct (mark_each_returns uuid4_at utcnow_at (pair_request bulk_data <$> rest) w1)
      as (rs & w2 & Hrest & _).
    rewrite Hrest. intros [= <- <-].
    rewrite fmap_cons in Hnodup. apply NoDup_cons in Hnodup as [Hp Hnodup].
    pose proof (mark_attendance_wf uuid4_at utcnow_at uuid4_never_repeats
                  (pair_request bulk_data p) w Hwf) as Hwf1.
    rewrite Hm in Hwf1.
    destruct (IH w1 rs Hwf1 Hnodup Hrest) as [Hwf2 Hrestok].
    split; [done|].
    intros q [->|Hq]%elem_of_cons; [|by apply Hrestok].
    destruct (mark_attendance_upsert uuid4_at utcnow_at _ w r w1 Hwf Hm)
      as [(stored & Hf & Hst & _) _].
    exists stored. split; [|done].
    rewrite <- Hf.
    apply (mark_each_others_unchanged (pair_request bulk_data <$> rest) w1 rs w2);
      [done | done |].
    intros d (q & -> & Hq)%list_elem_of_fmap (Hs & _). simpl in Hs.
    apply Hp. rewrite <- Hs. by apply list_elem_of_fmap_2.
Qed.
End BulkDistinct.

Lemma sample_uuid_never_repeats : Inj (=) (=) sample_uuid.
Proof.
  intros m n Heq. unfold sample_uuid in Heq.
  apply (inj (String.app "u")) in Heq. by apply (inj pretty) in Heq.
Qed.

(** X1: on every store the handlers can reach from one without attendance
    records, with identifiers that never repeat: at most one record per
    triple, pairwise distinct record ids, and a mark leaves exactly one
    record for its triple, with the requested status and the returned id,
    and the records of the other triples as they were. *)
Theorem reachable_store_upsert (uuid4_at : nat → string) (utcnow_at : nat → datetime)
    (w0 w : World) (data : AttendanceCreate) :
  Inj (=) (=) uuid4_at →
  attendance w0 = [] →
  rtc (step uuid4_at utcnow_at) w0 w →
  at_most_one_per_triple (attendance w) ∧
  NoDup (att_id <$> attendance w) ∧
  ∃ rec w' stored,
    mark_attendance uuid4_at utcnow_at data w = (Ok rec, w') ∧
    filter (same_triple data) (attendance w') = [stored] ∧
    att_status stored = ac_status data ∧ att_id stored = att_id rec ∧
    ∀ data', ¬ same_key data data' →
      filter (same_triple data') (attendance w') = filter (same_triple data') (attendance w).
Proof.
  intros Hinj H0 Hsteps.
  pose proof (reachable_wf uuid4_at utcnow_at Hinj w0 w H0 Hsteps) as Hwf.
  pose proof Hwf as (Hinv & Hids & _).
  split; [done|]. split; [done|].
  destruct (mark_attendance_returns uuid4_at utcnow_at data w) as (rec & w' & Hm).
  destruct (mark_attendance_upsert uuid4_at utcnow_at data w rec w' Hwf Hm)
    as [(stored & Hf & Hst & Hid) Hothers].
  by exists rec, w', stored.
Qed.

(** The store after one mark on the empty register, marked again. *)
Lemma reachable_store_upsert_witness :
  ∃ rec w' stored,
    mark_attendance sample_uuid sample_clock (mark_s0 "late")
      (mark_attendance sample_uuid sample_clock (mark_s0 "present") empty_register).2
      = (Ok rec, w') ∧
    filter (same_triple (mark_s0 "late")) (attendance w') = [stored] ∧
    att_status stored = "late" ∧ att_id stored = att_id rec.
Proof.
  destruct (reachable_store_upsert sample_uuid sample_clock empty_register
              (mark_attendance sample_uuid sample_clock (mark_s0 "present") empty_register).2
              (mark_s0 "late") sample_uuid_never_repeats eq_refl
              (rtc_once _ _ (step_mark_attendance _ _ _ _)))
    as (_ & _ & rec & w' & stored & Hm & Hf & Hst & Hid & _).
  by exists rec, w', stored.
Defined.

(** X2: bulk-marking pairwise distinct students for one class and date on a
    store the handlers can reach: the handler returns, and for each pair the
    store then holds exactly one record for (student, class, date), with the
    pair's status. *)
Theorem bulk_distinct_students_one_record_each (uuid4_at : nat → string)
    (utcnow_at : nat → datetime) (w0 w : World) (bulk_data : AttendanceBulkCreate)
    (pairs : list (string * string)) :
  Inj (=) (=) uuid4_at →
  attendance w0 = [] →
  rtc (step uuid4_at utcnow_at) w0 w →
  Forall2 reads_as (bulk_attendance_records bulk_data) pairs →
  NoDup pairs.*1 →
  ∃ recs w',
    mark_bulk_attendance uuid4_at utcnow_at bulk_data w =
      (Ok {| message := bulk_message (length pairs); records := recs |}, w') ∧
    length recs = length pairs ∧
    at_most_one_per_triple (attendance w') ∧
    ∀ p, p ∈ pairs →
      ∃ stored, filter (same_triple (pair_request bulk_data p)) (attendance w') = [stored] ∧
                att_status stored = p.2.
Proof.
  intros Hinj H0 Hsteps Hreads Hnodup.
  pose proof (reachable_wf uuid4_at utcnow_at Hinj w0 w H0 Hsteps) as Hwf.
  destruct (mark_each_returns uuid4_at utcnow_at (pair_request bulk_data <$> pairs) w)
    as (recs & w' & Heach & Hlen).
  rewrite length_fmap in Hlen.
  destruct (mark_each_distinct_students uuid4_at utcnow_at Hinj bulk_data pairs w recs w'
              Hwf Hnodup Heach) as [(Hinv' & _) Hall].
  exists recs, w'. split_and!; try done.
  unfold mark_bulk_attendance, bind.
  rewrite <- (app_nil_r (bulk_attendance_records bulk_data)).
  rewrite (mark_bulk_loop_app _ _ _ _ _ _ _ _ _ _ Hreads Heach).
  simpl. unfold ret, bulk_message. by rewrite Hlen.
Qed.

Lemma two_pairs_distinct : NoDup [("s0", "present"); ("s1", "late")].*1.
Proof. decide_by_evaluation. Qed.

(** The two pairs of [two_pairs] on the empty register. *)
Lemma bulk_distinct_students_one_record_each_witness :
  ∃ recs w',
    mark_bulk_attendance sample_uuid sample_clock two_pairs empty_register =
      (Ok {| message := bulk_message 2; records := recs |}, w') ∧
    length recs = 2 ∧
    (∃ stored, filter (same_triple (pair_request two_pairs ("s0", "present")))
                      (attendance w') = [stored] ∧ att_status stored = "present") ∧
    (∃ stored, filter (same_triple (pair_request two_pairs ("s1", "late")))
                      (attendance w') = [stored] ∧ att_status stored = "late").
Proof.
  destruct (bulk_distinct_students_one_record_each sample_uuid sample_clock
              empty_register empty_register two_pairs _
              sample_uuid_never_repeats eq_refl (rtc_refl _ _) two_pairs_read
              two_pairs_distinct)
    as (recs & w' & Hbulk & Hlen & _ & Hall).
  exists recs, w'. split; [exact Hbulk|]. split; [exact Hlen|]. split.
  - apply (Hall ("s0", "present")). left.
  - apply (Hall ("s1", "late")). right. left.
Defined.

(** ** Reading the percentage as a decimal *)


(** Where the exact percentage lies midway between two two-decimal numbers,
    the binary64 product decides: 23 of 160 is 14.375 exactly and is reported
    as 14.37; 49 of 160 is 30.625 exactly and is reported as 30.63. *)
Lemma percentage_at_exact_ties :
  percentage 23 160 = decimal2 1437 ∧ (10000 * 23 = 160 * 1437 + 80)%Z ∧
  percentage 49 160 = decimal2 3063 ∧ (10000 * 49 = 160 * 3063 - 80)%Z.
Proof. by vm_compute. Qed.


Lemma empty_register_unique_ids : NoDup (att_id <$> attendance empty_register).
Proof. constructor. Qed.

Lemma empty_register_first_mark :
  mark_attendance sample_uuid sample_clock (mark_s0 "present") empty_register =
    (Ok (new_record (mark_s0 "present") (sample_uuid 0) (sample_clock 0)),
     with_attendance [new_record (mark_s0 "present") (sample_uuid 0) (sample_clock 1)]
                     1 2 empty_register).
Proof. by vm_compute. Qed.

(** The first mark on the empty register: returned reading 0, stored reading 1. *)
Lemma mark_attendance_returned_vs_stored_witness :
  ∃ stored,
    filter (same_triple (mark_s0 "present"))
           (attendance (with_attendance
                          [new_record (mark_s0 "present") (sample_uuid 0) (sample_clock 1)]
                          1 2 empty_register)) = [stored] ∧
    att_id stored = sample_uuid 0 ∧ att_status stored = "present" ∧
    att_marked_at stored = sample_clock 1.
Proof.
  destruct (mark_attendance_returned_vs_stored sample_uuid sample_clock empty_register
              (mark_s0 "present") _ _ empty_register_invariant empty_register_unique_ids
              (fun r Hr => False_ind _ (proj1 (elem_of_nil r) Hr))
              empty_register_first_mark)
    as (stored & Hf & Hid & _ & _ & _ & Hst & _ & Hnew & _).
  exists stored. split; [exact Hf|].
  destruct Hnew as [_ Ht]; [intros r Hr; by apply elem_of_nil in Hr|].
  rewrite <- Hid, <- Hst, Ht. done.
Defined.

(** ** Converting the ObjectIds of a raw document *)

Lemma objectid_to_str_dict fields :
  objectid_to_str (BDict fields) = BDict (map (fun kv => (kv.1, convert_field kv.2)) fields).
Proof.
  simpl. f_equal. apply map_ext. by intros [key value].
Qed.

Lemma no_objectid_field_dict fields :
  no_objectid_field (BDict fields) = forallb (fun kv => field_clean kv.2) fields.
Proof. reflexivity. Qed.

(** Induction on documents, through their fields and items. *)
Lemma bson_ind_nested (P : bson → Prop) :
  (∀ hex, P (BObjectId hex)) →
  (∀ fields, Forall (fun kv => P kv.2) fields → P (BDict fields)) →
  (∀ items, Forall P items → P (BList items)) →
  (∀ s, P (BStr s)) → (∀ n, P (BInt n)) → P BNone →
  ∀ v, P v.
Proof.
  intros Hoid Hdict Hlist Hstr Hint Hnone.
  fix IH 1. intros [hex|fields|items|s|n|].
  - apply Hoid.
  - apply Hdict.
    induction fields as [|[key value] fields IHf]; constructor; [apply IH | apply IHf].
  - apply Hlist.
    induction items as [|item items IHi]; constructor; [apply IH | apply IHi].
  - apply Hstr.
  - apply Hint.
  - apply Hnone.
Qed.

Lemma forallb_map_true {A B} (f : A → B) (p : B → bool) (l : list A) :
  Forall (fun x => p (f x) = true) l → forallb p (map f l) = true.
Proof. induction 1 as [|x l Hx _ IH]; simpl; [done|]. by rewrite Hx, IH. Qed.

Lemma map_id_on {A} (f : A → A) (l : list A) :
  Forall (fun x => f x = x) l → map f l = l.
Proof. induction 1 as [|x l Hx _ IH]; simpl; [done|]. by rewrite Hx, IH. Qed.

Lemma forallb_Forall {A} (p : A → bool) (l : list A) :
  forallb p l = true → Forall (fun x => p x = true) l.
Proof.
  induction l as [|x l IH]; simpl; [constructor|].
  intros [Hx Hl]%andb_prop. constructor; auto.
Qed.

Lemma objectid_to_str_clean_both v :
  no_objectid_field (objectid_to_str v) = true ∧ field_clean (convert_field v) = true.
Proof.
  induction v as [hex|fields IH|items IH|s|n|] using bson_ind_nested; try done.
  - assert (no_objectid_field (objectid_to_str (BDict fields)) = true) as H.
    { rewrite objectid_to_str_dict, no_objectid_field_dict.
      apply forallb_map_true. eapply Forall_impl; [exact IH|].
      intros [key value] [_ Hv]. exact Hv. }
    split; exact H.
  - split; [done|]. simpl. apply forallb_map_true.
    eapply Forall_impl; [exact IH|]. intros item [Hitem _].
    by destruct item.
Qed.

Lemma objectid_to_str_fixes_clean_both v :
  (no_objectid_field v = true → objectid_to_str v = v) ∧
  (field_clean v = true → convert_field v = v).
Proof.
  induction v as [hex|fields IH|items IH|s|n|] using bson_ind_nested; try done.
  - assert (no_objectid_field (BDict fields) = true →
            objectid_to_str (BDict fields) = BDict fields) as H.
    { rewrite objectid_to_str_dict, no_objectid_field_dict. intros Hclean%forallb_Forall.
      f_equal. apply map_id_on.
      pose proof (proj2 (Forall_and _ _) (conj IH Hclean)) as Hboth.
      eapply Forall_impl; [exact Hboth|].
      intros [key value]. simpl. intros [[_ Hv] Hc]. by rewrite Hv. }
    split; exact H.
  - split; [done|]. simpl. intros Hclean%forallb_Forall. f_equal. apply map_id_on.
    pose proof (proj2 (Forall_and _ _) (conj IH Hclean)) as Hboth.
    eapply Forall_impl; [exact Hboth|].
    intros item [[Hitem _] Hc]. destruct item; try done. by apply Hitem.
Qed.

(** X5: [objectid_to_str] leaves no [ObjectId] as the value of a field of the
    document, of its sub-documents or of the dictionaries in its list fields;
    it keeps the keys and their order; it changes nothing in a document that
    has no such field, nor in a value that is not a dictionary, so that
    converting twice is converting once. *)
Theorem objectid_to_str_converts_once (v : bson) :
  no_objectid_field (objectid_to_str v) = true ∧
  (no_objectid_field v = true → objectid_to_str v = v) ∧
  (is_dict v = false → objectid_to_str v = v) ∧
  objectid_to_str (objectid_to_str v) = objectid_to_str v ∧
  (∀ fields, ∃ fields',
     objectid_to_str (BDict fields) = BDict fields' ∧ fields'.*1 = fields.*1).
Proof.
  split_and!.
  - apply objectid_to_str_clean_both.
  - apply objectid_to_str_fixes_clean_both.
  - by destruct v.
  - apply objectid_to_str_fixes_clean_both, objectid_to_str_clean_both.
  - intros fields. eexists. split; [apply objectid_to_str_dict|].
    induction fields as [|[key value] fields IH]; [done|].
    simpl. f_equal. exact IH.
Qed.

(** X6: [objectid_to_str] converts only what it meets as a field value or in
    a dictionary item of a list field: in a list field every item that is
    not a dictionary stays as it is, an [ObjectId] or a list holding
    documents included. *)
Theorem objectid_to_str_keeps_list_items (fields : list (string * bson))
    (n i : nat) (key : string) (items : list bson) (item : bson) :
  fields !! n = Some (key, BList items) →
  items !! i = Some item →
  is_dict item = false →
  ∃ fields' items',
    objectid_to_str (BDict fields) = BDict fields' ∧
    fields' !! n = Some (key, BList items') ∧
    length items' = length items ∧
    items' !! i = Some item.
Proof.
  intros Hfield Hitem Hnodict.
  eexists _, _. split; [apply objectid_to_str_dict|].
  split_and!.
  - change (map ?f fields) with (f <$> fields).
    rewrite list_lookup_fmap, Hfield. simpl. reflexivity.
  - by rewrite length_map.
  - change (map ?f items) with (f <$> items).
    rewrite list_lookup_fmap, Hitem. simpl. by destruct item.
Qed.

(** In [nested_document] the [ObjectId] in the list and the dictionary in the
    inner list are returned as they are. *)
Lemma objectid_to_str_keeps_list_items_witness :
  objectid_to_str nested_document =
    BDict [("_id", BStr "64b7f0c2a1"); ("name", BStr "2nd Year Physics");
           ("history", BList [BObjectId "64b7f0c2a2";
                              BDict [("by", BStr "64b7f0c2a3")];
                              BList [BDict [("by", BObjectId "64b7f0c2a4")]]])] ∧
  ∃ fields' items',
    objectid_to_str nested_document = BDict fields' ∧
    fields' !! 2 = Some ("history", BList items') ∧
    items' !! 0 = Some (BObjectId "64b7f0c2a2").
Proof.
  split; [reflexivity|].
  destruct (objectid_to_str_keeps_list_items
              [("_id", BObjectId "64b7f0c2a1"); ("name", BStr "2nd Year Physics");
               ("history", BList [BObjectId "64b7f0c2a2";
                                  BDict [("by", BObjectId "64b7f0c2a3")];
                                  BList [BDict [("by", BObjectId "64b7f0c2a4")]]])]
              2 0 "history" _ (BObjectId "64b7f0c2a2") eq_refl eq_refl eq_refl)
    as (fields' & items' & Heq & Hf & _ & Hi).
  by exists fields', items'.
Defined.

(** ** Creating and fetching *)

Section CollectionMore.
Context {A : Type} (P : A → Prop) `{!∀ x, Decision (P x)}.

Lemma find_one_app l1 l2 :
  find_one P (l1 ++ l2) =
    match find_one P l1 with
    | Some x => Some x
    | None => find_one P l2
    end.
Proof.
  induction l1 as [|x l1 IH]; simpl; [done|]. by case_decide.
Qed.

Lemma find_one_unique {B} (f : A → B) `{!EqDecision B} (l : list A) (x : A) :
  NoDup (f <$> l) → x ∈ l → find_one (fun y => f y = f x) l = Some x.
Proof.
  induction l as [|y l IH]; intros Hnodup Hx; [by apply elem_of_nil in Hx|].
  rewrite fmap_cons in Hnodup. apply NoDup_cons in Hnodup as [Hy Hnodup].
  simpl. apply elem_of_cons in Hx as [->|Hx].
  - by rewrite decide_True.
  - rewrite decide_False; [by apply IH|].
    intros Heq. apply Hy. rewrite Heq. by apply list_elem_of_fmap_2.
Qed.
End CollectionMore.

Lemma take_snoc_below {A} (l : list A) (x : A) n :
  length l < n → take n (l ++ [x]) = l ++ [x].
Proof. intros Hlen. apply take_ge. rewrite length_app. simpl. lia. Qed.

Lemma take_snoc_full {A} (l : list A) (x : A) n :
  n ≤ length l → take n (l ++ [x]) = take n l.
Proof. intros Hlen. by apply take_app_le. Qed.

Lemma create_class_eq uuid4_at utcnow_at class_data w :
  create_class uuid4_at utcnow_at class_data w =
    (Ok (new_class class_data (uuid4_at (uuid_calls w)) (utcnow_at (clock_calls w))),
     {| classes := classes w ++
                     [stored_class (new_class class_data (uuid4_at (uuid_calls w))
                                              (utcnow_at (clock_calls w)))];
        students := students w; attendance := attendance w;
        uuid_calls := S (uuid_calls w); clock_calls := S (clock_calls w) |}).
Proof. reflexivity. Qed.

Lemma bson_datetime_whole t :
  (bson_datetime t mod 1000 = 0 ∧ 0 ≤ t - bson_datetime t < 1000)%Z.
Proof.
  unfold bson_datetime. split; [apply Z.mod_mul; lia|].
  pose proof (Z.mod_pos_bound t 1000). pose proof (Z.div_mod t 1000). lia.
Qed.

Lemma bson_datetime_fixes t : bson_datetime t = t ↔ (t mod 1000 = 0)%Z.
Proof.
  unfold bson_datetime. pose proof (Z.div_mod t 1000). lia.
Qed.

Lemma stored_class_same c : stored_class c = c ↔ (cls_created_at c mod 1000 = 0)%Z.
Proof.
  rewrite <- bson_datetime_fixes. destruct c as [i n s t]. unfold stored_class. simpl.
  split; [by intros [= ->] | by intros ->].
Qed.

Lemma create_student_eq uuid4_at student_data w :
  create_student uuid4_at student_data w =
    (Ok (new_student student_data (uuid4_at (uuid_calls w))),
     {| classes := classes w;
        students := students w ++ [new_student student_data (uuid4_at (uuid_calls w))];
        attendance := attendance w;
        uuid_calls := S (uuid_calls w); clock_calls := clock_calls w |}).
Proof. reflexivity. Qed.

(** X7: [create_class] returns a class with the requested name and subject
    and appends to the store that class as the store keeps it: the same id,
    name and subject, and [created_at] cut down to the millisecond, so that
    the stored class is the returned one exactly when the clock reading was
    a whole number of milliseconds.  Fetching the returned id gives the
    stored class when no class had that id before, and a class of the old
    store otherwise; fetching any other id gives what it gave before.  The
    listing shows the stored class last while fewer than 1000 classes were
    stored, and does not change once 1000 are. *)
Theorem create_class_then_fetch (uuid4_at : nat → string) (utcnow_at : nat → datetime)
    (class_data : ClassCreate) (w : World) :
  ∃ obj stored w1,
    create_class uuid4_at utcnow_at class_data w = (Ok obj, w1) ∧
    cls_name obj = cc_name class_data ∧ cls_subject obj = cc_subject class_data ∧
    cls_created_at obj = utcnow_at (clock_calls w) ∧
    classes w1 = classes w ++ [stored] ∧
    students w1 = students w ∧ attendance w1 = attendance w ∧
    cls_id stored = cls_id obj ∧ cls_name stored = cls_name obj ∧
    cls_subject stored = cls_subject obj ∧
    (cls_created_at stored mod 1000 = 0)%Z ∧
    (0 ≤ cls_created_at obj - cls_created_at stored < 1000)%Z ∧
    (stored = obj ↔ (cls_created_at obj mod 1000 = 0)%Z) ∧
    ((∀ c, c ∈ classes w → cls_id c ≠ cls_id obj) →
       get_class (cls_id obj) w1 = (Ok stored, w1)) ∧
    (∀ c, c ∈ classes w → cls_id c = cls_id obj →
       ∃ old, old ∈ classes w ∧ get_class (cls_id obj) w1 = (Ok old, w1)) ∧
    (∀ class_id, class_id ≠ cls_id obj →
       fst (get_class class_id w1) = fst (get_class class_id w)) ∧
    (length (classes w) < 1000 → get_classes w1 = (Ok (classes w ++ [stored]), w1)) ∧
    (1000 ≤ length (classes w) →
       fst (get_classes w1) = fst (get_classes w) ∧ length (classes w1) = S (length (classes w))).
Proof.
  rewrite create_class_eq.
  set (obj := new_class class_data (uuid4_at (uuid_calls w)) (utcnow_at (clock_calls w))).
  exists obj, (stored_class obj). eexists. split; [reflexivity|].
  destruct (bson_datetime_whole (cls_created_at obj)) as [Hwhole Hnear].
  split_and!; try done; try apply Hnear.
  - apply stored_class_same.
  - intros Hfresh. rewrite get_class_eq. cbn [classes].
    rewrite find_one_app_None by done. simpl. by rewrite decide_True.
  - intros c Hc Hid. rewrite get_class_eq. cbn [classes]. rewrite find_one_app.
    destruct (find_one (λ c0, cls_id c0 = cls_id obj) (classes w)) as [old|] eqn:E.
    + apply find_one_Some in E as [Hold _]. by exists old.
    + exfalso. by apply (proj1 (find_one_None _ _) E c).
  - intros class_id Hne. rewrite !get_class_eq. cbn [classes]. rewrite find_one_app.
    destruct (find_one (λ c, cls_id c = class_id) (classes w)); [done|].
    simpl. by rewrite decide_False.
  - intros Hlen. rewrite get_classes_eq. cbn [classes]. by rewrite take_snoc_below.
  - intros Hlen. rewrite !get_classes_eq. cbn [classes fst].
    rewrite take_snoc_full by done. split; [done|].
    rewrite length_app. simpl. lia.
Qed.

(** A class created at reading 1700000000123456 is returned with that
    reading and fetched with 1700000000123000. *)
Lemma create_class_fetched_to_the_millisecond :
  ∃ obj w1 fetched,
    create_class sample_uuid (fun _ => 1700000000123456%Z) physics nothing_stored =
      (Ok obj, w1) ∧
    get_class (cls_id obj) w1 = (Ok fetched, w1) ∧
    cls_created_at obj = 1700000000123456%Z ∧
    cls_created_at fetched = 1700000000123000%Z.
Proof.
  eexists _, _, _. split; [apply create_class_eq|].
  split; [by vm_compute|]. split; by vm_compute.
Qed.

(** X8: [create_student] appends one student and returns that very record,
    whatever classes are stored: when no class has the requested [class_id]
    the student is stored all the same, while a report of that class raises
    the 404 exception.  Fetching the returned id gives the record back when
    no student had that id before.  The listing of the student's (non-empty)
    class shows the new student last while fewer than 1000 students of the
    class were stored, and does not change once 1000 are. *)
Theorem create_student_then_fetch (uuid4_at : nat → string)
    (student_data : StudentCreate) (w : World) :
  ∃ obj w1,
    create_student uuid4_at student_data w = (Ok obj, w1) ∧
    stu_name obj = sc_name student_data ∧
    stu_roll_number obj = sc_roll_number student_data ∧
    stu_class_id obj = sc_class_id student_data ∧
    students w1 = students w ++ [obj] ∧
    classes w1 = classes w ∧ attendance w1 = attendance w ∧
    ((∀ s, s ∈ students w → stu_id s ≠ stu_id obj) →
       get_student (stu_id obj) w1 = (Ok obj, w1)) ∧
    ((∀ c, c ∈ classes w → cls_id c ≠ sc_class_id student_data) →
       ∀ start_date end_date,
         get_class_report (sc_class_id student_data) start_date end_date w1 =
           (Raise (HTTPException 404 "Class not found"), w1)) ∧
    (sc_class_id student_data ≠ "" →
     length (filter (fun s => stu_class_id s = sc_class_id student_data) (students w)) < 1000 →
       get_students (Some (sc_class_id student_data)) w1 =
         (Ok (filter (fun s => stu_class_id s = sc_class_id student_data) (students w)
              ++ [obj]), w1)) ∧
    (sc_class_id student_data ≠ "" →
     1000 ≤ length (filter (fun s => stu_class_id s = sc_class_id student_data) (students w)) →
       fst (get_students (Some (sc_class_id student_data)) w1) =
       fst (get_students (Some (sc_class_id student_data)) w)).
Proof.
  rewrite create_student_eq. eexists _, _. split; [reflexivity|].
  set (obj := new_student student_data (uuid4_at (uuid_calls w))).
  split_and!; try done.
  - intros Hfresh. rewrite get_student_eq. cbn [students].
    rewrite find_one_app_None by done. simpl. by rewrite decide_True.
  - intros Hnone start_date end_date. rewrite get_class_report_eq. cbn [classes].
    by rewrite (proj2 (find_one_None _ _) Hnone).
  - intros Hc Hlen. rewrite get_students_eq. unfold selected_students.
    rewrite decide_False by done. cbn [students].
    rewrite filter_app, filter_cons_True, filter_nil by done.
    by rewrite take_snoc_below.
  - intros Hc Hlen. rewrite !get_students_eq. unfold selected_students.
    rewrite decide_False by done. cbn [students fst].
    rewrite filter_app, filter_cons_True, filter_nil by done.
    rewrite !decide_False by done. by rewrite take_snoc_full.
Qed.

(** ** Identifiers of stored records *)

Section Identifiers.
Variable uuid4_at : nat → string.
Variable utcnow_at : nat → datetime.
Hypothesis uuid4_never_repeats : Inj (=) (=) uuid4_at.

Local Abbreviation idwf := (ids_wf uuid4_at).

Lemma ids_wf_empty w : empty_store w → idwf w.
Proof.
  intros (Hc & Hs & Ha). unfold ids_wf, all_ids. rewrite Hc, Hs, Ha. simpl. split.
  - constructor.
  - intros i Hi. by apply elem_of_nil in Hi.
Qed.

Lemma ids_wf_fresh w : idwf w → uuid4_at (uuid_calls w) ∉ all_ids w.
Proof.
  intros [_ Hissued] Hin. destruct (Hissued _ Hin) as (k & Hk & Heq).
  apply uuid4_never_repeats in Heq. lia.
Qed.

Lemma ids_wf_same w w' :
  idwf w → all_ids w' = all_ids w → uuid_calls w ≤ uuid_calls w' → idwf w'.
Proof.
  intros [Hnodup Hissued] Hids Hcalls. unfold ids_wf. rewrite Hids. split; [done|].
  intros i Hi. destruct (Hissued i Hi) as (k & Hk & ->). exists k. split; [lia|done].
Qed.

Lemma ids_wf_add w w' :
  idwf w → all_ids w' ≡ₚ uuid4_at (uuid_calls w) :: all_ids w →
  uuid_calls w' = S (uuid_calls w) → idwf w'.
Proof.
  intros Hwf Hids Hcalls. pose proof (ids_wf_fresh w Hwf) as Hfresh.
  destruct Hwf as [Hnodup Hissued]. unfold ids_wf. rewrite Hcalls. split.
  - rewrite Hids. by apply NoDup_cons.
  - intros i Hi. rewrite Hids in Hi. apply elem_of_cons in Hi as [->|Hi].
    + exists (uuid_calls w). split; [lia|done].
    + destruct (Hissued i Hi) as (k & Hk & ->). exists k. split; [lia|done].
Qed.

Lemma create_class_ids_wf class_data w :
  idwf w → idwf (create_class uuid4_at utcnow_at class_data w).2.
Proof.
  intros Hwf. rewrite create_class_eq. cbn [snd].
  apply (ids_wf_add w); [done| |done].
  unfold all_ids. cbn [classes students attendance]. rewrite fmap_app. simpl.
  rewrite <- app_assoc. simpl. by rewrite <- Permutation_middle.
Qed.

Lemma create_student_ids_wf student_data w :
  idwf w → idwf (create_student uuid4_at student_data w).2.
Proof.
  intros Hwf. rewrite create_student_eq. cbn [snd].
  apply (ids_wf_add w); [done| |done].
  unfold all_ids. cbn [classes students attendance]. rewrite fmap_app. simpl.
  rewrite <- (app_assoc (stu_id <$> students w)). simpl.
  rewrite (app_assoc (cls_id <$> classes w)). by rewrite <- Permutation_middle, <- app_assoc.
Qed.

Lemma mark_attendance_ids_wf data w :
  idwf w → idwf (mark_attendance uuid4_at utcnow_at data w).2.
Proof.
  intros Hwf. rewrite mark_attendance_eq.
  destruct (find_one (same_triple data) (attendance w)) as [ex|]; cbn [snd].
  - apply (ids_wf_same w); [done| |simpl; lia].
    unfold all_ids. cbn [classes students attendance with_attendance].
    by rewrite update_one_fmap.
  - apply (ids_wf_add w); [done| |done].
    unfold all_ids. cbn [classes students attendance with_attendance].
    rewrite fmap_app. simpl. rewrite !app_assoc. by rewrite <- Permutation_cons_append.
Qed.

Lemma mark_bulk_loop_ids_wf bulk_data todo results w :
  idwf w → idwf (mark_bulk_loop uuid4_at utcnow_at bulk_data todo results w).2.
Proof.
  revert results w. induction todo as [|record rest IH]; intros results w Hwf; [done|].
  cbn [mark_bulk_loop]. unfold bind at 1, lift, getitem.
  destruct (record !! "student_id") as [sid|]; [|done].
  unfold bind at 1. destruct (record !! "status") as [st|]; [|done].
  unfold bind.
  set (data := {| ac_student_id := sid; ac_class_id := bulk_class_id bulk_data;
                  ac_date := bulk_date bulk_data; ac_status := st |}).
  destruct (mark_attendance_returns uuid4_at utcnow_at data w) as (r & w1 & Hm).
  pose proof (mark_attendance_ids_wf data w Hwf) as Hwf1.
  rewrite Hm in Hwf1 |- *. by apply IH.
Qed.

Lemma step_ids_wf w w' : step uuid4_at utcnow_at w w' → idwf w → idwf w'.
Proof.
  destruct 1 as [class_data w|student_data w|data w|bulk_data w]; intros Hwf.
  - by apply create_class_ids_wf.
  - by apply create_student_ids_wf.
  - by apply mark_attendance_ids_wf.
  - unfold mark_bulk_attendance, bind.
    pose proof (mark_bulk_loop_ids_wf bulk_data (bulk_attendance_records bulk_data) [] w Hwf)
      as H.
    by destruct (mark_bulk_loop _ _ _ _ _ _) as [[?|?] ?].
Qed.

Lemma reachable_ids_wf w0 w :
  empty_store w0 → rtc (step uuid4_at utcnow_at) w0 w → idwf w.
Proof.
  intros H0 Hsteps. apply ids_wf_empty in H0.
  induction Hsteps as [|w1 w2 w3 Hstep _ IH]; [done|].
  apply IH. by apply (step_ids_wf w1).
Qed.
End Identifiers.

(** X9: on every store the handlers can reach from an empty one, with
    identifiers that never repeat, the ids of all stored classes, students
    and attendance records are pairwise distinct, also across the three
    kinds; so fetching the id of any stored class or student returns that
    very record. *)
Theorem reachable_ids_distinct (uuid4_at : nat → string) (utcnow_at : nat → datetime)
    (w0 w : World) :
  Inj (=) (=) uuid4_at →
  empty_store w0 →
  rtc (step uuid4_at utcnow_at) w0 w →
  NoDup ((cls_id <$> classes w) ++ (stu_id <$> students w) ++ (att_id <$> attendance w)) ∧
  (∀ c, c ∈ classes w → get_class (cls_id c) w = (Ok c, w)) ∧
  (∀ s, s ∈ students w → get_student (stu_id s) w = (Ok s, w)).
Proof.
  intros Hinj H0 Hsteps.
  destruct (reachable_ids_wf uuid4_at utcnow_at Hinj w0 w H0 Hsteps) as [Hnodup _].
  split; [exact Hnodup|].
  unfold all_ids in Hnodup.
  apply NoDup_app in Hnodup as (Hcls & _ & Hrest).
  apply NoDup_app in Hrest as (Hstu & _ & _).
  split.
  - intros c Hc. rewrite get_class_eq. by rewrite (find_one_unique cls_id).
  - intros s Hs. rewrite get_student_eq. by rewrite (find_one_unique stu_id).
Qed.

Lemma nothing_stored_empty : empty_store nothing_stored.
Proof. done. Qed.

(** A class and a student created on the empty store. *)
Lemma reachable_ids_distinct_witness :
  ∃ w c s,
    classes w = [c] ∧ students w = [s] ∧ cls_id c ≠ stu_id s ∧
    get_class (cls_id c) w = (Ok c, w) ∧ get_student (stu_id s) w = (Ok s, w).
Proof.
  set (w1 := (create_class sample_uuid sample_clock physics nothing_stored).2).
  set (w2 := (create_student sample_uuid
                {| sc_name := "Alice Johnson"; sc_roll_number := "PH2021001";
                   sc_class_id := sample_uuid 0 |} w1).2).
  destruct (reachable_ids_distinct sample_uuid sample_clock nothing_stored w2
              sample_uuid_never_repeats nothing_stored_empty
              (rtc_l _ _ _ _ (step_create_class _ _ _ _)
                 (rtc_once _ _ (step_create_student _ _ _ _))))
    as (_ & Hcls & Hstu).
  eexists w2, _, _. split; [reflexivity|]. split; [reflexivity|].
  split; [by vm_compute|]. split.
  - apply Hcls. left.
  - apply Hstu. left.
Defined.

(** ** Listing attendance *)

Lemma attendance_query_no_date class_id r :
  attendance_query_matches class_id None r ↔ att_class_id r = class_id.
Proof. unfold attendance_query_matches. simpl. tauto. Qed.

Lemma attendance_query_empty_date class_id r :
  attendance_query_matches class_id (Some "") r ↔ att_class_id r = class_id.
Proof. unfold attendance_query_matches. simpl. tauto. Qed.

Lemma attendance_query_date class_id d r :
  d ≠ "" →
  attendance_query_matches class_id (Some d) r ↔ att_class_id r = class_id ∧ att_date r = d.
Proof.
  intros Hd%truthy_true. unfold attendance_query_matches. simpl. rewrite Hd.
  split.
  - by intros [Hc [= Hdate]].
  - by intros [Hc ->].
Qed.

Lemma in_window_one_day (d x : string) :
  d ≠ "" → in_window (Some d) (Some d) x ↔ x = d.
Proof.
  intros Hd. unfold in_window. split.
  - intros [[?|Hle1] [?|Hle2]]; try done. by apply (anti_symm String.le).
  - intros ->. split; right; reflexivity.
Qed.

Lemma get_attendance_on_date class_id d w :
  d ≠ "" →
  get_attendance class_id (Some d) w =
    (Ok (take 1000 (filter (fun r => att_class_id r = class_id ∧ att_date r = d)
                           (attendance w))), w).
Proof.
  intros Hd. rewrite get_attendance_eq. do 3 f_equal.
  apply list_filter_iff. intros r. by apply attendance_query_date.
Qed.

(** X10: [get_attendance] lists, in store order, the first 1000 of the
    records whose [class_id] is the requested one, whatever it is, the empty
    string included; a non-empty [date] keeps the records of exactly that
    date string, an empty one is as no date.  The report without a window
    aggregates the listing of the class, and the report over the window from
    a day to the same day aggregates the listing of that day. *)
Theorem get_attendance_selects (w : World) (class_id : string) (d : string) :
  get_attendance class_id None w =
    (Ok (take 1000 (filter (fun r => att_class_id r = class_id) (attendance w))), w) ∧
  get_attendance class_id (Some "") w = get_attendance class_id None w ∧
  (d ≠ "" →
     get_attendance class_id (Some d) w =
       (Ok (take 1000 (filter (fun r => att_class_id r = class_id ∧ att_date r = d)
                              (attendance w))), w)) ∧
  (∀ date l r, get_attendance class_id date w = (Ok l, w) → r ∈ l →
     r ∈ attendance w ∧ att_class_id r = class_id) ∧
  report_attendance_records class_id None None w = get_attendance class_id None w ∧
  (d ≠ "" →
     report_attendance_records class_id (Some d) (Some d) w =
       get_attendance class_id (Some d) w).
Proof.
  rewrite !get_attendance_eq, !report_attendance_records_eq, !fetched_attendance_window.
  split_and!.
  - do 3 f_equal. apply list_filter_iff, attendance_query_no_date.
  - reflexivity.
  - intros Hd. rewrite <- get_attendance_eq. by apply get_attendance_on_date.
  - intros date l r. rewrite get_attendance_eq. intros Hl Hr.
    assert (l = take 1000 (filter (attendance_query_matches class_id date) (attendance w)))
      as -> by congruence.
    apply subseteq_take, list_elem_of_filter in Hr as [[Hc _] Hr]. done.
  - do 3 f_equal. apply list_filter_iff. intros r.
    rewrite attendance_query_no_date. unfold in_window. tauto.
  - intros Hd. do 3 f_equal. apply list_filter_iff. intros r.
    rewrite attendance_query_date, in_window_one_day by done. done.
Qed.

(** X11: after a mark on a store with at most one record per triple and
    distinct record ids, and while the class has at most 1000 records on
    that date, the listing of the class on the date holds exactly one record
    of the student: it carries the requested status and the id the mark
    returned. *)
Theorem mark_then_get_attendance (uuid4_at : nat → string) (utcnow_at : nat → datetime)
    (w : World) (data : AttendanceCreate) (rec : AttendanceRecord) (w' : World) :
  at_most_one_per_triple (attendance w) →
  NoDup (att_id <$> attendance w) →
  mark_attendance uuid4_at utcnow_at data w = (Ok rec, w') →
  ac_date data ≠ "" →
  length (filter (fun r => att_class_id r = ac_class_id data ∧ att_date r = ac_date data)
                 (attendance w')) ≤ 1000 →
  ∃ l stored,
    get_attendance (ac_class_id data) (Some (ac_date data)) w' = (Ok l, w') ∧
    filter (fun r => att_student_id r = ac_student_id data) l = [stored] ∧
    att_status stored = ac_status data ∧ att_id stored = att_id rec.
Proof.
  intros Hinv Hids Hm Hdate Hlen.
  destruct (mark_attendance_stores_one uuid4_at utcnow_at data w rec w' Hinv Hids Hm)
    as (stored & Hf & Hst & Hid).
  eexists _, stored. split; [by apply get_attendance_on_date|]. split; [|done].
  rewrite take_ge by done.
  rewrite list_filter_filter, <- Hf. apply list_filter_iff.
  intros r. unfold same_triple. tauto.
Qed.

(** The first mark on the empty register, then the listing of the day. *)
Lemma mark_then_get_attendance_witness :
  ∃ l stored,
    get_attendance "c1" (Some "2024-01-08")
      (with_attendance [new_record (mark_s0 "present") (sample_uuid 0) (sample_clock 1)]
                       1 2 empty_register) =
      (Ok l, with_attendance
               [new_record (mark_s0 "present") (sample_uuid 0) (sample_clock 1)]
               1 2 empty_register) ∧
    filter (fun r => att_student_id r = "s0") l = [stored] ∧
    att_status stored = "present" ∧ att_id stored = sample_uuid 0.
Proof.
  apply (mark_then_get_attendance sample_uuid sample_clock empty_register
           (mark_s0 "present") _ _ empty_register_invariant empty_register_unique_ids
           empty_register_first_mark).
  - done.
  - simpl. lia.
Defined.

(** ** A mark, then the report *)

Lemma fetched_attendance_all class_id start_date end_date w :
  length (filter (in_report class_id start_date end_date) (attendance w)) ≤ 1000 →
  fetched_attendance class_id start_date end_date w =
    filter (in_report class_id start_date end_date) (attendance w).
Proof. intros Hlen. rewrite fetched_attendance_window. by apply take_ge. Qed.

Lemma entry_of_same_records recs recs' st :
  records_of (stu_id st) recs' = records_of (stu_id st) recs →
  entry_of recs' st = entry_of recs st.
Proof. unfold entry_of. by intros ->. Qed.

Section MarkThenReport.
Variable uuid4_at : nat → string.
Variable utcnow_at : nat → datetime.
Variables (w w' : World) (data : AttendanceCreate) (rec : AttendanceRecord).
Variables (start_date end_date : option string).

Hypothesis one_per_triple : at_most_one_per_triple (attendance w).
Hypothesis distinct_ids : NoDup (att_id <$> attendance w).
Hypothesis marked : mark_attendance uuid4_at utcnow_at data w = (Ok rec, w').
Hypothesis inside : in_window start_date end_date (ac_date data).
Hypothesis below_cap :
  length (filter (in_report (ac_class_id data) start_date end_date) (attendance w')) ≤ 1000.

Local Abbreviation fetched := (fetched_attendance (ac_class_id data) start_date end_date).

(** What the report fetches after the mark, student by student. *)
Lemma mark_then_fetched_attendance :
  (∀ sid, sid ≠ ac_student_id data → records_of sid (fetched w') = records_of sid (fetched w)) ∧
  length (records_of (ac_student_id data) (fetched w')) + length (marked_before data w) =
    length (records_of (ac_student_id data) (fetched w)) + 1 ∧
  ∀ s, count_status s (records_of (ac_student_id data) (fetched w')) +
       count_status s (marked_before data w) =
       count_status s (records_of (ac_student_id data) (fetched w)) + one_for s data.
Proof.
  pose proof below_cap as Hcap'. unfold marked_before, one_for.
  destruct (mark_attendance_cases uuid4_at utcnow_at data w rec w' one_per_triple
              distinct_ids marked)
    as (_ & _ & [(Hnone & _ & Hw') | (l1 & ex & l2 & Hw & Hex & Hl1 & Hl2 & _ & Hw')]).
  - rewrite Hw', filter_app, filter_cons_True, filter_nil, length_app in Hcap' by done.
    rewrite !fetched_attendance_all by (done || lia).
    rewrite Hw', filter_app, filter_cons_True, filter_nil by done.
    rewrite (filter_none (same_triple data)) by done.
    unfold records_of. split_and!.
    + intros sid Hsid. rewrite filter_app, filter_cons_False by (simpl; congruence).
      by rewrite app_nil_r.
    + rewrite filter_app, filter_cons_True by done. rewrite length_app. simpl. lia.
    + intros s. rewrite filter_app, filter_cons_True by done.
      rewrite count_status_app, count_status_cons. simpl.
      unfold count_status at 2 3. simpl. lia.
  - assert (in_report (ac_class_id data) start_date end_date ex) as Hin.
    { destruct Hex as (_ & Hc & Hd). split; [done | by rewrite Hd]. }
    assert (filter (same_triple data) (attendance w) = [ex]) as ->.
    { rewrite Hw. by apply filter_single_in_the_middle. }
    rewrite Hw', filter_app, filter_cons_True, length_app, length_cons in Hcap' by done.
    assert (length (filter (in_report (ac_class_id data) start_date end_date) (attendance w))
            ≤ 1000) as Hcap.
    { rewrite Hw, filter_app, filter_cons_True, length_app, length_cons by done. lia. }
    rewrite !fetched_attendance_all by done. rewrite Hw', Hw.
    rewrite !(filter_app (in_report _ _ _)), !(filter_cons_True (in_report _ _ _)) by done.
    destruct Hex as (Hs & _ & _).
    unfold records_of. split_and!.
    + intros sid Hsid. by rewrite !filter_app, !filter_cons_False by (simpl; congruence).
    + rewrite !filter_app, !filter_cons_True by done. rewrite !length_app. simpl. lia.
    + intros s. rewrite !filter_app, !filter_cons_True by done.
      rewrite !count_status_app, !count_status_cons. simpl.
      unfold count_status at 3. simpl. lia.
Qed.
End MarkThenReport.

(** X12: a mark and the next report of its class.  On a store with at most
    one record per triple and distinct record ids, for a window that holds
    the marked date and a class below the fetch cap: the report after the
    mark has the class and the entries of every other student as before,
    names no student it did not name, and the entry of the marked student
    counts the mark once: a day more and one more of the requested status
    for a new triple; for a known triple the same number of days, one less
    of the status the stored record had and one more of the requested one. *)
Theorem mark_then_report (uuid4_at : nat → string) (utcnow_at : nat → datetime)
    (w w' : World) (data : AttendanceCreate) (rec : AttendanceRecord)
    (start_date end_date : option string) (rep : Report) :
  at_most_one_per_triple (attendance w) →
  NoDup (att_id <$> attendance w) →
  mark_attendance uuid4_at utcnow_at data w = (Ok rec, w') →
  in_window start_date end_date (ac_date data) →
  length (filter (in_report (ac_class_id data) start_date end_date) (attendance w')) ≤ 1000 →
  get_class_report (ac_class_id data) start_date end_date w = (Ok rep, w) →
  ∃ rep',
    get_class_report (ac_class_id data) start_date end_date w' = (Ok rep', w') ∧
    class_info rep' = class_info rep ∧
    (∀ sid, sid ≠ ac_student_id data →
       student_statistics rep' !! sid = student_statistics rep !! sid) ∧
    (student_statistics rep !! ac_student_id data = None →
       student_statistics rep' !! ac_student_id data = None) ∧
    (∀ e, student_statistics rep !! ac_student_id data = Some e →
       ∃ e', student_statistics rep' !! ac_student_id data = Some e' ∧
             student_name e' = student_name e ∧ roll_number e' = roll_number e ∧
             total_days e' + length (marked_before data w) = total_days e + 1 ∧
             present e' + count_status "present" (marked_before data w) =
               present e + one_for "present" data ∧
             absent e' + count_status "absent" (marked_before data w) =
               absent e + one_for "absent" data ∧
             late e' + count_status "late" (marked_before data w) =
               late e + one_for "late" data).
Proof.
  intros Hinv Hids Hm Hin Hcap Hrep.
  destruct (mark_attendance_cases uuid4_at utcnow_at data w rec w' Hinv Hids Hm)
    as (Hcls & Hstu & _).
  destruct (mark_then_fetched_attendance uuid4_at utcnow_at w w' data rec start_date
              end_date Hinv Hids Hm Hin Hcap) as (Hothers & Hdays & Hcount).
  assert (fetched_students (ac_class_id data) w' = fetched_students (ac_class_id data) w)
    as Hfetched by (unfold fetched_students; by rewrite Hstu).
  rewrite get_class_report_eq in Hrep. rewrite get_class_report_eq, Hcls.
  destruct (find_one (λ c, cls_id c = ac_class_id data) (classes w)) as [cls|]; [|done].
  eexists. split; [reflexivity|].
  assert (rep = report_of (ac_class_id data) start_date end_date w cls) as ->
    by (unfold report_of; congruence).
  cbn [class_info student_statistics report_of]. rewrite Hfetched.
  split; [done|]. split_and!.
  - intros sid Hsid. rewrite !stats_of_lookup.
    destruct (find_one (λ st, stu_id st = sid) _) as [st|] eqn:E; [|done].
    apply find_one_Some in E as [_ Hid]. f_equal.
    apply entry_of_same_records. rewrite Hid. by apply Hothers.
  - rewrite !stats_of_lookup. by destruct (find_one _ _).
  - intros e. rewrite !stats_of_lookup.
    destruct (find_one (λ st, stu_id st = ac_student_id data) _) as [st|] eqn:E; [|done].
    apply find_one_Some in E as [_ Hid]. intros [= <-].
    eexists. split; [reflexivity|].
    unfold entry_of. cbn [student_name roll_number total_days present absent late].
    rewrite Hid. split_and!; done.
Qed.

Lemma empty_register_report :
  get_class_report "c1" None None empty_register =
    (Ok (report_of "c1" None None empty_register class_c1), empty_register).
Proof. by rewrite get_class_report_eq. Qed.

Lemma empty_register_entry :
  student_statistics (report_of "c1" None None empty_register class_c1) !! "s0" =
    Some (entry_of [] (nth_student 0)).
Proof. by vm_compute. Qed.

Lemma empty_register_not_marked : marked_before (mark_s0 "present") empty_register = [].
Proof. reflexivity. Qed.

Lemma empty_register_below_cap :
  length (filter (in_report "c1" None None)
                 [new_record (mark_s0 "present") (sample_uuid 0) (sample_clock 1)]) ≤ 1000.
Proof. vm_compute. lia. Qed.

Lemma one_for_present :
  one_for "present" (mark_s0 "present") = 1 ∧ one_for "absent" (mark_s0 "present") = 0 ∧
  one_for "late" (mark_s0 "present") = 0.
Proof. by vm_compute. Qed.

(** The first mark on the empty register, then the report of the class:
    one day, present. *)
Lemma mark_then_report_witness :
  ∃ rep' e',
    get_class_report "c1" None None
      (with_attendance [new_record (mark_s0 "present") (sample_uuid 0) (sample_clock 1)]
                       1 2 empty_register) =
      (Ok rep', with_attendance
                  [new_record (mark_s0 "present") (sample_uuid 0) (sample_clock 1)]
                  1 2 empty_register) ∧
    student_statistics rep' !! "s0" = Some e' ∧
    total_days e' = 1 ∧ present e' = 1 ∧ absent e' = 0 ∧ late e' = 0.
Proof.
  destruct (mark_then_report sample_uuid sample_clock empty_register _ (mark_s0 "present")
              _ None None _ empty_register_invariant empty_register_unique_ids
              empty_register_first_mark (conj I I) empty_register_below_cap
              empty_register_report)
    as (rep' & Hrep' & _ & _ & _ & Hentry).
  destruct (Hentry _ empty_register_entry) as (e' & He' & _ & _ & Hdays & Hp & Ha & Hl).
  exists rep', e'. split; [exact Hrep'|]. split; [exact He'|].
  destruct one_for_present as (H1 & H2 & H3).
  rewrite empty_register_not_marked in Hdays, Hp, Ha, Hl.
  rewrite H1 in Hp. rewrite H2 in Ha. rewrite H3 in Hl.
  change (total_days e' + 0 = 0 + 1) in Hdays. change (present e' + 0 = 0 + 1) in Hp.
  change (absent e' + 0 = 0 + 0) in Ha. change (late e' + 0 = 0 + 0) in Hl.
  lia.
Defined.

(** ** The students a report names *)

Lemma stats_of_cons recs st rest acc :
  stats_of recs (st :: rest) acc = stats_of recs rest (<[stu_id st := entry_of recs st]> acc).
Proof. reflexivity. Qed.

Lemma stats_of_size_le recs studs acc :
  size (stats_of recs studs acc) ≤ size acc + length studs.
Proof.
  revert acc. induction studs as [|st rest IH]; intros acc; [simpl; lia|].
  rewrite stats_of_cons. etrans; [apply IH|].
  rewrite map_size_insert. destruct (acc !! stu_id st); simpl; lia.
Qed.

Lemma stats_of_size_distinct recs studs acc :
  NoDup (stu_id <$> studs) → (∀ st, st ∈ studs → acc !! stu_id st = None) →
  size (stats_of recs studs acc) = size acc + length studs.
Proof.
  revert acc. induction studs as [|st rest IH]; intros acc Hnodup Hnew; [simpl; lia|].
  rewrite fmap_cons in Hnodup. apply NoDup_cons in Hnodup as [Hst Hnodup].
  rewrite stats_of_cons, IH; [|done|].
  - rewrite map_size_insert, Hnew by left. simpl. lia.
  - intros st' Hst'. rewrite lookup_insert_ne; [apply Hnew; by right|].
    intros Heq. apply Hst. rewrite Heq. by apply list_elem_of_fmap_2.
Qed.

Lemma stats_of_named recs studs sid :
  is_Some (stats_of recs studs ∅ !! sid) ↔ ∃ st, st ∈ studs ∧ stu_id st = sid.
Proof.
  split.
  - intros [e (st & Hst & Hid & _)%stats_entry_from_student]. by exists st.
  - intros (st & Hst & <-).
    destruct (stats_entry_of_student recs studs st Hst) as (st' & _ & _ & ->). done.
Qed.

Lemma stats_of_last_wins recs l1 st l2 :
  (∀ st', st' ∈ l2 → stu_id st' ≠ stu_id st) →
  stats_of recs (l1 ++ st :: l2) ∅ !! stu_id st = Some (entry_of recs st).
Proof.
  intros Hlast. rewrite stats_of_lookup, reverse_app, reverse_cons, <- app_assoc.
  rewrite find_one_app_None.
  - simpl. by rewrite decide_True.
  - intros st' Hst'. apply Hlast. by apply elem_of_reverse.
Qed.

(** X13: the keys of [student_statistics] are the ids of the students the
    report fetched, no more and no fewer: a mark for an id that no student
    of the class has is counted in no entry, and the report has at most as
    many entries as fetched students, so at most 1000, and as many when
    their ids are distinct.  Of several fetched students under one id, the
    last one in store order gives the entry its name, roll number and
    counts. *)
Theorem report_names_fetched_students (w : World) (class_id : string)
    (start_date end_date : option string) (rep : Report) :
  get_class_report class_id start_date end_date w = (Ok rep, w) →
  (∀ sid, is_Some (student_statistics rep !! sid) ↔
          ∃ st, st ∈ fetched_students class_id w ∧ stu_id st = sid) ∧
  (∀ r, (∀ st, st ∈ students w → stu_class_id st = class_id → stu_id st ≠ att_student_id r) →
        student_statistics rep !! att_student_id r = None) ∧
  size (student_statistics rep) ≤ length (fetched_students class_id w) ∧
  length (fetched_students class_id w) ≤ 1000 ∧
  (NoDup (stu_id <$> fetched_students class_id w) →
     size (student_statistics rep) = length (fetched_students class_id w)) ∧
  (∀ l1 st l2,
     fetched_students class_id w = l1 ++ st :: l2 →
     (∀ st', st' ∈ l2 → stu_id st' ≠ stu_id st) →
     student_statistics rep !! stu_id st =
       Some (entry_of (fetched_attendance class_id start_date end_date w) st)).
Proof.
  intros Hrep%report_statistics. rewrite Hrep. split_and!.
  - intros sid. apply stats_of_named.
  - intros r Hnone. apply eq_None_not_Some.
    intros (st & Hst & Hid)%stats_of_named.
    apply elem_of_to_list_find in Hst as [Hst Hc]. by apply (Hnone st).
  - etrans; [apply stats_of_size_le|]. by rewrite map_size_empty.
  - apply length_to_list.
  - intros Hnodup. rewrite stats_of_size_distinct; [by rewrite map_size_empty | done |].
    intros st _. apply lookup_empty.
  - intros l1 st l2 -> Hlast. by apply stats_of_last_wins.
Qed.

Lemma namesakes_report :
  get_class_report "c1" None None namesakes =
    (Ok (report_of "c1" None None namesakes class_c1), namesakes).
Proof. by rewrite get_class_report_eq. Qed.

Lemma namesakes_fetched :
  fetched_students "c1" namesakes =
    [nth_student 0] ++
    {| stu_id := "s0"; stu_name := "Renamed"; stu_roll_number := "PH9";
       stu_class_id := "c1" |} :: [].
Proof. by vm_compute. Qed.

Lemma namesakes_nobody st :
  st ∈ students namesakes → stu_class_id st = "c1" → stu_id st ≠ "nobody".
Proof.
  revert st.
  apply (proj1 (Forall_forall (λ st, stu_class_id st = "c1" → stu_id st ≠ "nobody") _)).
  decide_by_evaluation.
Qed.

Lemma namesakes_entry :
  student_name (entry_of (fetched_attendance "c1" None None namesakes)
                  {| stu_id := "s0"; stu_name := "Renamed"; stu_roll_number := "PH9";
                     stu_class_id := "c1" |}) = "Renamed".
Proof. reflexivity. Qed.

(** Two students under the id [s0]: one entry, with the name of the second;
    no entry for the id [nobody], which only a mark carries. *)
Lemma report_names_fetched_students_witness :
  ∃ rep e,
    get_class_report "c1" None None namesakes = (Ok rep, namesakes) ∧
    size (student_statistics rep) ≤ 2 ∧
    student_statistics rep !! "s0" = Some e ∧ student_name e = "Renamed" ∧
    student_statistics rep !! "nobody" = None.
Proof.
  destruct (report_names_fetched_students namesakes "c1" None None _ namesakes_report)
    as (_ & Hnobody & Hsize & _ & _ & Hlast).
  eexists _, _. split; [exact namesakes_report|].
  split; [exact Hsize|].
  split; [apply (Hlast _ _ _ namesakes_fetched); intros st' Hst'; by apply elem_of_nil in Hst'|].
  split; [exact namesakes_entry|].
  apply (Hnobody {| att_id := "a2"; att_student_id := "nobody"; att_class_id := "c1";
                    att_date := "2024-01-08"; att_status := "present";
                    att_marked_at := 0%Z |}).
  exact namesakes_nobody.
Defined.

(** ** A batch that names a student more than once *)

Section BulkRepeated.
Variable uuid4_at : nat → string.
Variable utcnow_at : nat → datetime.
Hypothesis uuid4_never_repeats : Inj (=) (=) uuid4_at.

Local Abbreviation wf := (store_wf uuid4_at).
Local Abbreviation mark := (mark_attendance uuid4_at utcnow_at).
Local Abbreviation each := (mark_each uuid4_at utcnow_at).

Lemma mark_each_wf requests w recs w' :
  wf w → each requests w = (Ok recs, w') → wf w'.
Proof.
  revert w recs. induction requests as [|data rest IH]; intros w recs Hwf; simpl.
  - by intros [= <- <-].
  - unfold bind.
    destruct (mark_attendance_returns uuid4_at utcnow_at data w) as (r & w1 & Hm).
    rewrite Hm.
    destruct (mark_each_returns uuid4_at utcnow_at rest w1) as (rs & w2 & Hrest & _).
    rewrite Hrest. intros [= <- <-].
    pose proof (mark_attendance_wf uuid4_at utcnow_at uuid4_never_repeats data w Hwf) as Hwf1.
    rewrite Hm in Hwf1. by apply (IH w1 rs).
Qed.

(** The returned record carries the student and the status of the request. *)
Lemma mark_attendance_returned data w r w1 :
  wf w → mark data w = (Ok r, w1) →
  att_student_id r = ac_student_id data ∧ att_status r = ac_status data.
Proof.
  intros (Hinv & Hids & _) Hm.
  destruct (mark_attendance_cases uuid4_at utcnow_at data w r w1 Hinv Hids Hm)
    as (_ & _ & [(_ & -> & _) | (l1 & ex & l2 & _ & (Hs & _) & _ & _ & -> & _)]); done.
Qed.

(** A mark keeps the id of the one record a triple has, its own triple
    included. *)
Lemma mark_attendance_keeps_id data data' w r w1 s :
  wf w → filter (same_triple data') (attendance w) = [s] →
  mark data w = (Ok r, w1) →
  ∃ s', filter (same_triple data') (attendance w1) = [s'] ∧ att_id s' = att_id s.
Proof.
  intros Hwf Hs Hm. pose proof Hwf as (Hinv & Hids & _).
  destruct (decide (ac_student_id data = ac_student_id data' ∧
                    ac_class_id data = ac_class_id data' ∧
                    ac_date data = ac_date data')) as [(Hk1 & Hk2 & Hk3)|Hkey].
  - assert (∀ x, same_triple data' x ↔ same_triple data x) as Hsame.
    { intros x. symmetry. by apply same_triple_trans. }
    rewrite (list_filter_iff _ _ _ Hsame) in Hs. rewrite (list_filter_iff _ _ _ Hsame).
    destruct (mark_attendance_cases uuid4_at utcnow_at data w r w1 Hinv Hids Hm)
      as (_ & _ & [(Hnone & _ & _) | (l1 & ex & l2 & Hw & Hex & Hl1 & Hl2 & _ & Hw1)]).
    + rewrite filter_none in Hs by done. done.
    + rewrite Hw, filter_single_in_the_middle in Hs by done.
      assert (s = ex) as -> by congruence.
      rewrite Hw1. eexists. split; [by apply filter_single_in_the_middle | done].
  - exists s. split; [|done]. rewrite <- Hs.
    by apply (mark_attendance_upsert uuid4_at utcnow_at data w r w1 Hwf Hm).
Qed.

Lemma mark_each_keeps_id requests data' w recs w' s :
  wf w → filter (same_triple data') (attendance w) = [s] →
  each requests w = (Ok recs, w') →
  ∃ s', filter (same_triple data') (attendance w') = [s'] ∧ att_id s' = att_id s.
Proof.
  revert w recs s. induction requests as [|data rest IH]; intros w recs s Hwf Hs; simpl.
  - intros [= <- <-]. by exists s.
  - unfold bind.
    destruct (mark_attendance_returns uuid4_at utcnow_at data w) as (r & w1 & Hm).
    rewrite Hm.
    destruct (mark_each_returns uuid4_at utcnow_at rest w1) as (rs & w2 & Hrest & _).
    rewrite Hrest. intros [= <- <-].
    pose proof (mark_attendance_wf uuid4_at utcnow_at uuid4_never_repeats data w Hwf) as Hwf1.
    rewrite Hm in Hwf1.
    destruct (mark_attendance_keeps_id data data' w r w1 s Hwf Hs Hm) as (s1 & Hs1 & Hid1).
    destruct (IH w1 rs s1 Hwf1 Hs1 Hrest) as (s2 & Hs2 & Hid2).
    exists s2. split; [done | congruence].
Qed.

(** Every returned record names its request, and the store ends with one
    record for the request's triple, under the returned id. *)
Lemma mark_each_answers bulk_data pairs w recs w' :
  wf w → each (pair_request bulk_data <$> pairs) w = (Ok recs, w') →
  Forall2 (answers bulk_data w') pairs recs.
Proof.
  revert w recs. induction pairs as [|p rest IH]; intros w recs Hwf.
  - simpl. intros [= <- <-]. constructor.
  - rewrite fmap_cons. cbn [mark_each]. unfold bind.
    destruct (mark_attendance_returns uuid4_at utcnow_at (pair_request bulk_data p) w)
      as (r & w1 & Hm).
    rewrite Hm.
    destruct (mark_each_returns uuid4_at utcnow_at (pair_request bulk_data <$> rest) w1)
      as (rs & w2 & Hrest & _).
    rewrite Hrest. intros [= <- <-].
    pose proof (mark_attendance_wf uuid4_at utcnow_at uuid4_never_repeats
                  (pair_request bulk_data p) w Hwf) as Hwf1.
    rewrite Hm in Hwf1.
    constructor; [|by apply (IH w1)].
    destruct (mark_attendance_returned _ w r w1 Hwf Hm) as [Hstu Hst].
    destruct (mark_attendance_upsert uuid4_at utcnow_at _ w r w1 Hwf Hm)
      as [(s1 & Hs1 & _ & Hid1) _].
    destruct (mark_each_keeps_id _ _ w1 rs w2 s1 Hwf1 Hs1 Hrest) as (s2 & Hs2 & Hid2).
    split; [done|]. split; [done|]. exists s2. split; [done | congruence].
Qed.

(** The status the store ends with is the one of the last pair that names
    the student. *)
Lemma mark_each_later_wins bulk_data before p after w recs w' :
  wf w → p.1 ∉ after.*1 →
  each (pair_request bulk_data <$> (before ++ p :: after)) w = (Ok recs, w') →
  ∃ stored, filter (same_triple (pair_request bulk_data p)) (attendance w') = [stored] ∧
            att_status stored = p.2.
Proof.
  intros Hwf Hlast. rewrite fmap_app, fmap_cons.
  destruct (mark_each_returns uuid4_at utcnow_at (pair_request bulk_data <$> before) w)
    as (recs1 & w1 & Hbefore & _).
  rewrite (mark_each_app _ _ _ _ _ _ _ Hbefore). cbn [mark_each]. unfold bind.
  pose proof (mark_each_wf _ _ _ _ Hwf Hbefore) as Hwf1.
  destruct (mark_attendance_returns uuid4_at utcnow_at (pair_request bulk_data p) w1)
    as (r & w2 & Hm).
  rewrite Hm.
  destruct (mark_each_returns uuid4_at utcnow_at (pair_request bulk_data <$> after) w2)
    as (rs & w3 & Hafter & _).
  rewrite Hafter. cbn [fst snd]. intros [= _ <-].
  pose proof (mark_attendance_wf uuid4_at utcnow_at uuid4_never_repeats
                (pair_request bulk_data p) w1 Hwf1) as Hwf2.
  rewrite Hm in Hwf2.
  destruct (mark_attendance_upsert uuid4_at utcnow_at _ w1 r w2 Hwf1 Hm)
    as [(stored & Hf & Hst & _) _].
  exists stored. split; [|done]. rewrite <- Hf.
  apply (mark_each_others_unchanged uuid4_at utcnow_at uuid4_never_repeats
           (pair_request bulk_data <$> after) w2 rs w3); [done | done |].
  intros d (q & -> & Hq)%list_elem_of_fmap (Hs & _). simpl in Hs.
  apply Hlast. rewrite <- Hs. by apply list_elem_of_fmap_2.
Qed.
End BulkRepeated.

(** X14: a batch may name a student more than once.  On a store the
    handlers can reach, each returned record carries the student and the
    status of its pair, and the id of the one record the store holds for
    that student, class and date in the end, so the records returned for
    one student share an id; the stored status is the one of the last pair
    that names the student. *)
Theorem bulk_repeated_student_later_pair_wins (uuid4_at : nat → string)
    (utcnow_at : nat → datetime) (w0 w : World) (bulk_data : AttendanceBulkCreate)
    (pairs : list (string * string)) :
  Inj (=) (=) uuid4_at →
  attendance w0 = [] →
  rtc (step uuid4_at utcnow_at) w0 w →
  Forall2 reads_as (bulk_attendance_records bulk_data) pairs →
  ∃ recs w',
    mark_bulk_attendance uuid4_at utcnow_at bulk_data w =
      (Ok {| message := bulk_message (length pairs); records := recs |}, w') ∧
    Forall2 (answers bulk_data w') pairs recs ∧
    ∀ before p after,
      pairs = before ++ p :: after → p.1 ∉ after.*1 →
      ∃ stored, filter (same_triple (pair_request bulk_data p)) (attendance w') = [stored] ∧
                att_status stored = p.2.
Proof.
  intros Hinj H0 Hsteps Hreads.
  pose proof (reachable_wf uuid4_at utcnow_at Hinj w0 w H0 Hsteps) as Hwf.
  destruct (mark_each_returns uuid4_at utcnow_at (pair_request bulk_data <$> pairs) w)
    as (recs & w' & Heach & Hlen).
  rewrite length_fmap in Hlen.
  exists recs, w'. split_and!.
  - unfold mark_bulk_attendance, bind.
    rewrite <- (app_nil_r (bulk_attendance_records bulk_data)).
    rewrite (mark_bulk_loop_app _ _ _ _ _ _ _ _ _ _ Hreads Heach).
    simpl. unfold ret, bulk_message. by rewrite Hlen.
  - by apply (mark_each_answers uuid4_at utcnow_at Hinj bulk_data pairs w).
  - intros before p after -> Hlast.
    by apply (mark_each_later_wins uuid4_at utcnow_at Hinj bulk_data before p after w recs).
Qed.

Lemma s0_twice_read :
  Forall2 reads_as (bulk_attendance_records s0_twice) [("s0", "absent"); ("s0", "late")].
Proof. repeat constructor. Qed.

Lemma s0_twice_last : ("s0", "late").1 ∉ ([] : list (string * string)).*1.
Proof. apply not_elem_of_nil. Qed.

(** Student [s0] marked absent, then late, in one batch on the empty
    register: one stored record, late. *)
Lemma bulk_repeated_student_later_pair_wins_witness :
  ∃ recs w' stored,
    mark_bulk_attendance sample_uuid sample_clock s0_twice empty_register =
      (Ok {| message := bulk_message 2; records := recs |}, w') ∧
    filter (same_triple (pair_request s0_twice ("s0", "late"))) (attendance w') = [stored] ∧
    att_status stored = "late".
Proof.
  destruct (bulk_repeated_student_later_pair_wins sample_uuid sample_clock
              empty_register empty_register s0_twice _
              sample_uuid_never_repeats eq_refl (rtc_refl _ _) s0_twice_read)
    as (recs & w' & Hbulk & _ & Hlast).
  destruct (Hlast [("s0", "absent")] ("s0", "late") [] eq_refl s0_twice_last)
    as (stored & Hf & Hst).
  by exists recs, w', stored.
Defined.

(** ** What the handlers never undo *)

Lemma find_one_prefix {A} (P : A → Prop) `{!∀ x, Decision (P x)} (l l' : list A) x :
  l `prefix_of` l' → find_one P l = Some x → find_one P l' = Some x.
Proof. intros [k ->] Hx. by rewrite find_one_app, Hx. Qed.

Lemma extends_refl w : extends w w.
Proof. by split_and!. Qed.

Lemma extends_trans w1 w2 w3 : extends w1 w2 → extends w2 w3 → extends w1 w3.
Proof.
  intros (Hc & Hs & Ha) (Hc' & Hs' & Ha'). split_and!; by etrans.
Qed.

Section Growth.
Variable uuid4_at : nat → string.
Variable utcnow_at : nat → datetime.

Lemma mark_attendance_extends data w :
  extends w (mark_attendance uuid4_at utcnow_at data w).2.
Proof.
  rewrite mark_attendance_eq.
  destruct (find_one (same_triple data) (attendance w)) as [ex|];
    split_and!; try done; cbn [snd attendance with_attendance].
  - by rewrite update_one_fmap.
  - rewrite fmap_app. by apply prefix_app_r.
Qed.

Lemma mark_bulk_loop_extends bulk_data todo results w :
  extends w (mark_bulk_loop uuid4_at utcnow_at bulk_data todo results w).2.
Proof.
  revert results w. induction todo as [|record rest IH]; intros results w;
    [apply extends_refl|].
  cbn [mark_bulk_loop]. unfold bind at 1, lift, getitem.
  destruct (record !! "student_id") as [sid|]; [|apply extends_refl].
  unfold bind at 1. destruct (record !! "status") as [st|]; [|apply extends_refl].
  unfold bind.
  set (data := {| ac_student_id := sid; ac_class_id := bulk_class_id bulk_data;
                  ac_date := bulk_date bulk_data; ac_status := st |}).
  destruct (mark_attendance_returns uuid4_at utcnow_at data w) as (r & w1 & Hm).
  pose proof (mark_attendance_extends data w) as Hext.
  rewrite Hm in Hext |- *. apply (extends_trans _ w1); [done | apply IH].
Qed.

Lemma step_extends w w' : step uuid4_at utcnow_at w w' → extends w w'.
Proof.
  destruct 1 as [class_data w|student_data w|data w|bulk_data w].
  - rewrite create_class_eq. split_and!; try done. by apply prefix_app_r.
  - rewrite create_student_eq. split_and!; try done. by apply prefix_app_r.
  - apply mark_attendance_extends.
  - unfold mark_bulk_attendance, bind.
    pose proof (mark_bulk_loop_extends bulk_data (bulk_attendance_records bulk_data) [] w) as H.
    by destruct (mark_bulk_loop _ _ _ _ _ _) as [[?|?] ?].
Qed.

Lemma reachable_extends w w' : rtc (step uuid4_at utcnow_at) w w' → extends w w'.
Proof.
  induction 1 as [|w1 w2 w3 Hstep _ IH]; [apply extends_refl|].
  apply (extends_trans _ w2); [by apply step_extends | done].
Qed.
End Growth.

(** X15: no handler deletes or rewrites what identifies a stored record.
    After any sequence of creations, marks and bulk marks, failed bulk marks
    included, the earlier classes and students are still stored first and
    unchanged, and the earlier attendance records keep their place, id,
    student, class and date.  So a class or a student that could be fetched
    is fetched again as the same record, and a report that was given is
    given again for the same class. *)
Theorem stored_records_stay (uuid4_at : nat → string) (utcnow_at : nat → datetime)
    (w w' : World) :
  rtc (step uuid4_at utcnow_at) w w' →
  extends w w' ∧
  length (attendance w) ≤ length (attendance w') ∧
  (∀ class_id cls,
     get_class class_id w = (Ok cls, w) → get_class class_id w' = (Ok cls, w')) ∧
  (∀ student_id st,
     get_student student_id w = (Ok st, w) → get_student student_id w' = (Ok st, w')) ∧
  (∀ class_id start_date end_date rep,
     get_class_report class_id start_date end_date w = (Ok rep, w) →
     ∃ rep', get_class_report class_id start_date end_date w' = (Ok rep', w') ∧
             class_info rep' = class_info rep).
Proof.
  intros Hsteps.
  pose proof (reachable_extends uuid4_at utcnow_at w w' Hsteps) as Hext.
  pose proof Hext as (Hc & Hs & Ha).
  split; [done|]. split_and!.
  - apply prefix_length in Ha. by rewrite !length_fmap in Ha.
  - intros class_id cls. rewrite !get_class_eq.
    destruct (find_one _ (classes w)) as [c|] eqn:E; [|done].
    rewrite (find_one_prefix _ _ _ _ Hc E). congruence.
  - intros student_id st. rewrite !get_student_eq.
    destruct (find_one _ (students w)) as [s|] eqn:E; [|done].
    rewrite (find_one_prefix _ _ _ _ Hs E). congruence.
  - intros class_id start_date end_date rep. rewrite !get_class_report_eq.
    destruct (find_one _ (classes w)) as [c|] eqn:E; [|done].
    rewrite (find_one_prefix _ _ _ _ Hc E). intros Hrep.
    eexists. split; [reflexivity|].
    assert (rep = report_of class_id start_date end_date w c) as ->
      by (unfold report_of; congruence).
    done.
Qed.

Lemma empty_register_class : get_class "c1" empty_register = (Ok class_c1, empty_register).
Proof. by rewrite get_class_eq. Qed.

(** The class of the empty register after a mark. *)
Lemma stored_records_stay_witness :
  get_class "c1"
    (mark_attendance sample_uuid sample_clock (mark_s0 "present") empty_register).2 =
  (Ok class_c1,
   (mark_attendance sample_uuid sample_clock (mark_s0 "present") empty_register).2).
Proof.
  destruct (stored_records_stay sample_uuid sample_clock empty_register
              (mark_attendance sample_uuid sample_clock (mark_s0 "present") empty_register).2
              (rtc_once _ _ (step_mark_attendance _ _ _ _)))
    as (_ & _ & Hclass & _).
  exact (Hclass "c1" class_c1 empty_register_class).
Defined.

(** ** A window that ends before it starts *)

Lemma in_window_inverted (s e d : string) :
  s ≠ "" → e ≠ "" → ¬ String.le s e → ¬ in_window (Some s) (Some e) d.
Proof.
  intros Hs He Hlt [[?|Hsd] [?|Hde]]; try done.
  apply Hlt. by etrans.
Qed.

(** X16: a window whose start is after its end is not refused.  The report
    fetches no attendance record, and gives every student it names zero
    days, zero in each bucket and the integer percentage [0]. *)
Theorem report_of_inverted_window (w : World) (class_id : string) (s e : string)
    (rep : Report) :
  s ≠ "" → e ≠ "" → ¬ String.le s e →
  get_class_report class_id (Some s) (Some e) w = (Ok rep, w) →
  report_attendance_records class_id (Some s) (Some e) w = (Ok [], w) ∧
  report_period rep = (Some s, Some e) ∧
  (∀ st, st ∈ fetched_students class_id w → is_Some (student_statistics rep !! stu_id st)) ∧
  ∀ sid en, student_statistics rep !! sid = Some en →
    total_days en = 0 ∧ present en = 0 ∧ absent en = 0 ∧ late en = 0 ∧
    attendance_percentage en = PyInt 0.
Proof.
  intros Hs He Hlt Hrep.
  assert (fetched_attendance class_id (Some s) (Some e) w = []) as Hnone.
  { rewrite fetched_attendance_window, filter_none; [done|].
    intros r _ [_ Hin]. by apply (in_window_inverted s e (att_date r)). }
  pose proof (report_statistics _ _ _ _ _ Hrep) as Hstats.
  rewrite Hnone in Hstats. rewrite Hstats.
  split_and!.
  - by rewrite report_attendance_records_eq, Hnone.
  - rewrite get_class_report_eq in Hrep.
    destruct (find_one _ (classes w)) as [cls|]; [|done].
    assert (rep = report_of class_id (Some s) (Some e) w cls) as ->
      by (unfold report_of; congruence).
    done.
  - intros st Hst. apply stats_of_named. by exists st.
  - intros sid en (st & _ & _ & ->)%stats_entry_from_student. done.
Qed.

Lemma three_dates_report_inverted :
  get_class_report "c1" (Some "2024-02-01") (Some "2024-01-01") three_dates =
    (Ok (report_of "c1" (Some "2024-02-01") (Some "2024-01-01") three_dates class_c1),
     three_dates).
Proof. by rewrite get_class_report_eq. Qed.

Lemma february_after_january : ¬ String.le "2024-02-01" "2024-01-01".
Proof. decide_by_evaluation. Qed.

Lemma both_bounds_given : "2024-02-01" ≠ "" ∧ "2024-01-01" ≠ "".
Proof. done. Qed.

Lemma three_dates_student : nth_student 0 ∈ fetched_students "c1" three_dates.
Proof. decide_by_evaluation. Qed.

(** The three records of [three_dates], from February back to January:
    student [s0] is named, with no day counted. *)
Lemma report_of_inverted_window_witness :
  ∃ rep en,
    get_class_report "c1" (Some "2024-02-01") (Some "2024-01-01") three_dates =
      (Ok rep, three_dates) ∧
    student_statistics rep !! stu_id (nth_student 0) = Some en ∧
    total_days en = 0 ∧ attendance_percentage en = PyInt 0.
Proof.
  destruct (report_of_inverted_window three_dates "c1" "2024-02-01" "2024-01-01" _
              (proj1 both_bounds_given) (proj2 both_bounds_given)
              february_after_january three_dates_report_inverted)
    as (_ & _ & Hnamed & Hzero).
  destruct (Hnamed _ three_dates_student) as [en Hen].
  destruct (Hzero _ _ Hen) as (Hdays & _ & _ & _ & Hpct).
  eexists _, en. split; [exact three_dates_report_inverted|]. by split.
Defined.
